(** * StepCount web API: the CSV processing pipeline

    A shallow embedding of [process_csv_data] from [src/stepcount/api.py]
    and the properties of its stages: schema mapping, type validation,
    sample-rate inference, resampling, wear statistics and exclusion, the
    minimum-data guards and the minute/hour/day roll-up.

    Conventions of the embedding:
    - timestamps and durations are integers, in nanoseconds (the
      resolution of pandas' [datetime64[ns]] and [Timedelta]);
    - Python floats are modelled by [pyfloat]: an exact rational, NaN or an
      infinity; rounding is not modelled;
    - a raised exception is the [Raise] case of [result];
    - the functions of [stepcount.utils] and of the classifier are not part
      of [api.py]; they are parameters of the sections that need them. *)

From Stdlib Require Import ZArith QArith String Ascii List Lia DecimalString.
From stdpp Require Import gmap strings list sorting.

Open Scope string_scope.
Open Scope Z_scope.

(** ** Python values *)

Module Py.

(** *** Exceptions and fallible computations *)

Inductive exn_kind := ValueError | KeyError | TypeError | ZeroDivisionError.

Record exn := PyExn { exn_type : exn_kind; exn_msg : string }.

Inductive result (A : Type) : Type :=
| Ok (a : A)
| Raise (e : exn).
Arguments Ok {A} a.
Arguments Raise {A} e.

#[global] Instance result_ret : MRet result := fun A a => Ok a.
#[global] Instance result_bind : MBind result :=
  fun A B f m => match m with Ok a => f a | Raise e => Raise e end.

Definition raises {A} (r : result A) : Prop := exists e, r = Raise e.

(** [try: body except Exception as e: handler e] *)
Definition try_except {A} (body : result A) (handler : exn -> result A) : result A :=
  match body with
  | Ok a => Ok a
  | Raise e => handler e
  end.

(** *** Strings *)

Definition nl : string := String (ascii_of_nat 10) EmptyString.

Definition chars (s : string) : list ascii := list_ascii_of_string s.
Definition unchars (l : list ascii) : string := string_of_list_ascii l.

(** [s.split(sep)] for a one-character separator: never the empty list. *)
Fixpoint split (sep : ascii) (s : string) : list string :=
  match s with
  | EmptyString => [EmptyString]
  | String c s' =>
      if Ascii.eqb c sep then EmptyString :: split sep s'
      else match split sep s' with
           | h :: t => String c h :: t
           | [] => [String c EmptyString]
           end
  end.

(** [sep.join(l)] *)
Definition join (sep : string) (l : list string) : string := String.concat sep l.

(** [str(n)] for an integer. *)
Definition str_int (n : Z) : string := NilZero.string_of_int (Z.to_int n).

Definition hex_digit (n : nat) : ascii :=
  if (n <? 10)%nat then ascii_of_nat (48 + n) else ascii_of_nat (87 + n).

(** One character of [repr(s)], with [q] the quote that encloses the
    string. Bytes from 128 on stand for the UTF-8 encoding of printable
    characters and are kept. *)
Definition repr_char (q c : ascii) : string :=
  let n := nat_of_ascii c in
  if Ascii.eqb c "\" then "\\"
  else if Ascii.eqb c q then String "\" (String q EmptyString)
  else if (n =? 9)%nat then "\t"
  else if (n =? 10)%nat then "\n"
  else if (n =? 13)%nat then "\r"
  else if ((n <? 32) || (n =? 127))%nat
       then "\x" +:+ String (hex_digit (n / 16)) (String (hex_digit (n mod 16)) EmptyString)
  else String c EmptyString.

Definition has_char (c : ascii) (s : string) : bool :=
  existsb (Ascii.eqb c) (chars s).

Definition squote : ascii := ascii_of_nat 39.
Definition dquote : ascii := ascii_of_nat 34.

(** [repr(s)] for a string: single quotes, unless the string has a single
    quote and no double quote. *)
Definition repr_str (s : string) : string :=
  let q : ascii := if has_char squote s && negb (has_char dquote s) then dquote else squote in
  String q (String.concat EmptyString (map (repr_char q) (chars s))) +:+ String q EmptyString.

(** [repr] of a list, given the [repr] of its elements. *)
Definition repr_list {A} (r : A -> string) (l : list A) : string :=
  "[" +:+ join ", " (map r l) +:+ "]".

(** [str(e)] for an exception built from one message. *)
Definition str_exn (e : exn) : string :=
  match exn_type e with
  | KeyError => repr_str (exn_msg e)
  | _ => exn_msg e
  end.

(** White space in the sense of [str.isspace]. A string holds the bytes
    of its UTF-8 encoding: the white space of the ASCII range takes one
    byte; U+0085 and U+00A0 take two; U+1680, U+2000 to U+200A, U+2028,
    U+2029, U+202F, U+205F and U+3000 take three. *)
Definition is_space (c : ascii) : bool :=
  let n := nat_of_ascii c in
  ((n =? 32) || ((9 <=? n) && (n <=? 13)) || ((28 <=? n) && (n <=? 31)))%nat.

Definition two_byte_space (c1 c2 : ascii) : bool :=
  let b1 := nat_of_ascii c1 in
  let b2 := nat_of_ascii c2 in
  ((b1 =? 194) && ((b2 =? 133) || (b2 =? 160)))%nat.

Definition three_byte_space (c1 c2 c3 : ascii) : bool :=
  let b1 := nat_of_ascii c1 in
  let b2 := nat_of_ascii c2 in
  let b3 := nat_of_ascii c3 in
  (((b1 =? 225) && (b2 =? 154) && (b3 =? 128))
   || ((b1 =? 226) && (b2 =? 128)
       && (((128 <=? b3) && (b3 <=? 138)) || (b3 =? 168) || (b3 =? 169) || (b3 =? 175)))
   || ((b1 =? 226) && (b2 =? 129) && (b3 =? 159))
   || ((b1 =? 227) && (b2 =? 128) && (b3 =? 128)))%nat.

(** The number of bytes of the white space character that the bytes start
    with, 0 when they start with none; [backwards] when the bytes are read
    from the end of the string. *)
Definition space_width (backwards : bool) (l : list ascii) : nat :=
  match l with
  | c1 :: rest =>
      if is_space c1 then 1%nat
      else
        match rest with
        | c2 :: rest' =>
            if (if backwards then two_byte_space c2 c1 else two_byte_space c1 c2) then 2%nat
            else
              match rest' with
              | c3 :: _ =>
                  if (if backwards then three_byte_space c3 c2 c1
                      else three_byte_space c1 c2 c3)
                  then 3%nat else 0%nat
              | [] => 0%nat
              end
        | [] => 0%nat
        end
  | [] => 0%nat
  end.

Fixpoint lstrip_upto (fuel : nat) (backwards : bool) (l : list ascii) : list ascii :=
  match fuel with
  | O => l
  | S fuel' =>
      match space_width backwards l with
      | O => l
      | n => lstrip_upto fuel' backwards (skipn n l)
      end
  end.

Definition lstrip (backwards : bool) (l : list ascii) : list ascii :=
  lstrip_upto (length l) backwards l.

(** [s.strip()] *)
Definition strip (s : string) : string :=
  unchars (rev (lstrip true (rev (lstrip false (chars s))))).

Definition lower_char (c : ascii) : ascii :=
  let n := nat_of_ascii c in
  if ((65 <=? n) && (n <=? 90))%nat then ascii_of_nat (n + 32) else c.

(** [s.lower()] on the ASCII range. The only use is the comparison with
    ['string'], and no character outside that range has one of its letters
    as its lower case. *)
Definition lower (s : string) : string := unchars (map lower_char (chars s)).

(** Truth value of a string: non-empty. *)
Definition truthy (s : string) : bool :=
  match s with EmptyString => false | _ => true end.

(** *** Floats *)

Inductive pyfloat :=
| Fin (q : Q)
| NaN
| Inf (negative : bool).

Definition of_int (n : Z) : pyfloat := Fin (inject_Z n).

(** [a < b]: false as soon as one side is NaN. *)
Definition flt (a b : pyfloat) : bool :=
  match a, b with
  | NaN, _ | _, NaN => false
  | Fin x, Fin y => negb (Qle_bool y x)
  | Fin _, Inf neg => negb neg
  | Inf neg, Fin _ => neg
  | Inf n1, Inf n2 => n1 && negb n2
  end.

Definition fgt (a b : pyfloat) : bool := flt b a.

(** [a != b] *)
Definition fneq (a b : pyfloat) : bool :=
  match a, b with
  | Fin x, Fin y => negb (Qeq_bool x y)
  | Inf n1, Inf n2 => negb (Bool.eqb n1 n2)
  | _, _ => true
  end.

(** [1.0 / x] *)
Definition inv (x : pyfloat) : result pyfloat :=
  match x with
  | Fin q => if Qeq_bool q 0 then Raise (PyExn ZeroDivisionError "float division by zero")
             else Ok (Fin (Qred (/ q)))
  | NaN => Ok NaN
  | Inf _ => Ok (Fin 0)
  end.

(** Equality of floats as values (NaN apart, which equals nothing). *)
Definition feq (a b : pyfloat) : Prop :=
  match a, b with
  | Fin x, Fin y => (x == y)%Q
  | Inf n1, Inf n2 => n1 = n2
  | _, _ => False
  end.

End Py.
Import Py.

(** ** Tabular input

    The frame handed to [process_csv_data] comes from [pd.read_csv] or from
    [pd.DataFrame(json)]: named columns over a [RangeIndex], a cell being a
    number, a string or missing. Columns are kept as an association list:
    their order shows in messages, and renaming can produce a label twice. *)

Inductive cell :=
| CNum (q : Q)
| CStr (s : string)
| CNull.

Abbreviation DataFrame := (list (string * list cell)).

Definition columns (df : DataFrame) : list string := df.*1.

(** [csv_data[col]]: a [KeyError] without such a label, a [Series] with one,
    a sub-frame when the label occurs more than once. *)
Inductive selection :=
| NoColumn
| Series (s : list cell)
| SubFrame.

Definition getitem (col : string) (df : DataFrame) : selection :=
  match filter (fun c => c.1 = col) df with
  | [] => NoColumn
  | [c] => Series c.2
  | _ => SubFrame
  end.

(** [csv_data[col] = s] for a label that is there. *)
Definition setitem (col : string) (s : list cell) (df : DataFrame) : DataFrame :=
  map (fun c => if decide (c.1 = col) then (col, s) else c) df.

Definition isnull (c : cell) : bool :=
  match c with CNull => true | _ => false end.

Definition notna (c : cell) : bool := negb (isnull c).

(** Labels of the rows selected by a boolean mask, over a [RangeIndex]. *)
Definition mask_index (mask : list bool) : list nat :=
  (filter (fun p => p.2 = true) (zip (seq 0 (length mask)) mask)).*1.

(** [ProcessingRequest]; the thresholds only travel to the summarizers. *)
Record ProcessingRequest := {
  model_type : string;
  sample_rate : option Z;
  txyz : string;
  min_wear_per_day : Q;
  min_wear_per_hour : Q;
  min_wear_per_minute : Q;
  min_walk_per_day : Q;
  bouts_min_walk : Q;
  bouts_max_idle : Z;
  exclude_wear_below : option string;
  exclude_first_last : option string;
  start_time : option string;
  end_time : option string;
  pytorch_device : string
}.

(** The test [opt and opt.strip() and opt.lower() != 'string'] that guards
    every optional text option. *)
Definition option_given (o : option string) : bool :=
  match o with
  | None => false
  | Some s => truthy s && truthy (strip s) && negb (String.eqb (lower s) "string")
  end.

(** ** Schema mapping (Parse column names, Rename columns) *)

Definition item (i : nat) (l : list string) : string := nth i l EmptyString.

Definition missing_columns (usecols : list string) (df : DataFrame) : list string :=
  filter (fun col => col ∉ columns df) usecols.

(** The dict literal [{usecols[0]: 'time', usecols[1]: 'x', usecols[2]: 'y',
    usecols[3]: 'z'}]: a key written twice keeps its last value. *)
Definition rename_dict (usecols : list string) : gmap string string :=
  <[item 3 usecols := "z"]> (<[item 2 usecols := "y"]>
    (<[item 1 usecols := "x"]> (<[item 0 usecols := "time"]> ∅))).

(** [csv_data.rename(columns=d)] *)
Definition rename (d : gmap string string) (df : DataFrame) : DataFrame :=
  map (fun c => (default c.1 (d !! c.1), c.2)) df.

Definition missing_message (missing_cols available : list string) : string :=
  "Missing columns: " +:+ join ", " missing_cols +:+
  ". Available columns: " +:+ join ", " available.

Definition map_schema (request_txyz : string) (csv_data : DataFrame) : result DataFrame :=
  let usecols := split "," request_txyz in
  if bool_decide (length usecols ≠ 4%nat)
  then Raise (PyExn ValueError "txyz must contain exactly 4 column names: time,x,y,z")
  else
    let missing_cols := missing_columns usecols csv_data in
    match missing_cols with
    | _ :: _ => Raise (PyExn KeyError (missing_message missing_cols (columns csv_data)))
    | [] => Ok (rename (rename_dict usecols) csv_data)
    end.

(** ** Validation of the accelerometer columns *)

(** A row of the frame once the time column is the index; [None] is NaN
    (only resampling and the exclusion stage produce it). Columns passed
    through from the input are not tracked. *)
Record Row := {
  time : Z;
  x : option Q;
  y : option Q;
  z : option Q
}.

Abbreviation Frame := (list Row).

(** What [pd.to_datetime] gives for a boundary of the request, seen from
    the index of the run: NaT; a timestamp that compares with the index; or
    a timestamp that does not (one with a UTC offset against an index
    without, or the reverse), for which the comparison raises [e], a
    [TypeError]. *)
Inductive boundary :=
| NaT
| Stamp (t : Z)
| Incomparable (e : exn).

Section Ingestion.

(** [pd.to_numeric] on one string under [errors='coerce']: [None] is NaN. *)
Variable to_numeric_str : string -> option Q.
(** [str] of a float. *)
Variable float_str : Q -> string.
(** [pd.to_datetime] on one present cell under [errors='coerce']: [None] is NaT. *)
Variable to_datetime_elem : cell -> option Z.
(** [pd.to_datetime] on a boundary of the request: raises, or gives a
    boundary. *)
Variable to_datetime_scalar : string -> result boundary.

(** [pd.api.types.is_numeric_dtype]: the column that [read_csv] builds is
    numeric unless some cell stayed a string. *)
Definition is_numeric_dtype (s : list cell) : bool :=
  forallb (fun c => match c with CStr _ => false | _ => true end) s.

Definition to_numeric_coerce (c : cell) : cell :=
  match c with
  | CStr s => match to_numeric_str s with Some q => CNum q | None => CNull end
  | _ => c
  end.

Definition str_cell (c : cell) : string :=
  match c with
  | CNum q => float_str q
  | CStr s => s
  | CNull => "nan"
  end.

(** [isnull(converted) & notna(original)] *)
Definition failed_mask (converted original : list cell) : list bool :=
  zip_with (fun c o => isnull c && notna o) converted original.

(** [str(original_values.loc[idx])] *)
Definition value_at (original : list cell) (idx : nat) : string :=
  from_option str_cell EmptyString (original !! idx).

Definition user_friendly (indices : list nat) : list Z :=
  map (fun idx => Z.of_nat idx + 1) indices.

Definition non_numeric_issue (col : string) (rows : list Z) (values : list string) : string :=
  "Column '" +:+ col +:+ "' has non-numeric values at rows " +:+
  repr_list str_int rows +:+ ": " +:+ repr_list repr_str values.

Definition conversion_failed_issue (col : string) (e : exn) : string :=
  "Column '" +:+ col +:+ "' conversion failed: " +:+ str_exn e.

(** One turn of the loop [for col in ['x', 'y', 'z']] of the type check,
    on the frame and the issues gathered so far. A label that occurs twice
    selects a sub-frame, which is no numeric dtype and which
    [pd.to_numeric] refuses inside the [try]. *)
Definition validate_column (col : string) (st : DataFrame * list string)
  : result (DataFrame * list string) :=
  let '(csv_data, non_numeric_issues) := st in
  match getitem col csv_data with
  | NoColumn => Raise (PyExn KeyError col)
  | SubFrame =>
      Ok (csv_data, (non_numeric_issues ++
            [conversion_failed_issue col
               (PyExn TypeError "arg must be a list, tuple, 1-d array, or Series")])%list)
  | Series original_values =>
      if is_numeric_dtype original_values then Ok (csv_data, non_numeric_issues)
      else
        let converted := map to_numeric_coerce original_values in
        let csv_data := setitem col converted csv_data in
        let mask := failed_mask converted original_values in
        if existsb id mask then
          let failed_indices := take 5 (mask_index mask) in
          let failed_values := map (value_at original_values) failed_indices in
          Ok (csv_data, (non_numeric_issues ++
                [non_numeric_issue col (user_friendly failed_indices) failed_values])%list)
        else Ok (csv_data, non_numeric_issues)
  end.

Definition type_error_message (non_numeric_issues : list string) : string :=
  "Data type validation failed:" +:+ nl +:+ join nl non_numeric_issues +:+
  nl +:+ "Please ensure all accelerometer columns contain only numbers.".

Definition validate_types (csv_data : DataFrame) : result DataFrame :=
  st ← validate_column "x" (csv_data, []);
  st ← validate_column "y" st;
  st ← validate_column "z" st;
  match st.2 with
  | _ :: _ => Raise (PyExn ValueError (type_error_message st.2))
  | [] => Ok st.1
  end.

(** *** Missing values *)

Definition missing_issue (col : string) (rows : list Z) : string :=
  "Column '" +:+ col +:+ "' has missing values at rows: " +:+ repr_list str_int rows.

Definition check_missing_column (col : string) (csv_data : DataFrame)
  (missing_issues : list string) : result (list string) :=
  match getitem col csv_data with
  | NoColumn => Raise (PyExn KeyError col)
  | SubFrame =>
      Raise (PyExn ValueError
        "The truth value of a Series is ambiguous. Use a.empty, a.bool(), a.item(), a.any() or a.all().")
  | Series s =>
      let mask := map isnull s in
      if existsb id mask
      then Ok (missing_issues ++ [missing_issue col (user_friendly (take 5 (mask_index mask)))])%list
      else Ok missing_issues
  end.

Definition missing_error_message (missing_issues : list string) : string :=
  "Missing data found:" +:+ nl +:+ join nl missing_issues +:+
  nl +:+ "Please ensure all x, y, z values are present.".

Definition check_missing (csv_data : DataFrame) : result DataFrame :=
  issues ← check_missing_column "x" csv_data [];
  issues ← check_missing_column "y" csv_data issues;
  issues ← check_missing_column "z" csv_data issues;
  match issues with
  | _ :: _ => Raise (PyExn ValueError (missing_error_message issues))
  | [] => Ok csv_data
  end.

(** *** The time column *)

Definition to_datetime_coerce (c : cell) : option Z :=
  match c with
  | CNull => None
  | _ => to_datetime_elem c
  end.

Definition timestamp_hint : string :=
  "valid timestamps (e.g., '2023-01-01 10:00:00.000').".

Definition time_parse_message (rows : list Z) (values : list string) : string :=
  "Unable to parse time column. Invalid timestamps found at rows " +:+
  repr_list str_int rows +:+ ": " +:+ repr_list repr_str values +:+
  nl +:+ "Please ensure your time column contains " +:+ timestamp_hint.

Definition time_wrapped_message (e : exn) : string :=
  "Unable to parse time column. Please ensure your time column contains " +:+
  timestamp_hint +:+ " Error: " +:+ str_exn e.

Definition time_missing_message (rows : list Z) : string :=
  "Time column contains missing values at rows: " +:+ repr_list str_int rows +:+
  ". Please ensure all timestamps are present.".

(** Lines "Convert time column" and "Check for missing time values". The
    frame from [read_csv] has no datetime column, so the conversion always
    runs. A [ValueError] passes the handlers unchanged, any other
    exception is wrapped: the [KeyError] of a missing label is wrapped,
    the [ValueError] that [pd.to_datetime] raises on the sub-frame of a
    label that occurs twice is not. *)
Definition parse_time (csv_data : DataFrame) : result (list Z) :=
  match getitem "time" csv_data with
  | NoColumn => Raise (PyExn ValueError (time_wrapped_message (PyExn KeyError "time")))
  | SubFrame => Raise (PyExn ValueError "cannot assemble with duplicate keys")
  | Series original_time_values =>
      let parsed := map to_datetime_coerce original_time_values in
      let mask := zip_with (fun t o => bool_decide (t = None) && notna o)
                    parsed original_time_values in
      if existsb id mask then
        let failed_indices := take 5 (mask_index mask) in
        Raise (PyExn ValueError
          (time_parse_message (user_friendly failed_indices)
             (map (value_at original_time_values) failed_indices)))
      else
        let null_mask := map (fun t => bool_decide (t = None)) parsed in
        if existsb id null_mask
        then Raise (PyExn ValueError
               (time_missing_message (user_friendly (take 5 (mask_index null_mask)))))
        else Ok (omap id parsed)
  end.

Definition cell_value (c : cell) : option Q :=
  match c with CNum q => Some q | _ => None end.

Definition series_of (col : string) (csv_data : DataFrame) : list cell :=
  match getitem col csv_data with Series s => s | _ => [] end.

(** [csv_data.set_index('time')], keeping the accelerometer columns. *)
Definition set_index (times : list Z) (csv_data : DataFrame) : Frame :=
  zip_with (fun t c => {| time := t; x := cell_value c.1.1;
                          y := cell_value c.1.2; z := cell_value c.2 |})
    times (zip (zip (series_of "x" csv_data) (series_of "y" csv_data))
               (series_of "z" csv_data)).

Definition boundary_message (which literal : string) (e : exn) : string :=
  "Invalid " +:+ which +:+ " format: '" +:+ literal +:+
  "'. Please use a valid datetime format (e.g., '2023-01-01 10:00:00'). Error: " +:+
  str_exn e.

(** [csv_data[csv_data.index >= start_dt]] and
    [csv_data[csv_data.index <= end_dt]]. A comparison with NaT is false
    for every row; a comparison across tz-awareness raises. *)
Definition keep_from (start_dt : boundary) (csv_data : Frame) : result Frame :=
  match start_dt with
  | Stamp s => Ok (filter (fun r => s <= time r) csv_data)
  | NaT => Ok []
  | Incomparable e => Raise e
  end.

Definition keep_until (end_dt : boundary) (csv_data : Frame) : result Frame :=
  match end_dt with
  | Stamp e => Ok (filter (fun r => time r <= e) csv_data)
  | NaT => Ok []
  | Incomparable e => Raise e
  end.

(** Lines "Apply time filtering". *)
Definition filter_time (request : ProcessingRequest) (csv_data : Frame) : result Frame :=
  csv_data ←
    (if option_given (start_time request) then
       let literal := default EmptyString (start_time request) in
       try_except (start_dt ← to_datetime_scalar literal; keep_from start_dt csv_data)
         (fun e => Raise (PyExn ValueError (boundary_message "start_time" literal e)))
     else Ok csv_data);
  if option_given (end_time request) then
    let literal := default EmptyString (end_time request) in
    try_except (end_dt ← to_datetime_scalar literal; keep_until end_dt csv_data)
      (fun e => Raise (PyExn ValueError (boundary_message "end_time" literal e)))
  else Ok csv_data.

(** Everything of [process_csv_data] up to the frame indexed by time. *)
Definition ingest (request : ProcessingRequest) (csv_data : DataFrame) : result Frame :=
  csv_data ← map_schema (txyz request) csv_data;
  csv_data ← validate_types csv_data;
  csv_data ← check_missing csv_data;
  times ← parse_time csv_data;
  filter_time request (set_index times csv_data).

End Ingestion.

(** ** Series of timestamps and of durations *)

Definition index (csv_data : Frame) : list Z := map time csv_data.

(** [Series.diff()]: the first entry is NaT. *)
Definition diff (idx : list Z) : list (option Z) :=
  match idx with
  | [] => []
  | _ :: rest => None :: zip_with (fun a b => Some (b - a)) idx rest
  end.

Definition dropna {A} (s : list (option A)) : list A := omap id s.

Definition Zsum (l : list Z) : Z := foldr Z.add 0 l.

(** [Series.median()] of durations: NaT on the empty series, the middle
    value, or the half sum of the two middle values cut to a whole number
    of nanoseconds. *)
Definition median (s : list Z) : option Z :=
  let sorted := merge_sort Z.le s in
  let n := length sorted in
  if (n =? 0)%nat then None
  else if Nat.odd n then sorted !! (n / 2)%nat
  else
    a ← sorted !! (n / 2 - 1)%nat;
    b ← sorted !! (n / 2)%nat;
    Some ((a + b) `quot` 2).

(** [Series.mean()] of durations. *)
Definition mean (s : list Z) : option Z :=
  if (length s =? 0)%nat then None
  else Some (Zsum s `quot` Z.of_nat (length s)).

(** [Timedelta.total_seconds()]: the days, seconds and microseconds of the
    duration, so that what lies below a microsecond is dropped. NaT gives
    NaN. *)
Definition total_seconds (td : option Z) : pyfloat :=
  match td with
  | Some ns => Fin (Qred ((ns `div` 1000) # 1000000))
  | None => NaN
  end.

(** ** Resampling on a fixed grid

    [obj.resample(freq)] for a fixed-width [freq] of [w] nanoseconds, with
    pandas' defaults: bins closed and labelled on the left, anchored at
    midnight of the day of the first timestamp, one bin for every step of
    the grid from the bin of the first timestamp to the bin of the last. *)

Definition minute_ns : Z := 60000000000.
Definition hour_ns : Z := 3600000000000.
Definition day_ns : Z := 86400000000000.

Definition bin_origin (first : Z) : Z := first `div` day_ns * day_ns.

Definition bin_starts (w : Z) (times : list Z) : list Z :=
  match times with
  | [] => []
  | t0 :: _ =>
      let first := foldr Z.min t0 times in
      let last := foldr Z.max t0 times in
      let origin := bin_origin first in
      let kf := (first - origin) `div` w in
      let kl := (last - origin) `div` w in
      map (fun k => origin + k * w) (seqZ kf (kl - kf + 1))
  end.

Definition in_bin (w start t : Z) : bool := (start <=? t) && (t <? start + w).

Definition resample {A} (w : Z) (key : A -> Z) (rows : list A) : list (Z * list A) :=
  map (fun start => (start, filter (fun r => in_bin w start (key r) = true) rows))
      (bin_starts w (map key rows)).

Definition Qsum (l : list Q) : Q := foldr Qplus 0%Q l.

(** Mean of a bin, NaN skipped; NaN when nothing is left. *)
Definition mean_q (values : list (option Q)) : option Q :=
  match dropna values with
  | [] => None
  | present => Some (Qred (Qsum present / inject_Z (Z.of_nat (length present))))
  end.

(** [csv_data.resample(freq).mean()] *)
Definition resample_mean (w : Z) (csv_data : Frame) : Frame :=
  map (fun b => {| time := b.1; x := mean_q (map x b.2);
                   y := mean_q (map y b.2); z := mean_q (map z b.2) |})
      (resample w time csv_data).

(** ** Multi-resolution roll-up *)

(** A row of [minutely_data] before the roll-up: the index, and the columns
    ['Steps'] and ['ENMO(mg)'] ([None] is NaN). *)
Record Sample := {
  s_time : Z;
  s_steps : option Z;
  s_enmo : option Q
}.

(** A row of a rolled-up table. *)
Record Bucket := {
  b_start : Z;
  Steps : Z;
  ENMO : option Q
}.

(** [.resample(freq).agg({'Steps': 'sum', 'ENMO(mg)': 'mean'})]: the sum
    skips NaN and is 0 on an empty bin, the mean is NaN there. *)
Definition agg (w : Z) (table : list Sample) : list Bucket :=
  map (fun b => {| b_start := b.1;
                   Steps := Zsum (dropna (map s_steps b.2));
                   ENMO := mean_q (map s_enmo b.2) |})
      (resample w s_time table).

(** [.fillna(0)] *)
Definition fillna0 (b : Bucket) : Bucket :=
  {| b_start := b_start b; Steps := Steps b; ENMO := Some (default 0%Q (ENMO b)) |}.

(** A rolled-up table read as the input of the next roll-up. *)
Definition as_samples (table : list Bucket) : list Sample :=
  map (fun b => {| s_time := b_start b; s_steps := Some (Steps b); s_enmo := ENMO b |}) table.

Definition minutely (samples : list Sample) : list Bucket :=
  map fillna0 (agg minute_ns samples).

Definition hourly (minutely_data : list Bucket) : list Bucket :=
  agg hour_ns (as_samples minutely_data).

Definition daily (minutely_data : list Bucket) : list Bucket :=
  agg day_ns (as_samples minutely_data).

(** Total of the rows of [table] whose bucket starts within the day that
    starts at [d]. *)
Definition in_day (d t : Z) : bool := in_bin day_ns d t.

Definition steps_within_day (d : Z) (table : list Bucket) : Z :=
  Zsum (map Steps (filter (fun b => in_day d (b_start b) = true) table)).

(** ** The pipeline on the indexed frame *)

(** What [utils.infer_freq] hands back, as the code goes on to use it. *)
Inductive freq_value :=
| FreqNone                          (* [None] *)
| FreqTimedelta (td : option Z)     (* has [total_seconds]; [None] is NaT *)
| FreqNumber (f : pyfloat)          (* [float(sample_rate)] is [f] *)
| FreqOther (e : exn).              (* [float(sample_rate)] raises [e] *)

Definition default_rate : pyfloat := of_int 104.

(** [sample_rate < 1 or sample_rate > 1000] *)
Definition unreasonable (sample_rate : pyfloat) : bool :=
  flt sample_rate (of_int 1) || fgt sample_rate (of_int 1000).

(** The [except] branch of "Calculate sample rate". *)
Definition infer_fallback (csv_data : Frame) : result pyfloat :=
  if (1 <? length csv_data)%nat then
    let time_diffs := dropna (diff (index csv_data)) in
    if (0 <? length time_diffs)%nat then
      match median time_diffs with
      | Some median_diff =>
          sample_rate ← inv (total_seconds (Some median_diff));
          if unreasonable sample_rate then
            match mean time_diffs with
            | Some mean_diff => inv (total_seconds (Some mean_diff))
            | None => Ok default_rate
            end
          else Ok default_rate
      | None => Ok default_rate
      end
    else Ok default_rate
  else Ok default_rate.

(** The frequency that the median of the consecutive deltas converts to,
    when there is one. *)
Definition median_rate (csv_data : Frame) : option pyfloat :=
  median_diff ← median (dropna (diff (index csv_data)));
  match inv (total_seconds (Some median_diff)) with
  | Ok f => Some f
  | Raise _ => None
  end.

(** [request.model_type == 'ssl'] fixes the target frequency. *)
Definition resample_hz (request : ProcessingRequest) : option Z :=
  if String.eqb (model_type request) "ssl" then Some 30 else None.

Definition insufficient_resample_message (n : nat) : string :=
  "Insufficient data for resampling. Need at least 10 data points, got " +:+
  str_int (Z.of_nat n) +:+
  ". Please provide more data or use a different model type.".

Definition failed_resample_message (hz : Z) (e : exn) : string :=
  "Failed to resample data to " +:+ str_int hz +:+ "Hz: " +:+ str_exn e +:+
  ". The data may have irregular timestamps or insufficient points.".

Definition insufficient_rf_message (n : nat) : string :=
  "Insufficient data for Random Forest model. Need at least 50 data points, got " +:+
  str_int (Z.of_nat n) +:+
  ". Please provide more data or use the SSL model instead.".

Definition no_valid_data_message : string := "No valid data to process after filtering".

(** [csv_data[['x', 'y', 'z']].isna().any(axis=1).all()] *)
Definition all_rows_have_null (csv_data : Frame) : bool :=
  forallb (fun r => bool_decide (x r = None) || bool_decide (y r = None)
                    || bool_decide (z r = None)) csv_data.

Definition load_failed_message (model : string) (e : exn) : string :=
  "Failed to load " +:+ model +:+ " model: " +:+ str_exn e.

Definition prediction_failed_message (e : exn) : string :=
  "Model prediction failed: " +:+ str_exn e +:+
  ". This might be due to insufficient data or incompatible data format.".

(** [len(csv_data) / (sample_rate * 3600)] *)
Definition duration_hours (n : nat) (sample_rate : pyfloat) : result pyfloat :=
  match sample_rate with
  | Fin q => if Qeq_bool q 0 then Raise (PyExn ZeroDivisionError "float division by zero")
             else Ok (Fin (Qred (inject_Z (Z.of_nat n) / (q * 3600))))
  | NaN => Ok NaN
  | Inf _ => Ok (Fin 0)
  end.

Section Pipeline.

(** Collaborators from [stepcount.utils] and [stepcount.stepcount]. *)
Variable infer_freq : list Z -> result freq_value.
(** [csv_data.resample(freq).mean()] on the whole frame, for a grid of the
    given width in nanoseconds. It also averages the columns passed through
    from the input, which [Frame] does not track, so whether it raises is
    not decided here; [resample_mean] is what it computes on the
    accelerometer columns. *)
Variable regrid : Z -> Frame -> result Frame.
Variable WearValue : Type.
Variable calculate_wear_stats : Frame -> result (gmap string WearValue).
Variable drop_first_last_days : Frame -> string -> result Frame.
Variable flag_wear_below_days : Frame -> string -> result Frame.
(** [get_model] and the configuration of the instance, the first [try]. *)
Variable Classifier : Type.
Variable get_model : string -> string -> pyfloat -> result Classifier.
(** The second [try]: the rate made a plain number once more, then
    [model.predict_from_frame], which gives the step series [Y] over its
    timestamps (a count of steps, or NaN). The other two values it returns
    only go to files. *)
Variable predict_from_frame : Classifier -> pyfloat -> Frame -> result (gmap Z (option Z)).
(** The seven calls to the summarizers, taken together. *)
Variable Summaries : Type.
Variable summarize : ProcessingRequest -> Classifier -> Frame -> gmap Z (option Z)
                     -> result Summaries.
(** [sqrt(x**2 + y**2 + z**2) - 1] on one row. *)
Variable enmo : Row -> option Q.
(** [convert_pandas_to_native] on one value. *)
Variable to_native : WearValue -> WearValue.

(** The [try] block of "Calculate sample rate". The text of its own
    [ValueError]s never leaves the handler. *)
Definition infer_primary (idx : list Z) : result pyfloat :=
  sample_rate ← infer_freq idx;
  sample_rate ←
    match sample_rate with
    | FreqNone => Raise (PyExn ValueError "infer_freq returned None")
    | FreqTimedelta td => inv (total_seconds td)
    | FreqNumber f => Ok f
    | FreqOther e => Raise e
    end;
  if unreasonable sample_rate
  then Raise (PyExn ValueError "Unreasonable sample rate")
  else Ok sample_rate.

(** [request.sample_rate is None or request.sample_rate == 0] *)
Definition rate_not_provided (request : ProcessingRequest) : bool :=
  match sample_rate request with
  | None => true
  | Some n => n =? 0
  end.

(** Lines "Calculate sample rate if not provided". *)
Definition calculate_sample_rate (request : ProcessingRequest) (csv_data : Frame)
  : result pyfloat :=
  if rate_not_provided request then
    try_except (infer_primary (index csv_data)) (fun _ => infer_fallback csv_data)
  else Ok (of_int (default 0 (sample_rate request))).

(** Lines "Resample if needed". [int(1000 / resample_hz)] milliseconds is
    the width of the grid. *)
Definition resample_if_needed (request : ProcessingRequest) (csv_data : Frame)
  (sample_rate : pyfloat) : result (Frame * pyfloat) :=
  match resample_hz request with
  | Some hz =>
      if negb (hz =? 0) && fneq sample_rate (of_int hz) then
        if (length csv_data <? 10)%nat
        then Raise (PyExn ValueError (insufficient_resample_message (length csv_data)))
        else
          try_except
            (let freq_ms := 1000 `quot` hz in
             csv_data ← regrid (freq_ms * 1000000) csv_data;
             Ok (csv_data, of_int hz))
            (fun e => Raise (PyExn ValueError (failed_resample_message hz e)))
      else Ok (csv_data, sample_rate)
  | None => Ok (csv_data, sample_rate)
  end.

(** What [process_csv_data] returns: one of the two dictionaries with an
    ["error"] key, or the compiled results, kept here with the three tables
    written next to them. The totals of the results are entries of the
    step summary and stay inside [res_summaries]; the plot and the files
    of the step series are left out. *)
Record Results := {
  res_wear_stats : gmap string WearValue;
  res_summaries : Summaries;
  res_sample_rate : pyfloat;
  res_data_duration_hours : pyfloat;
  res_minutely : list Bucket;
  res_hourly : list Bucket;
  res_daily : list Bucket
}.

Inductive outcome :=
| InsufficientData (error : string) (data_points minimum_required : nat)
| NoValidData (error : string) (wear_stats : gmap string WearValue)
| Completed (results : Results).

(** Lines "Apply exclusions". *)
Definition apply_exclusions (request : ProcessingRequest) (csv_data : Frame) : result Frame :=
  csv_data ←
    (if option_given (exclude_first_last request)
     then drop_first_last_days csv_data (default EmptyString (exclude_first_last request))
     else Ok csv_data);
  if option_given (exclude_wear_below request)
  then flag_wear_below_days csv_data (default EmptyString (exclude_wear_below request))
  else Ok csv_data.

(** [minutely_data['Steps'] = Y] aligns [Y] on the index of the frame. *)
Definition with_steps (Y : gmap Z (option Z)) (csv_data : Frame) : list Sample :=
  map (fun r => {| s_time := time r; s_steps := mjoin (Y !! time r); s_enmo := enmo r |})
      csv_data.

(** From "Load model" to "Compile results". *)
Definition run_model (request : ProcessingRequest) (csv_data : Frame)
  (sample_rate : pyfloat) (wear_stats : gmap string WearValue) : result outcome :=
  model ← try_except (get_model (model_type request) (pytorch_device request) sample_rate)
            (fun e => Raise (PyExn ValueError (load_failed_message (model_type request) e)));
  Y ← try_except (predict_from_frame model sample_rate csv_data)
        (fun e => Raise (PyExn ValueError (prediction_failed_message e)));
  summaries ← summarize request model csv_data Y;
  let minutely_data := minutely (with_steps Y csv_data) in
  let hourly_data := hourly minutely_data in
  let daily_data := daily minutely_data in
  hours ← duration_hours (length csv_data) sample_rate;
  Ok (Completed {| res_wear_stats := to_native <$> wear_stats;
                   res_summaries := summaries;
                   res_sample_rate := sample_rate;
                   res_data_duration_hours := hours;
                   res_minutely := minutely_data;
                   res_hourly := hourly_data;
                   res_daily := daily_data |}).

(** From "Calculate wear stats" to "Check if we have data to process":
    either an early return, or the frame and the merged statistics that go
    on to the model. [wear_stats.update(d)] is [d ∪ wear_stats]. *)
Definition wear_and_guards (request : ProcessingRequest) (csv_data : Frame)
  : result (outcome + Frame * gmap string WearValue) :=
  wear_stats ← calculate_wear_stats csv_data;
  if String.eqb (model_type request) "rf" && (length csv_data <? 50)%nat then
    Ok (inl (InsufficientData (insufficient_rf_message (length csv_data))
               (length csv_data) 50))
  else
    csv_data ← apply_exclusions request csv_data;
    updated ← calculate_wear_stats csv_data;
    let wear_stats := updated ∪ wear_stats in
    if (length csv_data =? 0)%nat || all_rows_have_null csv_data
    then Ok (inl (NoValidData no_valid_data_message wear_stats))
    else Ok (inr (csv_data, wear_stats)).

(** [process_csv_data] from the frame indexed by time on. *)
Definition process_frame (request : ProcessingRequest) (csv_data : Frame) : result outcome :=
  sample_rate ← calculate_sample_rate request csv_data;
  resampled ← resample_if_needed request csv_data sample_rate;
  checked ← wear_and_guards request resampled.1;
  match checked with
  | inl early => Ok early
  | inr (csv_data, wear_stats) => run_model request csv_data resampled.2 wear_stats
  end.

(** The readers of the ingestion stages, and the whole function. *)
Variable to_numeric_str : string -> option Q.
Variable float_str : Q -> string.
Variable to_datetime_elem : cell -> option Z.
Variable to_datetime_scalar : string -> result boundary.

Definition process_csv_data (csv_data : DataFrame) (request : ProcessingRequest)
  : result outcome :=
  csv_data ← ingest to_numeric_str float_str to_datetime_elem to_datetime_scalar
               request csv_data;
  process_frame request csv_data.

End Pipeline.

(** * Properties *)

(** ** Python helpers on examples *)

Example split_default : split "," "time,x,y,z" = ["time"; "x"; "y"; "z"].
Proof. reflexivity. Qed.

Example split_empty : split "," EmptyString = [EmptyString].
Proof. reflexivity. Qed.

Example split_trailing : split "," "a,b," = ["a"; "b"; EmptyString].
Proof. reflexivity. Qed.

Example repr_plain : repr_str "abc" = "'abc'".
Proof. reflexivity. Qed.

Example repr_quote : repr_str "it's" = String dquote "it's" +:+ String dquote EmptyString.
Proof. reflexivity. Qed.

Example repr_rows : repr_list str_int [3; 12] = "[3, 12]".
Proof. reflexivity. Qed.

Lemma raises_Raise {A} (e : exn) : raises (@Raise A e).
Proof. by exists e. Qed.

Lemma raises_Ok {A} (a : A) : ¬ raises (Ok a).
Proof. by intros [e He]. Qed.

Lemma bind_Ok {A B} (a : A) (f : A -> result B) : (Ok a ≫= f) = f a.
Proof. reflexivity. Qed.

Lemma bind_Raise {A B} (e : exn) (f : A -> result B) : (Raise e ≫= f) = Raise e.
Proof. reflexivity. Qed.

(** ** Schema mapping *)

Definition canonical : list string := ["time"; "x"; "y"; "z"].

(** The frame [df'] is [df] with every column that the mapping names
    carrying its canonical name, the other columns and all cells as they
    were. *)
Definition renamed_to_canonical (usecols : list string) (df df' : DataFrame) : Prop :=
  df'.*2 = df.*2 /\
  forall (j : nat) (name : string), columns df !! j = Some name ->
    (forall i : nat, usecols !! i = Some name -> columns df' !! j = canonical !! i) /\
    (name ∉ usecols -> columns df' !! j = Some name).

Definition some_column_absent (usecols : list string) (df : DataFrame) : Prop :=
  exists c, c ∈ usecols /\ c ∉ columns df.

(** The failure half of the contract: when the mapping fails, and with
    which message. *)
Definition schema_failures (request_txyz : string) (df : DataFrame) : Prop :=
  let usecols := split "," request_txyz in
  (raises (map_schema request_txyz df) <->
     length usecols ≠ 4%nat \/ some_column_absent usecols df) /\
  (length usecols = 4%nat -> some_column_absent usecols df ->
     exists missing_cols,
       map_schema request_txyz df
         = Raise (PyExn KeyError
             ("Missing columns: " +:+ join ", " missing_cols +:+
              ". Available columns: " +:+ join ", " (columns df))) /\
       forall c, c ∈ missing_cols <-> c ∈ usecols /\ c ∉ columns df).

(** The success half, as the contract words it. *)
Definition schema_success (request_txyz : string) (df : DataFrame) : Prop :=
  let usecols := split "," request_txyz in
  length usecols = 4%nat -> ¬ some_column_absent usecols df ->
  exists df', map_schema request_txyz df = Ok df' /\ renamed_to_canonical usecols df df'.

(** The success half as the code has it, also for a name given more than
    once: the mapping succeeds, every cell stays, a column that the mapping
    names carries the canonical name of the last place where it is named,
    and the other columns keep their names. *)
Definition schema_last_wins (request_txyz : string) (df : DataFrame) : Prop :=
  let usecols := split "," request_txyz in
  length usecols = 4%nat -> ¬ some_column_absent usecols df ->
  exists df', map_schema request_txyz df = Ok df' /\ df'.*2 = df.*2 /\
    forall (j : nat) (name : string), columns df !! j = Some name ->
      (forall i : nat, usecols !! i = Some name ->
         (forall i' : nat, (i < i')%nat -> usecols !! i' ≠ Some name) ->
         columns df' !! j = canonical !! i) /\
      (name ∉ usecols -> columns df' !! j = Some name).

Lemma missing_columns_spec (usecols : list string) (df : DataFrame) (c : string) :
  c ∈ missing_columns usecols df <-> c ∈ usecols /\ c ∉ columns df.
Proof. unfold missing_columns. rewrite list_elem_of_filter. tauto. Qed.

Lemma missing_columns_nil (usecols : list string) (df : DataFrame) :
  missing_columns usecols df = [] <-> ¬ some_column_absent usecols df.
Proof.
  split.
  - intros Hnil (c & Hc & Hn).
    assert (c ∈ missing_columns usecols df) as Hin by by apply missing_columns_spec.
    rewrite Hnil in Hin. by apply elem_of_nil in Hin.
  - intros Hno. destruct (missing_columns usecols df) as [|c l] eqn:E; [done|].
    exfalso. apply Hno. exists c. apply missing_columns_spec. rewrite E. left.
Qed.

Lemma map_schema_failures (request_txyz : string) (df : DataFrame) :
  schema_failures request_txyz df.
Proof.
  unfold schema_failures, map_schema. cbv zeta.
  set (usecols := split "," request_txyz).
  split.
  - case_bool_decide as Hlen.
    + split; [by left | intros _; apply raises_Raise].
    + destruct (missing_columns usecols df) as [|c l] eqn:E.
      * split; [intros H; by apply raises_Ok in H|].
        intros [H|H]; [done|]. by apply missing_columns_nil in E.
      * split; [|intros _; apply raises_Raise].
        intros _. right. exists c. apply missing_columns_spec. rewrite E. left.
  - intros Hlen Habs. case_bool_decide; [done|].
    destruct (missing_columns usecols df) as [|c l] eqn:E.
    + by apply missing_columns_nil in E.
    + exists (c :: l). split; [done|]. intros c'. rewrite <- E.
      apply missing_columns_spec.
Qed.

Lemma rename_cells (d : gmap string string) (df : DataFrame) : (rename d df).*2 = df.*2.
Proof. unfold rename. induction df as [|c df IH]; [done|]. cbn. by rewrite IH. Qed.

Lemma rename_columns_lookup (d : gmap string string) (df : DataFrame) (j : nat) :
  columns (rename d df) !! j = (fun c => default c (d !! c)) <$> columns df !! j.
Proof.
  unfold columns, rename. rewrite !list_lookup_fmap.
  by destruct (df !! j) as [[c s]|].
Qed.

Lemma rename_dict_named (u0 u1 u2 u3 : string) (i : nat) (name : string) :
  NoDup [u0; u1; u2; u3] ->
  [u0; u1; u2; u3] !! i = Some name ->
  Some (default name (rename_dict [u0; u1; u2; u3] !! name)) = canonical !! i.
Proof.
  intros Hnd Hi. unfold rename_dict, item; cbn.
  apply NoDup_cons in Hnd as [H0 Hnd]. apply NoDup_cons in Hnd as [H1 Hnd].
  apply NoDup_cons in Hnd as [H2 _].
  rewrite !elem_of_cons in H0. rewrite !elem_of_cons in H1. rewrite !elem_of_cons in H2.
  destruct i as [|[|[|[|i]]]]; cbn in Hi; try done; injection Hi as <-;
    repeat (rewrite lookup_insert_eq || (rewrite lookup_insert_ne; [|intros ?; subst; tauto]));
    done.
Qed.

Lemma rename_dict_other (usecols : list string) (name : string) :
  length usecols = 4%nat -> name ∉ usecols -> rename_dict usecols !! name = None.
Proof.
  intros Hlen Hn.
  destruct usecols as [|u0 [|u1 [|u2 [|u3 [|]]]]]; try done.
  unfold rename_dict, item; cbn. rewrite !elem_of_cons in Hn.
  repeat (rewrite lookup_insert_ne; [|intros ?; subst; tauto]). done.
Qed.

Lemma map_schema_renames (request_txyz : string) (df : DataFrame) :
  NoDup (split "," request_txyz) -> schema_success request_txyz df.
Proof.
  unfold schema_success, map_schema. cbv zeta.
  set (usecols := split "," request_txyz). intros Hnd Hlen Hpres.
  case_bool_decide; [done|].
  apply missing_columns_nil in Hpres. rewrite Hpres.
  eexists; split; [done|]. split; [apply rename_cells|].
  intros j name Hj. rewrite rename_columns_lookup, Hj. cbn. split.
  - intros i Hi.
    destruct usecols as [|u0 [|u1 [|u2 [|u3 [|]]]]]; try done.
    by apply rename_dict_named.
  - intros Hn. by rewrite rename_dict_other.
Qed.

Lemma rename_dict_last (u0 u1 u2 u3 : string) (i : nat) (name : string) :
  [u0; u1; u2; u3] !! i = Some name ->
  (forall i' : nat, (i < i')%nat -> [u0; u1; u2; u3] !! i' ≠ Some name) ->
  Some (default name (rename_dict [u0; u1; u2; u3] !! name)) = canonical !! i.
Proof.
  intros Hi Hlast. unfold rename_dict, item; cbn.
  assert ((1 <= i)%nat \/ u1 ≠ name) as H1.
  { destruct (decide (1 <= i)%nat); [by left|right].
    intros ->. apply (Hlast 1%nat); [lia | done]. }
  assert ((2 <= i)%nat \/ u2 ≠ name) as H2.
  { destruct (decide (2 <= i)%nat); [by left|right].
    intros ->. apply (Hlast 2%nat); [lia | done]. }
  assert ((3 <= i)%nat \/ u3 ≠ name) as H3.
  { destruct (decide (3 <= i)%nat); [by left|right].
    intros ->. apply (Hlast 3%nat); [lia | done]. }
  destruct i as [|[|[|[|i]]]]; cbn in Hi; try done; injection Hi as <-;
    repeat (rewrite lookup_insert_eq
            || (rewrite lookup_insert_ne; [|intros ?; subst; intuition (lia || congruence)]));
    done.
Qed.

Lemma map_schema_last_wins (request_txyz : string) (df : DataFrame) :
  schema_last_wins request_txyz df.
Proof.
  unfold schema_last_wins, map_schema. cbv zeta.
  set (usecols := split "," request_txyz). intros Hlen Hpres.
  case_bool_decide; [done|].
  apply missing_columns_nil in Hpres. rewrite Hpres.
  eexists; split; [done|]. split; [apply rename_cells|].
  intros j name Hj. rewrite rename_columns_lookup, Hj. cbn. split.
  - intros i Hi Hlast.
    destruct usecols as [|u0 [|u1 [|u2 [|u3 [|]]]]]; try done.
    by apply rename_dict_last.
  - intros Hn. by rewrite rename_dict_other.
Qed.

(** C7, as amended. Schema mapping raises exactly when the list has not 4
    names or names a column that the input lacks; for an absent column the
    [KeyError] message lists every missing name and all available columns;
    otherwise the mapping succeeds, a column named more than once gets the
    canonical name of the last place where it is named, and when the four
    names are pairwise distinct the named columns are renamed to time, x,
    y and z and the rest is unchanged. *)
Theorem C7_schema_mapping_distinct_names (request_txyz : string) (df : DataFrame) :
  schema_failures request_txyz df /\
  schema_last_wins request_txyz df /\
  (NoDup (split "," request_txyz) -> schema_success request_txyz df).
Proof.
  split; [apply map_schema_failures|]. split; [apply map_schema_last_wins|].
  apply map_schema_renames.
Qed.

Definition frame_abc : DataFrame := [("a", [CNum 1]); ("b", [CNum 2]); ("c", [CNum 3])].

(** C7 as stated fails when a name is repeated: with the mapping [a,a,b,c]
    on the columns a, b, c the dict literal keeps [a -> x], the mapping
    succeeds and no column is called time. *)
Lemma C7_repeated_name_counterexample :
  ¬ (schema_failures "a,a,b,c" frame_abc /\ schema_success "a,a,b,c" frame_abc).
Proof.
  intros [_ Hs]. unfold schema_success in Hs. cbv zeta in Hs.
  destruct Hs as (df' & Hmap & _ & Hren).
  - reflexivity.
  - intros (c & Hc & Hn). apply Hn.
    change (split "," "a,a,b,c") with ["a"; "a"; "b"; "c"] in Hc.
    change (columns frame_abc) with ["a"; "b"; "c"].
    rewrite !elem_of_cons in Hc. rewrite !elem_of_cons.
    rewrite elem_of_nil in Hc. tauto.
  - vm_compute in Hmap. injection Hmap as <-.
    destruct (Hren 0%nat "a" eq_refl) as [Hnamed _].
    specialize (Hnamed 0%nat eq_refl). vm_compute in Hnamed. discriminate.
Qed.

Lemma C7_schema_mapping_witness :
  NoDup (split "," "t,ax,ay,az") /\
  schema_success "t,ax,ay,az"
    [("t", [CStr "2023-01-01"]); ("ax", [CNum 0]); ("ay", [CNum 0]); ("az", [CNum 1])] /\
  (exists df', map_schema "a,a,b,c" frame_abc = Ok df' /\
     columns df' !! 0%nat = Some "x" /\ columns df' !! 1%nat = Some "y" /\
     columns df' !! 2%nat = Some "z") /\
  (exists missing_cols,
     map_schema "t,b,c,w" frame_abc
     = Raise (PyExn KeyError
         ("Missing columns: " +:+ join ", " missing_cols +:+
          ". Available columns: a, b, c")) /\
     "t" ∈ missing_cols /\ "w" ∈ missing_cols /\ "b" ∉ missing_cols).
Proof.
  assert (NoDup (split "," "t,ax,ay,az")) as Hnd.
  { apply (bool_decide_unpack _). vm_compute. exact I. }
  split; [exact Hnd|]. split.
  { exact (proj2 (proj2 (C7_schema_mapping_distinct_names "t,ax,ay,az"
      [("t", [CStr "2023-01-01"]); ("ax", [CNum 0]); ("ay", [CNum 0]); ("az", [CNum 1])]))
      Hnd). }
  split.
  - destruct (proj1 (proj2 (C7_schema_mapping_distinct_names "a,a,b,c" frame_abc)))
      as (df' & Hmap & _ & Hnames).
    + reflexivity.
    + intros (c & Hc & Hn). apply Hn.
      change (split "," "a,a,b,c") with ["a"; "a"; "b"; "c"] in Hc.
      change (columns frame_abc) with ["a"; "b"; "c"].
      rewrite !elem_of_cons in Hc. rewrite !elem_of_cons.
      rewrite elem_of_nil in Hc. tauto.
    + exists df'. split; [exact Hmap|].
      assert (forall i' : nat, (1 < i')%nat ->
                split "," "a,a,b,c" !! i' ≠ Some "a") as Ha.
      { intros [|[|[|[|i']]]] Hi'; try lia; discriminate. }
      assert (forall i' : nat, (2 < i')%nat ->
                split "," "a,a,b,c" !! i' ≠ Some "b") as Hb.
      { intros [|[|[|[|i']]]] Hi'; try lia; discriminate. }
      assert (forall i' : nat, (3 < i')%nat ->
                split "," "a,a,b,c" !! i' ≠ Some "c") as Hc.
      { intros [|[|[|[|i']]]] Hi'; try lia; discriminate. }
      split; [|split].
      * exact (proj1 (Hnames 0%nat "a" eq_refl) 1%nat eq_refl Ha).
      * exact (proj1 (Hnames 1%nat "b" eq_refl) 2%nat eq_refl Hb).
      * exact (proj1 (Hnames 2%nat "c" eq_refl) 3%nat eq_refl Hc).
  - destruct (proj2 (proj1 (C7_schema_mapping_distinct_names "t,b,c,w" frame_abc)))
      as (missing_cols & Hraise & Hmissing).
    + reflexivity.
    + exists "w". split; apply (bool_decide_unpack _); vm_compute; exact I.
    + exists missing_cols. split; [exact Hraise|].
      split; [|split].
      * apply Hmissing. split; apply (bool_decide_unpack _); vm_compute; exact I.
      * apply Hmissing. split; apply (bool_decide_unpack _); vm_compute; exact I.
      * intros [_ Hb]%Hmissing. apply Hb. apply (bool_decide_unpack _). vm_compute. exact I.
Defined.

(** ** Masks over a [RangeIndex] *)

Definition mask_index_from (start : nat) (mask : list bool) : list nat :=
  (filter (fun p => p.2 = true) (zip (seq start (length mask)) mask)).*1.

Lemma mask_index_from_cons (start : nat) (b : bool) (mask : list bool) :
  mask_index_from start (b :: mask)
  = if b then start :: mask_index_from (S start) mask else mask_index_from (S start) mask.
Proof.
  unfold mask_index_from. cbn [length seq zip zip_with].
  rewrite filter_cons. destruct b; cbn; case_decide; done.
Qed.

Lemma mask_index_from_spec (mask : list bool) (start i : nat) :
  i ∈ mask_index_from start mask <-> (start <= i)%nat /\ mask !! (i - start)%nat = Some true.
Proof.
  revert start. induction mask as [|b mask IH]; intros start.
  - unfold mask_index_from. cbn. rewrite elem_of_nil. split; [tauto | intros [_ H]; discriminate].
  - rewrite mask_index_from_cons.
    assert (i ∈ mask_index_from (S start) mask <->
            (start < i)%nat /\ (b :: mask) !! (i - start)%nat = Some true) as Hrec.
    { rewrite IH. split.
      - intros [Hle H]. split; [lia|].
        replace (i - start)%nat with (S (i - S start)) by lia. done.
      - intros [Hlt H]. split; [lia|].
        replace (i - start)%nat with (S (i - S start)) in H by lia. done. }
    destruct (decide (i = start)) as [->|Hne].
    + replace (start - start)%nat with 0%nat in * by lia. cbn in *.
      destruct b.
      * rewrite elem_of_cons. split; [intros _; split; [lia | done] | intros _; by left].
      * rewrite Hrec. split; [lia | intros [_ H]; discriminate].
    + destruct b.
      * rewrite elem_of_cons, Hrec. split; [intros [?|[? ?]]; [done | split; [lia | done]]|].
        intros [? ?]. right. split; [lia | done].
      * rewrite Hrec. split; intros [? ?]; (split; [lia | done]).
Qed.

Lemma mask_index_from_ascending (mask : list bool) (start k v : nat) :
  mask_index_from start mask !! k = Some v -> (start + k <= v)%nat.
Proof.
  revert start k. induction mask as [|b mask IH]; intros start k.
  - unfold mask_index_from. cbn. done.
  - rewrite mask_index_from_cons. destruct b.
    + destruct k as [|k]; cbn.
      * intros [= <-]. lia.
      * intros H. apply IH in H. lia.
    + intros H. apply IH in H. lia.
Qed.

Lemma mask_index_spec (mask : list bool) (i : nat) :
  i ∈ mask_index mask <-> mask !! i = Some true.
Proof.
  change (mask_index mask) with (mask_index_from 0 mask).
  rewrite mask_index_from_spec. replace (i - 0)%nat with i by lia.
  split; [tauto | split; [lia | done]].
Qed.

(** A selected row whose label is below [n] is among the first [n]. *)
Lemma mask_index_early (mask : list bool) (n i : nat) :
  (i < n)%nat -> mask !! i = Some true -> i ∈ take n (mask_index mask).
Proof.
  intros Hi Hm. apply mask_index_spec in Hm.
  apply list_elem_of_lookup in Hm as [k Hk].
  apply list_elem_of_lookup. exists k. rewrite lookup_take_lt; [done|].
  change (mask_index mask) with (mask_index_from 0 mask) in Hk.
  apply mask_index_from_ascending in Hk. lia.
Qed.

Lemma existsb_id_lookup (mask : list bool) :
  existsb id mask = true <-> exists i, mask !! i = Some true.
Proof.
  rewrite existsb_exists. split.
  - intros (b & Hin & Hb). unfold id in Hb. subst b.
    apply list_elem_of_In, list_elem_of_lookup in Hin. done.
  - intros [i Hi]. exists true. split; [|done].
    apply list_elem_of_In, list_elem_of_lookup. by exists i.
Qed.

(** ** Selection and assignment of columns *)

Lemma filter_setitem_ne (col col' : string) (s : list cell) (df : DataFrame) :
  col ≠ col' ->
  filter (fun c => c.1 = col) (setitem col' s df) = filter (fun c => c.1 = col) df.
Proof.
  intros Hne. unfold setitem. induction df as [|[n v] df IH]; [done|].
  cbn [map]. rewrite !filter_cons, IH. cbn.
  destruct (decide (n = col')) as [->|Hn]; cbn; repeat case_decide; done.
Qed.

Lemma getitem_setitem_ne (col col' : string) (s : list cell) (df : DataFrame) :
  col ≠ col' -> getitem col (setitem col' s df) = getitem col df.
Proof. intros Hne. unfold getitem. by rewrite filter_setitem_ne. Qed.

(** ** Validation of the accelerometer columns *)

Section TypeValidation.

Variable to_numeric_str : string -> option Q.
Variable float_str : Q -> string.

Local Abbreviation coerce := (to_numeric_coerce to_numeric_str).

(** Row [i] (from 0) of the column holds the string [v], which is no
    number. *)
Definition non_numeric_at (s : list cell) (i : nat) (v : string) : Prop :=
  s !! i = Some (CStr v) /\ to_numeric_str v = None.

Definition failing_rows (s : list cell) : list nat :=
  mask_index (failed_mask (map coerce s) s).

Definition reported_rows (s : list cell) : list Z :=
  user_friendly (take 5 (failing_rows s)).

Definition reported_values (s : list cell) : list string :=
  map (value_at float_str s) (take 5 (failing_rows s)).

(** The report names row [r] (from 1) together with the value [v]. *)
Definition listed (s : list cell) (r : Z) (v : string) : Prop :=
  exists k : nat, reported_rows s !! k = Some r /\ reported_values s !! k = Some v.

Definition report (col : string) (s : list cell) : string :=
  non_numeric_issue col (reported_rows s) (reported_values s).

(** What one column adds to the issues. *)
Definition column_issues (col : string) (s : list cell) : list string :=
  if is_numeric_dtype s then []
  else if existsb id (failed_mask (map coerce s) s) then [report col s]
  else [].

Definition xyz_issues (sx sy sz : list cell) : list string :=
  (column_issues "x" sx ++ column_issues "y" sy ++ column_issues "z" sz)%list.

Lemma failed_mask_lookup (s : list cell) (i : nat) :
  failed_mask (map coerce s) s !! i = Some true <-> exists v, non_numeric_at s i v.
Proof.
  unfold failed_mask, non_numeric_at. rewrite lookup_zip_with, list_lookup_fmap.
  destruct (s !! i) as [c|] eqn:E; cbn.
  - destruct c as [q|v|]; cbn.
    + split; [discriminate | intros (v & [=] & _)].
    + destruct (to_numeric_str v) eqn:Ev; cbn.
      * split; [discriminate | intros (v' & [= <-] & Hn); congruence].
      * split; [intros _; by exists v | done].
    + split; [discriminate | intros (v & [=] & _)].
  - split; [discriminate | intros (v & [=] & _)].
Qed.

Lemma value_at_non_numeric (s : list cell) (i : nat) (v : string) :
  non_numeric_at s i v -> value_at float_str s i = v.
Proof. intros [Hs _]. unfold value_at. by rewrite Hs. Qed.

Lemma non_numeric_dtype (s : list cell) (i : nat) (v : string) :
  non_numeric_at s i v -> is_numeric_dtype s = false.
Proof.
  intros [Hs _]. apply not_true_is_false. intros Hall.
  unfold is_numeric_dtype in Hall. rewrite forallb_forall in Hall.
  specialize (Hall (CStr v)). cbn in Hall.
  assert (In (CStr v) s) as Hin by (apply list_elem_of_In, list_elem_of_lookup; eauto).
  specialize (Hall Hin). discriminate.
Qed.

Lemma column_issues_reported (col : string) (s : list cell) :
  (exists i v, non_numeric_at s i v) -> column_issues col s = [report col s].
Proof.
  intros (i & v & H). unfold column_issues.
  rewrite (non_numeric_dtype s i v H).
  assert (existsb id (failed_mask (map coerce s) s) = true) as ->; [|done].
  apply existsb_id_lookup. exists i. apply failed_mask_lookup. by exists v.
Qed.

Lemma validate_column_series (col : string) (df : DataFrame) (issues : list string)
  (s : list cell) :
  getitem col df = Series s ->
  exists df', validate_column to_numeric_str float_str col (df, issues)
              = Ok (df', (issues ++ column_issues col s)%list) /\
    forall col', col' ≠ col -> getitem col' df' = getitem col' df.
Proof.
  intros Hs. unfold validate_column, column_issues. rewrite Hs.
  destruct (is_numeric_dtype s).
  - exists df. rewrite app_nil_r. done.
  - destruct (existsb id (failed_mask (map coerce s) s)).
    + eexists. split; [reflexivity|]. intros col' Hne. by apply getitem_setitem_ne.
    + eexists. rewrite app_nil_r. split; [reflexivity|].
      intros col' Hne. by apply getitem_setitem_ne.
Qed.

Lemma validate_types_series (df : DataFrame) (sx sy sz : list cell) :
  getitem "x" df = Series sx -> getitem "y" df = Series sy -> getitem "z" df = Series sz ->
  xyz_issues sx sy sz ≠ [] ->
  validate_types to_numeric_str float_str df
  = Raise (PyExn ValueError (type_error_message (xyz_issues sx sy sz))).
Proof.
  intros Hx Hy Hz Hne. unfold validate_types.
  destruct (validate_column_series "x" df [] sx Hx) as (d1 & -> & K1).
  rewrite bind_Ok, app_nil_l.
  assert (getitem "y" d1 = Series sy) as Hy1 by (rewrite K1; done).
  destruct (validate_column_series "y" d1 (column_issues "x" sx) sy Hy1)
    as (d2 & -> & K2). rewrite bind_Ok.
  assert (getitem "z" d2 = Series sz) as Hz2 by (rewrite K2, K1; done).
  destruct (validate_column_series "z" d2
              (column_issues "x" sx ++ column_issues "y" sy)%list sz Hz2)
    as (d3 & -> & K3). rewrite bind_Ok. cbn [fst snd].
  rewrite <- app_assoc. fold (xyz_issues sx sy sz).
  by destruct (xyz_issues sx sy sz).
Qed.

Lemma reported_length (s : list cell) :
  (length (reported_rows s) <= 5)%nat /\ length (reported_values s) = length (reported_rows s).
Proof.
  unfold reported_rows, reported_values, user_friendly.
  rewrite !length_map, length_take. lia.
Qed.

Lemma listed_sound (s : list cell) (r : Z) (v : string) :
  listed s r v -> exists i : nat, r = Z.of_nat i + 1 /\ non_numeric_at s i v.
Proof.
  intros (k & Hr & Hv). unfold reported_rows, reported_values, user_friendly in *.
  rewrite list_lookup_fmap in Hr. rewrite list_lookup_fmap in Hv.
  destruct (take 5 (failing_rows s) !! k) as [i|] eqn:Ek; [|done].
  cbn in Hr, Hv. injection Hr as <-. injection Hv as <-.
  exists i. split; [done|].
  assert (i ∈ failing_rows s) as Hin.
  { apply list_elem_of_lookup_2 in Ek. by apply elem_of_take in Ek as (? & ?%list_elem_of_lookup_2 & ?). }
  apply mask_index_spec, failed_mask_lookup in Hin as [v Hv].
  by rewrite (value_at_non_numeric s i v Hv).
Qed.

Lemma listed_of_position (s : list cell) (i : nat) (v : string) :
  non_numeric_at s i v -> i ∈ take 5 (failing_rows s) -> listed s (Z.of_nat i + 1) v.
Proof.
  intros Hv Hin. apply list_elem_of_lookup in Hin as [k Hk]. exists k.
  unfold reported_rows, reported_values, user_friendly.
  rewrite !list_lookup_fmap, Hk. cbn.
  by rewrite (value_at_non_numeric s i v Hv).
Qed.

Lemma listed_early (s : list cell) (i : nat) (v : string) :
  (i < 5)%nat -> non_numeric_at s i v -> listed s (Z.of_nat i + 1) v.
Proof.
  intros Hi Hv. apply listed_of_position; [done|].
  apply mask_index_early; [done|]. apply failed_mask_lookup. by exists v.
Qed.

Lemma listed_or_full (s : list cell) (i : nat) (v : string) :
  non_numeric_at s i v -> listed s (Z.of_nat i + 1) v \/ length (reported_rows s) = 5%nat.
Proof.
  intros Hv.
  assert (i ∈ failing_rows s) as Hin.
  { apply mask_index_spec, failed_mask_lookup. by exists v. }
  destruct (decide (length (failing_rows s) <= 5)%nat) as [Hle|Hgt].
  - left. apply listed_of_position; [done|]. by rewrite take_ge.
  - right. unfold reported_rows, user_friendly. rewrite length_map, length_take. lia.
Qed.

Lemma failing_rows_nonempty (s : list cell) :
  failing_rows s ≠ [] <-> exists i v, non_numeric_at s i v.
Proof.
  unfold failing_rows. split.
  - destruct (mask_index _) as [|i rest] eqn:E; [done|]. intros _.
    assert (i ∈ mask_index (failed_mask (map coerce s) s)) as Hin by (rewrite E; left).
    apply mask_index_spec, failed_mask_lookup in Hin as [v Hv]. by exists i, v.
  - intros (i & v & Hv) E.
    assert (i ∈ mask_index (failed_mask (map coerce s) s)) as Hin.
    { apply mask_index_spec, failed_mask_lookup. by exists v. }
    rewrite E in Hin. by apply elem_of_nil in Hin.
Qed.

(** The line of a column, written out. *)
Lemma column_issues_line (col : string) (s : list cell) :
  column_issues col s
  = match failing_rows s with
    | [] => []
    | _ :: _ =>
        ["Column '" +:+ col +:+ "' has non-numeric values at rows " +:+
         repr_list str_int (reported_rows s) +:+ ": " +:+
         repr_list repr_str (reported_values s)]
    end.
Proof.
  destruct (failing_rows s) as [|i rest] eqn:E.
  - unfold column_issues. destruct (is_numeric_dtype s); [done|].
    destruct (existsb id (failed_mask (map coerce s) s)) eqn:Ex; [|done].
    apply existsb_id_lookup in Ex as [i Hi]. apply failed_mask_lookup in Hi as [v Hv].
    destruct (proj2 (failing_rows_nonempty s)); [by exists i, v | done].
  - rewrite column_issues_reported; [reflexivity|].
    apply failing_rows_nonempty. by rewrite E.
Qed.

(** C6. On a frame whose x, y and z columns are there, as soon as one of
    them holds a non-numeric value, validation raises one [ValueError]
    whose message has, between its first and its last line, one line for
    each of x, y and z that holds a non-numeric value, in that order. The
    line of a column names the column and lists at most 5 examples, each a
    failing value under its 1-based row number and as the original string;
    a bad value in the first five rows is always listed (so row 3 of a
    5-row file is named with its value), and a bad value is left out only
    when five others are listed. *)
Theorem C6_non_numeric_values_reported (df : DataFrame) (sx sy sz : list cell) :
  getitem "x" df = Series sx -> getitem "y" df = Series sy -> getitem "z" df = Series sz ->
  (exists s i v, s ∈ [sx; sy; sz] /\ non_numeric_at s i v) ->
  validate_types to_numeric_str float_str df
    = Raise (PyExn ValueError
        ("Data type validation failed:" +:+ nl +:+
         join nl
           (flat_map
              (fun cs : string * list cell =>
                 match failing_rows cs.2 with
                 | [] => []
                 | _ :: _ =>
                     ["Column '" +:+ cs.1 +:+ "' has non-numeric values at rows " +:+
                      repr_list str_int (reported_rows cs.2) +:+ ": " +:+
                      repr_list repr_str (reported_values cs.2)]
                 end)
              [("x", sx); ("y", sy); ("z", sz)]) +:+
         nl +:+ "Please ensure all accelerometer columns contain only numbers.")) /\
  (forall s, s ∈ [sx; sy; sz] ->
     (failing_rows s ≠ [] <-> exists i v, non_numeric_at s i v) /\
     (length (reported_rows s) <= 5)%nat /\
     length (reported_values s) = length (reported_rows s) /\
     (forall r v, listed s r v -> exists i : nat, r = Z.of_nat i + 1 /\ non_numeric_at s i v) /\
     (forall i v, (i < 5)%nat -> non_numeric_at s i v -> listed s (Z.of_nat i + 1) v) /\
     (forall i v, non_numeric_at s i v ->
        listed s (Z.of_nat i + 1) v \/ length (reported_rows s) = 5%nat)).
Proof.
  intros Hx Hy Hz (s0 & i0 & v0 & Hs0 & Hbad). split.
  - rewrite (validate_types_series df sx sy sz Hx Hy Hz).
    + unfold type_error_message, xyz_issues. rewrite !column_issues_line.
      cbn [flat_map fst snd]. by rewrite app_nil_r.
    + unfold xyz_issues. rewrite !elem_of_cons, elem_of_nil in Hs0.
      destruct Hs0 as [->|[->|[->|[]]]];
        rewrite (column_issues_reported _ _ (ex_intro _ i0 (ex_intro _ v0 Hbad)));
        by destruct (column_issues "x" sx), (column_issues "y" sy).
  - intros s Hin. split; [|split; [|split; [|split; [|split]]]].
    + apply failing_rows_nonempty.
    + apply reported_length.
    + apply reported_length.
    + apply listed_sound.
    + apply listed_early.
    + apply listed_or_full.
Qed.

End TypeValidation.

(** *** The type check on a file *)

(** Plain decimal literals ([12], [-0.5]), on which [pd.to_numeric] reads
    the number written; everything else is refused here. It stands for
    [pd.to_numeric] where the model is run on a file. *)
Fixpoint decimal_digits (l : list ascii) (mantissa : Z) (scale : option positive)
  (seen : bool) : option Q :=
  match l with
  | [] => if seen then Some (Qred (mantissa # default 1%positive scale)) else None
  | c :: l' =>
      let n := nat_of_ascii c in
      if (n =? 46)%nat then
        match scale with
        | None => decimal_digits l' mantissa (Some 1%positive) seen
        | Some _ => None
        end
      else if ((48 <=? n) && (n <=? 57))%nat then
        decimal_digits l' (10 * mantissa + Z.of_nat (n - 48))
          (Pos.mul 10 <$> scale) true
      else None
  end.

Definition decimal_literal (s : string) : option Q :=
  match chars s with
  | c :: l => if (nat_of_ascii c =? 45)%nat then Qopp <$> decimal_digits l 0 None false
              else decimal_digits (c :: l) 0 None false
  | [] => None
  end.

Definition float_placeholder (q : Q) : string := "0.0".

(** Five rows, the x value of row 3 being the text [abc]. *)
Definition csv_row3_abc : DataFrame :=
  [("time", [CStr "2023-01-01 10:00:00"; CStr "2023-01-01 10:00:01";
             CStr "2023-01-01 10:00:02"; CStr "2023-01-01 10:00:03";
             CStr "2023-01-01 10:00:04"]);
   ("x", [CStr "0.1"; CStr "0.2"; CStr "abc"; CStr "0.4"; CStr "0.5"]);
   ("y", [CNum 0; CNum 0; CNum 0; CNum 0; CNum 0]);
   ("z", [CNum 1; CNum 1; CNum 1; CNum 1; CNum 1])].

Example decimal_literal_reads : decimal_literal "0.5" = Some (1 # 2)%Q.
Proof. reflexivity. Qed.

Example decimal_literal_refuses : decimal_literal "abc" = None.
Proof. reflexivity. Qed.

Example row3_abc_message :
  validate_types decimal_literal float_placeholder csv_row3_abc
  = Raise (PyExn ValueError
      ("Data type validation failed:" +:+ nl +:+
       "Column 'x' has non-numeric values at rows [3]: ['abc']" +:+ nl +:+
       "Please ensure all accelerometer columns contain only numbers.")).
Proof. vm_compute. reflexivity. Qed.

Lemma C6_row3_abc_witness :
  validate_types decimal_literal float_placeholder csv_row3_abc
    = Raise (PyExn ValueError
        ("Data type validation failed:" +:+ nl +:+
         "Column 'x' has non-numeric values at rows [3]: ['abc']" +:+ nl +:+
         "Please ensure all accelerometer columns contain only numbers.")) /\
  listed decimal_literal float_placeholder (series_of "x" csv_row3_abc) 3 "abc".
Proof.
  assert (non_numeric_at decimal_literal (series_of "x" csv_row3_abc) 2 "abc") as Hbad.
  { split; reflexivity. }
  destruct (C6_non_numeric_values_reported decimal_literal float_placeholder csv_row3_abc
              (series_of "x" csv_row3_abc) (series_of "y" csv_row3_abc)
              (series_of "z" csv_row3_abc) eq_refl eq_refl eq_refl) as [Hraise Hcols].
  { exists (series_of "x" csv_row3_abc), 2%nat, "abc". split; [left | exact Hbad]. }
  split; [rewrite Hraise; vm_compute; reflexivity|].
  destruct (Hcols (series_of "x" csv_row3_abc)) as (_ & _ & _ & _ & Hearly & _).
  { left. }
  apply (Hearly 2%nat "abc"); [lia | exact Hbad].
Defined.

(** ** Sample rate *)

Lemma dropna_deltas_length (l rest : list Z) :
  (length rest <= length l)%nat ->
  length (dropna (zip_with (fun a b => Some (b - a)) l rest)) = length rest.
Proof.
  revert l. induction rest as [|b rest IH]; intros [|a l] Hlen; cbn in *; try done.
  - lia.
  - f_equal. apply IH. lia.
Qed.

Lemma dropna_diff_length (idx : list Z) :
  length (dropna (diff idx)) = (length idx - 1)%nat.
Proof.
  destruct idx as [|t0 rest]; [done|].
  change (dropna (diff (t0 :: rest)))
    with (dropna (zip_with (fun a b => Some (b - a)) (t0 :: rest) rest)).
  rewrite dropna_deltas_length; cbn; lia.
Qed.

Lemma median_Some_nonempty (s : list Z) (m : Z) : median s = Some m -> s ≠ [].
Proof. intros H ->. discriminate. Qed.

Lemma median_nil_None : median [] = None.
Proof. reflexivity. Qed.

Section SampleRate.

Variable infer_freq : list Z -> result freq_value.

(** Primary inference fails or is out of band: what makes the [try] block
    raise. *)
Definition primary_unusable (idx : list Z) : Prop :=
  match infer_freq idx with
  | Raise _ => True
  | Ok FreqNone => True
  | Ok (FreqOther _) => True
  | Ok (FreqNumber f) => unreasonable f = true
  | Ok (FreqTimedelta td) =>
      match inv (total_seconds td) with
      | Raise _ => True
      | Ok f => unreasonable f = true
      end
  end.

Lemma infer_primary_raises (idx : list Z) :
  raises (infer_primary infer_freq idx) <-> primary_unusable idx.
Proof.
  unfold infer_primary, primary_unusable.
  destruct (infer_freq idx) as [[|td|f|e]|e]; rewrite ?bind_Ok, ?bind_Raise.
  - split; [done | intros _; apply raises_Raise].
  - destruct (inv (total_seconds td)) as [f|e]; rewrite ?bind_Ok, ?bind_Raise.
    + destruct (unreasonable f); split; try done.
      * intros _. apply raises_Raise.
      * intros H. by apply raises_Ok in H.
    + split; [done | intros _; apply raises_Raise].
  - destruct (unreasonable f); split; try done.
    + intros _. apply raises_Raise.
    + intros H. by apply raises_Ok in H.
  - split; [done | intros _; apply raises_Raise].
  - split; [done | intros _; apply raises_Raise].
Qed.

Lemma calculate_sample_rate_fallback (request : ProcessingRequest) (csv_data : Frame) :
  rate_not_provided request = true ->
  primary_unusable (index csv_data) ->
  calculate_sample_rate infer_freq request csv_data = infer_fallback csv_data.
Proof.
  intros Hnone Hfail. apply infer_primary_raises in Hfail as [e He].
  unfold calculate_sample_rate. by rewrite Hnone, He.
Qed.

(** No delta-based estimate can be made: fewer than two samples, no
    consecutive deltas, or a median that is NaT. *)
Definition fallbacks_unusable (csv_data : Frame) : Prop :=
  (length csv_data < 2)%nat \/
  dropna (diff (index csv_data)) = [] \/
  median (dropna (diff (index csv_data))) = None.

Lemma infer_fallback_default (csv_data : Frame) :
  fallbacks_unusable csv_data -> infer_fallback csv_data = Ok default_rate.
Proof.
  unfold fallbacks_unusable, infer_fallback. intros H.
  destruct (1 <? length csv_data)%nat eqn:Hlen; [|done].
  apply Nat.ltb_lt in Hlen.
  destruct (0 <? length (dropna (diff (index csv_data))))%nat eqn:Hd; [|done].
  apply Nat.ltb_lt in Hd.
  destruct H as [H|[H|H]].
  - lia.
  - rewrite H in Hd. cbn in Hd. lia.
  - by rewrite H.
Qed.

(** C2. With no sample rate supplied (absent or 0), primary inference
    failing or out of band, and no usable delta-based fallback, the
    estimate is the fixed default, 104 Hz. *)
Theorem C2_default_rate_when_all_fallbacks_fail
  (request : ProcessingRequest) (csv_data : Frame) :
  rate_not_provided request = true ->
  primary_unusable (index csv_data) ->
  fallbacks_unusable csv_data ->
  calculate_sample_rate infer_freq request csv_data = Ok default_rate /\
  default_rate = of_int 104.
Proof.
  intros Hnone Hfail Hfb. split; [|done].
  rewrite calculate_sample_rate_fallback by done. by apply infer_fallback_default.
Qed.

(** C1, what the code does. With no sample rate supplied and primary
    inference failing or out of band, a median-based estimate [f] within
    the 1-1000 Hz band is computed and then replaced: the branch taken for
    a reasonable [f] assigns the default, so the estimate is 104 Hz
    whatever [f] is. *)
Theorem C1_median_estimate_replaced_by_default
  (request : ProcessingRequest) (csv_data : Frame) (f : pyfloat) :
  rate_not_provided request = true ->
  primary_unusable (index csv_data) ->
  median_rate csv_data = Some f ->
  unreasonable f = false ->
  calculate_sample_rate infer_freq request csv_data = Ok default_rate.
Proof.
  intros Hnone Hfail Hmed Hband.
  rewrite calculate_sample_rate_fallback by done.
  unfold median_rate in Hmed. unfold infer_fallback.
  destruct (median (dropna (diff (index csv_data)))) as [md|] eqn:Em; [|discriminate Hmed].
  cbn [mbind option_bind] in Hmed.
  pose proof (median_Some_nonempty _ _ Em) as Hne.
  pose proof (dropna_diff_length (index csv_data)) as Hlen.
  unfold index in Hlen at 2. rewrite length_map in Hlen.
  destruct (dropna (diff (index csv_data))) as [|d ds] eqn:Ed; [done|].
  cbn [length] in Hlen.
  assert ((1 <? length csv_data)%nat = true) as -> by (apply Nat.ltb_lt; lia).
  cbn [length Nat.ltb Nat.leb].
  destruct (inv (total_seconds (Some md))) as [f'|e]; [|done].
  injection Hmed as ->. rewrite bind_Ok. by rewrite Hband.
Qed.


End SampleRate.

(** *** Sample rate on recordings *)

(** The request with the defaults of [ProcessingRequest]. *)
Definition default_request : ProcessingRequest := {|
  model_type := "rf";
  sample_rate := None;
  txyz := "time,x,y,z";
  min_wear_per_day := 1260;
  min_wear_per_hour := 50;
  min_wear_per_minute := 1 # 2;
  min_walk_per_day := 5;
  bouts_min_walk := 4 # 5;
  bouts_max_idle := 3;
  exclude_wear_below := None;
  exclude_first_last := None;
  start_time := None;
  end_time := None;
  pytorch_device := "cpu"
|}.

Definition with_rate (rate : option Z) (request : ProcessingRequest) : ProcessingRequest := {|
  model_type := model_type request;
  sample_rate := rate;
  txyz := txyz request;
  min_wear_per_day := min_wear_per_day request;
  min_wear_per_hour := min_wear_per_hour request;
  min_wear_per_minute := min_wear_per_minute request;
  min_walk_per_day := min_walk_per_day request;
  bouts_min_walk := bouts_min_walk request;
  bouts_max_idle := bouts_max_idle request;
  exclude_wear_below := exclude_wear_below request;
  exclude_first_last := exclude_first_last request;
  start_time := start_time request;
  end_time := end_time request;
  pytorch_device := pytorch_device request
|}.

Definition with_model (model : string) (request : ProcessingRequest) : ProcessingRequest := {|
  model_type := model;
  sample_rate := sample_rate request;
  txyz := txyz request;
  min_wear_per_day := min_wear_per_day request;
  min_wear_per_hour := min_wear_per_hour request;
  min_wear_per_minute := min_wear_per_minute request;
  min_walk_per_day := min_walk_per_day request;
  bouts_min_walk := bouts_min_walk request;
  bouts_max_idle := bouts_max_idle request;
  exclude_wear_below := exclude_wear_below request;
  exclude_first_last := exclude_first_last request;
  start_time := start_time request;
  end_time := end_time request;
  pytorch_device := pytorch_device request
|}.

(** A stationary device sampled every [step] nanoseconds from [start]. *)
Definition at_rest (t : Z) : Row := {| time := t; x := Some 0%Q; y := Some 0%Q; z := Some 1%Q |}.

Definition recording (start step : Z) (n : nat) : Frame :=
  map (fun i => at_rest (start + Z.of_nat i * step)) (seq 0 n).

(** Collaborators that fail, for the recordings below. *)
Definition infer_freq_raises (idx : list Z) : result freq_value :=
  Raise (PyExn ValueError "cannot infer frequency").

Definition infer_freq_none (idx : list Z) : result freq_value := Ok FreqNone.

(** Three samples 20 ms apart: the median of the deltas is 20 ms, 50 Hz. *)
Example median_rate_50 : median_rate (recording 0 20000000 3) = Some (Fin 50).
Proof. reflexivity. Qed.

Lemma C1_three_samples_50hz_witness :
  median_rate (recording 0 20000000 3) = Some (Fin 50) /\
  calculate_sample_rate infer_freq_raises default_request (recording 0 20000000 3)
    = Ok (of_int 104) /\
  ¬ feq (of_int 104) (Fin 50).
Proof.
  split; [reflexivity|]. split.
  - apply (C1_median_estimate_replaced_by_default infer_freq_raises default_request
             (recording 0 20000000 3) (Fin 50)); [reflexivity | exact I | reflexivity | reflexivity].
  - cbn. unfold Qeq. cbn. lia.
Defined.

Lemma C2_single_sample_witness :
  calculate_sample_rate infer_freq_none (with_rate (Some 0) default_request)
    (recording 0 20000000 1) = Ok default_rate /\
  default_rate = of_int 104.
Proof.
  apply (C2_default_rate_when_all_fallbacks_fail infer_freq_none
           (with_rate (Some 0) default_request) (recording 0 20000000 1)).
  - reflexivity.
  - exact I.
  - left. cbn. lia.
Defined.


Example supplied_zero_is_absent :
  calculate_sample_rate infer_freq_raises (with_rate (Some 0) default_request)
    (recording 0 20000000 3)
  = calculate_sample_rate infer_freq_raises default_request (recording 0 20000000 3).
Proof. reflexivity. Qed.

Example supplied_negative_is_kept :
  calculate_sample_rate infer_freq_raises (with_rate (Some (-7)) default_request)
    (recording 0 20000000 3) = Ok (of_int (-7)).
Proof. reflexivity. Qed.

(** Repeated timestamps make the median delta zero, and the conversion to
    Hz raises inside the handler. *)
Example zero_median_raises :
  calculate_sample_rate infer_freq_raises default_request (recording 0 0 3)
  = Raise (PyExn ZeroDivisionError "float division by zero").
Proof. reflexivity. Qed.

(** ** Resampling *)

(** The regridding on the accelerometer columns, as a collaborator that
    returns. *)
Definition regrid_xyz (w : Z) (csv_data : Frame) : result Frame :=
  Ok (resample_mean w csv_data).

Section Resampling.

Variable regrid : Z -> Frame -> result Frame.

Lemma resample_triggered (request : ProcessingRequest) (csv_data : Frame) (rate : pyfloat) :
  model_type request = "ssl" ->
  fneq rate (of_int 30) = true ->
  resample_if_needed regrid request csv_data rate
  = if (length csv_data <? 10)%nat
    then Raise (PyExn ValueError (insufficient_resample_message (length csv_data)))
    else match regrid 33000000 csv_data with
         | Ok regridded => Ok (regridded, of_int 30)
         | Raise e => Raise (PyExn ValueError (failed_resample_message 30 e))
         end.
Proof.
  intros Hmodel Hrate. unfold resample_if_needed, resample_hz. rewrite Hmodel.
  change ("ssl" =? "ssl")%string with true. cbv iota.
  change (negb (30 =? 0)) with true. rewrite Hrate. cbv iota.
  destruct (length csv_data <? 10)%nat; [done|].
  change (1000 `quot` 30 * 1000000) with 33000000.
  by destruct (regrid 33000000 csv_data).
Qed.

(** C5. When resampling is triggered (the ssl variant, whose target is
    30 Hz, and an effective rate that differs from it), it raises the
    insufficient-data [ValueError], whose message gives the minimum of 10
    and the number of samples, exactly when there are fewer than 10
    samples. From 10 samples on, and so with exactly 10, the guard lets the
    frame through: the stage returns what the regridding on 33 ms returns,
    30 Hz being the effective rate, and when the regridding raises, it
    raises another [ValueError], which wraps the text of that exception. *)
Theorem C5_resampling_needs_ten_samples
  (request : ProcessingRequest) (csv_data : Frame) (rate : pyfloat) :
  model_type request = "ssl" ->
  fneq rate (of_int 30) = true ->
  (resample_if_needed regrid request csv_data rate
     = Raise (PyExn ValueError
         ("Insufficient data for resampling. Need at least 10 data points, got " +:+
          str_int (Z.of_nat (length csv_data)) +:+
          ". Please provide more data or use a different model type."))
   <-> (length csv_data < 10)%nat) /\
  ((10 <= length csv_data)%nat ->
   resample_if_needed regrid request csv_data rate
   = match regrid 33000000 csv_data with
     | Ok regridded => Ok (regridded, of_int 30)
     | Raise e =>
         Raise (PyExn ValueError
           ("Failed to resample data to 30Hz: " +:+ str_exn e +:+
            ". The data may have irregular timestamps or insufficient points."))
     end) /\
  (length csv_data = 9%nat ->
   resample_if_needed regrid request csv_data rate
   = Raise (PyExn ValueError
       "Insufficient data for resampling. Need at least 10 data points, got 9. Please provide more data or use a different model type.")).
Proof.
  intros Hmodel Hrate. rewrite (resample_triggered _ _ _ Hmodel Hrate).
  split; [|split].
  - destruct (length csv_data <? 10)%nat eqn:Hlen.
    + apply Nat.ltb_lt in Hlen. split; [done|]. intros _. reflexivity.
    + apply Nat.ltb_ge in Hlen. split; [|lia].
      destruct (regrid 33000000 csv_data); cbn; [discriminate | intros [=]].
  - intros Hlen.
    assert ((length csv_data <? 10)%nat = false) as -> by (apply Nat.ltb_ge; lia).
    by destruct (regrid 33000000 csv_data).
  - intros ->. reflexivity.
Qed.

(** The other failure of the stage is not the insufficient-data error:
    with 10 samples or more, a regridding that raises is reported under
    another message. *)
Lemma resample_failure_is_another_error
  (request : ProcessingRequest) (csv_data : Frame) (rate : pyfloat) (n : nat) :
  (10 <= length csv_data)%nat ->
  resample_if_needed regrid request csv_data rate
  ≠ Raise (PyExn ValueError (insufficient_resample_message n)).
Proof.
  intros Hlen. unfold resample_if_needed.
  destruct (resample_hz request) as [hz|]; [|done].
  destruct (negb (hz =? 0) && fneq rate (of_int hz)); [|done].
  assert ((length csv_data <? 10)%nat = false) as -> by (apply Nat.ltb_ge; lia).
  destruct (regrid _ csv_data) as [regridded|e]; cbn; [done|].
  intros [=].
Qed.

End Resampling.

Lemma C5_nine_and_ten_samples_witness :
  resample_if_needed regrid_xyz (with_model "ssl" default_request)
    (recording 0 20000000 9) (of_int 50)
    = Raise (PyExn ValueError
        "Insufficient data for resampling. Need at least 10 data points, got 9. Please provide more data or use a different model type.") /\
  resample_if_needed regrid_xyz (with_model "ssl" default_request)
    (recording 0 20000000 10) (of_int 50)
    = Ok (resample_mean 33000000 (recording 0 20000000 10), of_int 30).
Proof.
  split.
  - apply (proj2 (proj2 (C5_resampling_needs_ten_samples regrid_xyz
                    (with_model "ssl" default_request)
                    (recording 0 20000000 9) (of_int 50) eq_refl eq_refl))).
    reflexivity.
  - rewrite (proj1 (proj2 (C5_resampling_needs_ten_samples regrid_xyz
                      (with_model "ssl" default_request)
                      (recording 0 20000000 10) (of_int 50) eq_refl eq_refl)));
      [reflexivity | cbn; lia].
Defined.

(** The regridding raising, as pandas does on a text column carried along
    with the accelerometer columns. *)
Definition regrid_fails (w : Z) (csv_data : Frame) : result Frame :=
  Raise (PyExn TypeError "agg function failed [how->mean,dtype->object]").

(** C5 as stated fails on its last part: with exactly 10 samples the stage
    does not succeed when the regridding raises; it raises the other
    error. *)
Lemma C5_ten_samples_counterexample :
  model_type (with_model "ssl" default_request) = "ssl" /\
  length (recording 0 20000000 10) = 10%nat /\
  resample_if_needed regrid_fails (with_model "ssl" default_request)
    (recording 0 20000000 10) (of_int 50)
  = Raise (PyExn ValueError
      "Failed to resample data to 30Hz: agg function failed [how->mean,dtype->object]. The data may have irregular timestamps or insufficient points.") /\
  ¬ (exists out, resample_if_needed regrid_fails (with_model "ssl" default_request)
                   (recording 0 20000000 10) (of_int 50) = Ok out).
Proof.
  assert (resample_if_needed regrid_fails (with_model "ssl" default_request)
            (recording 0 20000000 10) (of_int 50)
          = Raise (PyExn ValueError
              "Failed to resample data to 30Hz: agg function failed [how->mean,dtype->object]. The data may have irregular timestamps or insufficient points."))
    as Hrun by (vm_compute; reflexivity).
  split; [reflexivity|]. split; [reflexivity|]. split; [exact Hrun|].
  intros [out H]. rewrite Hrun in H. discriminate.
Qed.

(** Ten samples 20 ms apart land in the 33 ms bins 0, 33, 66, ... 165 ms:
    six rows, the first holding the samples at 0 and 20 ms. *)
Example regridded_ten_samples :
  map time (resample_mean 33000000 (recording 0 20000000 10))
  = [0; 33000000; 66000000; 99000000; 132000000; 165000000].
Proof. reflexivity. Qed.

(** ** Wear statistics, guards and exclusion *)

(** The Random Forest guard lets the frame through. *)
Definition rf_guard_passes (request : ProcessingRequest) (csv_data : Frame) : Prop :=
  model_type request = "rf" -> (50 <= length csv_data)%nat.

(** Every row has a missing value among x, y and z. *)
Definition every_row_null (csv_data : Frame) : Prop :=
  forall r, r ∈ csv_data -> x r = None \/ y r = None \/ z r = None.

Lemma all_rows_have_null_spec (csv_data : Frame) :
  all_rows_have_null csv_data = true <-> every_row_null csv_data.
Proof.
  unfold all_rows_have_null, every_row_null. rewrite forallb_forall.
  split; intros H r Hr.
  - apply list_elem_of_In, H in Hr.
    rewrite !orb_true_iff, !bool_decide_eq_true in Hr. tauto.
  - apply list_elem_of_In, H in Hr.
    rewrite !orb_true_iff, !bool_decide_eq_true. tauto.
Qed.

Lemma rf_guard_off (request : ProcessingRequest) (csv_data : Frame) :
  rf_guard_passes request csv_data ->
  (model_type request =? "rf")%string && (length csv_data <? 50)%nat = false.
Proof.
  intros Hpass. destruct (String.eqb_spec (model_type request) "rf") as [Hrf|Hrf]; [|done].
  rewrite andb_true_l. apply Nat.ltb_ge. auto.
Qed.

Section Guards.

Variable infer_freq : list Z -> result freq_value.
Variable regrid : Z -> Frame -> result Frame.
Variable WearValue : Type.
Variable calculate_wear_stats : Frame -> result (gmap string WearValue).
Variable drop_first_last_days : Frame -> string -> result Frame.
Variable flag_wear_below_days : Frame -> string -> result Frame.
Variable Classifier : Type.
Variable get_model : string -> string -> pyfloat -> result Classifier.
Variable predict_from_frame : Classifier -> pyfloat -> Frame -> result (gmap Z (option Z)).
Variable Summaries : Type.
Variable summarize : ProcessingRequest -> Classifier -> Frame -> gmap Z (option Z)
                     -> result Summaries.
Variable enmo : Row -> option Q.
Variable to_native : WearValue -> WearValue.

Local Abbreviation guards :=
  (wear_and_guards WearValue calculate_wear_stats drop_first_last_days flag_wear_below_days
     Summaries).
Local Abbreviation exclusions :=
  (apply_exclusions drop_first_last_days flag_wear_below_days).
Local Abbreviation process :=
  (process_frame infer_freq regrid WearValue calculate_wear_stats drop_first_last_days
     flag_wear_below_days Classifier get_model predict_from_frame Summaries summarize
     enmo to_native).
Local Abbreviation model_stage :=
  (run_model WearValue Classifier get_model predict_from_frame Summaries summarize
     enmo to_native).

Lemma process_frame_stages (request : ProcessingRequest) (csv_data resampled : Frame)
  (rate effective : pyfloat) :
  calculate_sample_rate infer_freq request csv_data = Ok rate ->
  resample_if_needed regrid request csv_data rate = Ok (resampled, effective) ->
  process request csv_data
  = (checked ← guards request resampled;
     match checked with
     | inl early => Ok early
     | inr (csv_data, wear_stats) => model_stage request csv_data effective wear_stats
     end).
Proof. intros Hrate Hres. unfold process_frame. by rewrite Hrate, bind_Ok, Hres, bind_Ok. Qed.


Lemma guards_after_exclusion (request : ProcessingRequest) (csv_data excluded : Frame)
  (before after : gmap string WearValue) :
  calculate_wear_stats csv_data = Ok before ->
  rf_guard_passes request csv_data ->
  exclusions request csv_data = Ok excluded ->
  calculate_wear_stats excluded = Ok after ->
  guards request csv_data
  = if (length excluded =? 0)%nat || all_rows_have_null excluded
    then Ok (inl (NoValidData WearValue Summaries no_valid_data_message (after ∪ before)))
    else Ok (inr (excluded, after ∪ before)).
Proof.
  intros Hws Hpass Hex Hws'. unfold wear_and_guards.
  rewrite Hws, bind_Ok, (rf_guard_off _ _ Hpass), Hex, bind_Ok, Hws', bind_Ok.
  reflexivity.
Qed.


(** C3. When the frame left by the exclusion stage is empty, or each of
    its rows has a missing x, y or z, the pipeline returns (does not
    raise) the no-valid-data result, which carries the wear statistics as
    merged at that point. The stages before it are taken to have gone
    through: rate, resampling, the first statistics, the rf guard, the
    exclusion and the second statistics. *)
Theorem C3_no_valid_data_after_exclusion
  (request : ProcessingRequest) (csv_data resampled excluded : Frame)
  (rate effective : pyfloat) (before after : gmap string WearValue) :
  calculate_sample_rate infer_freq request csv_data = Ok rate ->
  resample_if_needed regrid request csv_data rate = Ok (resampled, effective) ->
  calculate_wear_stats resampled = Ok before ->
  rf_guard_passes request resampled ->
  exclusions request resampled = Ok excluded ->
  calculate_wear_stats excluded = Ok after ->
  excluded = [] \/ every_row_null excluded ->
  process request csv_data
  = Ok (NoValidData WearValue Summaries no_valid_data_message (after ∪ before)).
Proof.
  intros Hrate Hres Hws Hpass Hex Hws' Hnull.
  rewrite (process_frame_stages _ _ _ _ _ Hrate Hres).
  rewrite (guards_after_exclusion _ _ _ _ _ Hws Hpass Hex Hws').
  assert ((length excluded =? 0)%nat || all_rows_have_null excluded = true) as ->.
  { destruct Hnull as [->|Hnull]; [done|].
    apply orb_true_iff. right. by apply all_rows_have_null_spec. }
  by rewrite bind_Ok.
Qed.

Lemma run_model_wear_stats (request : ProcessingRequest) (csv_data : Frame)
  (rate : pyfloat) (wear_stats : gmap string WearValue) (o : outcome WearValue Summaries) :
  model_stage request csv_data rate wear_stats = Ok o ->
  exists results, o = Completed WearValue Summaries results /\
    res_wear_stats WearValue Summaries results = to_native <$> wear_stats /\
    res_hourly WearValue Summaries results
      = hourly (res_minutely WearValue Summaries results) /\
    res_daily WearValue Summaries results
      = daily (res_minutely WearValue Summaries results).
Proof.
  unfold run_model.
  destruct (get_model _ _ _) as [model|e]; cbn [try_except]; [|done]. rewrite bind_Ok.
  destruct (predict_from_frame model rate csv_data) as [Y|e]; cbn [try_except]; [|done].
  rewrite bind_Ok.
  destruct (summarize request model csv_data Y) as [summaries|e]; [|done]. rewrite bind_Ok.
  destruct (duration_hours (length csv_data) rate) as [hours|e]; [|done]. rewrite bind_Ok.
  intros [= <-]. eexists. split; [reflexivity|]. cbn. done.
Qed.

(** C9. The wear statistics are computed on the frame before the exclusion
    stage and again on the frame after it, and the second map is merged
    into the first: on every key the merged map has the post-exclusion
    value when there is one and the pre-exclusion value otherwise. That
    merged map is what the stage hands on, what the no-valid-data result
    carries, and (value by value in native form) what the final results
    carry. *)
Theorem C9_wear_stats_merge_post_exclusion_wins
  (request : ProcessingRequest) (csv_data resampled excluded : Frame)
  (rate effective : pyfloat) (before after : gmap string WearValue) :
  calculate_sample_rate infer_freq request csv_data = Ok rate ->
  resample_if_needed regrid request csv_data rate = Ok (resampled, effective) ->
  calculate_wear_stats resampled = Ok before ->
  rf_guard_passes request resampled ->
  exclusions request resampled = Ok excluded ->
  calculate_wear_stats excluded = Ok after ->
  exists merged : gmap string WearValue,
    (forall k, merged !! k = match after !! k with Some v => Some v | None => before !! k end) /\
    (guards request resampled
       = Ok (inl (NoValidData WearValue Summaries no_valid_data_message merged)) \/
     guards request resampled = Ok (inr (excluded, merged))) /\
    (forall error wear_stats,
       process request csv_data = Ok (NoValidData WearValue Summaries error wear_stats) ->
       wear_stats = merged) /\
    (forall results,
       process request csv_data = Ok (Completed WearValue Summaries results) ->
       res_wear_stats WearValue Summaries results = to_native <$> merged).
Proof.
  intros Hrate Hres Hws Hpass Hex Hws'. exists (after ∪ before).
  pose proof (guards_after_exclusion _ _ _ _ _ Hws Hpass Hex Hws') as Hg.
  pose proof (process_frame_stages _ _ _ _ _ Hrate Hres) as Hp.
  split; [|split; [|split]].
  - intros k. rewrite lookup_union. by destruct (after !! k), (before !! k).
  - rewrite Hg. destruct (_ || _); auto.
  - intros error wear_stats. rewrite Hp, Hg.
    destruct (_ || _); rewrite bind_Ok.
    + by intros [= _ <-].
    + intros H. apply run_model_wear_stats in H as (results & [=] & _).
  - intros results. rewrite Hp, Hg.
    destruct (_ || _); rewrite bind_Ok.
    + intros [=].
    + intros H. apply run_model_wear_stats in H as (results' & [= <-] & Hw & _). done.
Qed.

End Guards.

(** *** The guards on recordings *)

(** Stand-ins for the collaborators, to run the pipeline on recordings:
    statistics that count the rows and give the first row with all three
    values, an exclusion that drops ten rows, one that marks every row as
    not worn, and a classifier that reports no step. *)
Definition worn (r : Row) : bool :=
  negb (bool_decide (x r = None) || bool_decide (y r = None) || bool_decide (z r = None)).

Definition count_wear (csv_data : Frame) : result (gmap string Z) :=
  Ok (<["NumSamples" := Z.of_nat (length csv_data)]>
        match List.filter worn csv_data with
        | r :: _ => {[ "FirstWorn" := time r ]}
        | [] => ∅
        end).

Definition drop_ten (csv_data : Frame) (arg : string) : result Frame :=
  Ok (drop 10 csv_data).

Definition mark_not_worn (csv_data : Frame) (arg : string) : result Frame :=
  Ok (map (fun r => {| time := time r; x := None; y := None; z := None |}) csv_data).


Definition no_classifier (model device : string) (rate : pyfloat) : result unit := Ok tt.

Definition no_steps (model : unit) (rate : pyfloat) (csv_data : Frame)
  : result (gmap Z (option Z)) :=
  Ok (list_to_map (map (fun r => (time r, Some 0)) csv_data)).

Definition no_summaries (request : ProcessingRequest) (model : unit) (csv_data : Frame)
  (Y : gmap Z (option Z)) : result unit := Ok tt.

Definition enmo_at_rest (r : Row) : option Q := Some 0%Q.

Definition run (exclude_first exclude_below : Frame -> string -> result Frame)
  : ProcessingRequest -> Frame -> result (outcome Z unit) :=
  process_frame infer_freq_none regrid_xyz Z count_wear exclude_first exclude_below
    unit no_classifier no_steps unit no_summaries enmo_at_rest id.

Definition request_excluding (model : string) (rate : option Z) : ProcessingRequest := {|
  model_type := model;
  sample_rate := rate;
  txyz := "time,x,y,z";
  min_wear_per_day := 1260;
  min_wear_per_hour := 50;
  min_wear_per_minute := 1 # 2;
  min_walk_per_day := 5;
  bouts_min_walk := 4 # 5;
  bouts_max_idle := 3;
  exclude_wear_below := Some "20H";
  exclude_first_last := Some "first";
  start_time := None;
  end_time := None;
  pytorch_device := "cpu"
|}.

Example option_given_examples :
  option_given (Some "20H") = true /\ option_given (Some "string") = false /\
  option_given (Some "  ") = false /\ option_given None = false.
Proof. repeat split; reflexivity. Qed.

(** A text made of a no-break space (U+00A0) and an ideographic space
    (U+3000) is blank; a no-break space around a value is stripped. *)
Example strip_unicode_space :
  let nbsp := String (ascii_of_nat 194) (String (ascii_of_nat 160) EmptyString) in
  let wide := String (ascii_of_nat 227) (String (ascii_of_nat 128)
                (String (ascii_of_nat 128) EmptyString)) in
  option_given (Some (nbsp +:+ wide)) = false /\
  strip (nbsp +:+ "20H" +:+ wide +:+ " ") = "20H".
Proof. split; vm_compute; reflexivity. Qed.



Example rf_guard_49_samples :
  run drop_ten mark_not_worn (request_excluding "rf" (Some 50)) (recording 0 20000000 49)
  = Ok (InsufficientData Z unit (insufficient_rf_message 49) 49 50).
Proof. reflexivity. Qed.

(** Sixty samples, ten dropped and the rest marked as not worn: no valid
    data, with the statistics of both computations. *)
Lemma C3_all_marked_not_worn_witness :
  run drop_ten mark_not_worn (request_excluding "rf" (Some 50)) (recording 0 20000000 60)
  = Ok (NoValidData Z unit "No valid data to process after filtering"
          ((<["NumSamples" := 50]> ∅) ∪
           (<["NumSamples" := 60]> {[ "FirstWorn" := 0 ]}))).
Proof.
  apply (C3_no_valid_data_after_exclusion infer_freq_none regrid_xyz Z count_wear drop_ten
           mark_not_worn unit no_classifier no_steps unit no_summaries enmo_at_rest id
           (request_excluding "rf" (Some 50)) (recording 0 20000000 60)
           (recording 0 20000000 60)
           (map (fun r => {| time := time r; x := None; y := None; z := None |})
                (drop 10 (recording 0 20000000 60)))
           (of_int 50) (of_int 50)).
  - reflexivity.
  - reflexivity.
  - reflexivity.
  - intros _. cbn. lia.
  - reflexivity.
  - reflexivity.
  - right. apply all_rows_have_null_spec. reflexivity.
Defined.

Lemma C9_merged_statistics_witness :
  exists merged : gmap string Z,
    (forall k, merged !! k =
       match (<["NumSamples" := 50]> ∅ : gmap string Z) !! k with
       | Some v => Some v
       | None => (<["NumSamples" := 60]> {[ "FirstWorn" := 0 ]} : gmap string Z) !! k
       end) /\
    merged !! "NumSamples" = Some 50 /\ merged !! "FirstWorn" = Some 0 /\
    run drop_ten mark_not_worn (request_excluding "rf" (Some 50)) (recording 0 20000000 60)
    = Ok (NoValidData Z unit no_valid_data_message merged).
Proof.
  destruct (C9_wear_stats_merge_post_exclusion_wins infer_freq_none regrid_xyz Z count_wear drop_ten
           mark_not_worn unit no_classifier no_steps unit no_summaries enmo_at_rest id
           (request_excluding "rf" (Some 50)) (recording 0 20000000 60)
           (recording 0 20000000 60)
           (map (fun r => {| time := time r; x := None; y := None; z := None |})
                (drop 10 (recording 0 20000000 60)))
           (of_int 50) (of_int 50)
           (<["NumSamples" := 60]> {[ "FirstWorn" := 0 ]}) (<["NumSamples" := 50]> ∅)
           eq_refl eq_refl eq_refl (fun _ => ltac:(cbn; lia)) eq_refl eq_refl)
    as (merged & Hkeys & _ & Hno & _).
  exists merged. split; [exact Hkeys|].
  split; [rewrite Hkeys; reflexivity|]. split; [rewrite Hkeys; reflexivity|].
  assert (run drop_ten mark_not_worn (request_excluding "rf" (Some 50))
            (recording 0 20000000 60)
          = Ok (NoValidData Z unit no_valid_data_message
                  ((<["NumSamples" := 50]> ∅) ∪
                   (<["NumSamples" := 60]> {[ "FirstWorn" := 0 ]})))) as Hrun
    by (vm_compute; reflexivity).
  rewrite <- (Hno no_valid_data_message _ Hrun). exact Hrun.
Defined.

(** ** The roll-up *)

(** *** Sums and filters *)

Lemma Zsum_app (l1 l2 : list Z) : Zsum (l1 ++ l2) = Zsum l1 + Zsum l2.
Proof. unfold Zsum. induction l1 as [|a l1 IH]; cbn; [done|]. rewrite IH. lia. Qed.

Lemma Zsum_map_add {A} (f g : A -> Z) (l : list A) :
  Zsum (map (fun a => f a + g a) l) = Zsum (map f l) + Zsum (map g l).
Proof. unfold Zsum. induction l as [|a l IH]; cbn; [done|]. rewrite IH. lia. Qed.

Lemma Zsum_map_zero {A} (l : list A) : Zsum (map (fun _ => 0) l) = 0.
Proof. unfold Zsum. induction l as [|a l IH]; cbn; [done|]. by rewrite IH. Qed.

Lemma Zsum_map_indicator {A} (P : A -> Prop) `{!forall a, Decision (P a)} (c : Z)
  (l : list A) :
  Zsum (map (fun a => if decide (P a) then c else 0) l) = c * Z.of_nat (length (filter P l)).
Proof.
  unfold Zsum. induction l as [|a l IH]; cbn [map foldr]; [cbn; lia|].
  rewrite IH, filter_cons. destruct (decide (P a)); cbn [length]; lia.
Qed.

Lemma filter_fmap_comm {A B} (f : A -> B) (P : B -> Prop) `{!forall b, Decision (P b)}
  (l : list A) :
  filter P (map f l) = map f (filter (fun a => P (f a)) l).
Proof.
  induction l as [|a l IH]; [done|]. cbn [map].
  rewrite !filter_cons, IH. by destruct (decide (P (f a))).
Qed.

Lemma filter_ext_elem {A} (P Q : A -> Prop) `{!forall a, Decision (P a)}
  `{!forall a, Decision (Q a)} (l : list A) :
  (forall a, a ∈ l -> P a <-> Q a) -> filter P l = filter Q l.
Proof.
  induction l as [|a l IH]; intros Hext; [done|].
  rewrite !filter_cons, IH.
  - destruct (decide (P a)) as [Hp|Hp], (decide (Q a)) as [Hq|Hq]; try done.
    + exfalso. apply Hq, (Hext a); [left | done].
    + exfalso. apply Hp, (Hext a); [left | done].
  - intros b Hb. apply Hext. by right.
Qed.

Lemma filter_eq_absent (c : Z) (l : list Z) :
  c ∉ l -> filter (fun k => k = c) l = [].
Proof.
  induction l as [|a l IH]; intros Hn; [done|].
  rewrite not_elem_of_cons in Hn. destruct Hn as [Hne Hn].
  rewrite filter_cons. destruct (decide (a = c)); [congruence | by apply IH].
Qed.

Lemma filter_eq_singleton (c : Z) (l : list Z) :
  NoDup l -> c ∈ l -> filter (fun k => k = c) l = [c].
Proof.
  induction l as [|a l IH]; intros Hnd Hin.
  - by apply elem_of_nil in Hin.
  - apply NoDup_cons in Hnd as [Ha Hnd]. rewrite filter_cons.
    destruct (decide (a = c)) as [->|Hne].
    + f_equal. by apply filter_eq_absent.
    + apply IH; [done|]. apply elem_of_cons in Hin as [->|Hin]; done.
Qed.

(** Double counting: when every row falls in exactly one of the groups
    [groups], summing the groups selected by [P] is summing the rows whose
    group is selected. *)
Lemma Zsum_by_group {A} (R : Z -> A -> Prop) `{!forall h a, Decision (R h a)}
  (P : Z -> Prop) `{!forall h, Decision (P h)} (group : A -> Z) (g : A -> Z)
  (groups : list Z) (rows : list A) :
  (forall a, a ∈ rows -> filter (fun h => R h a) groups = [group a]) ->
  Zsum (map (fun h => Zsum (map g (filter (R h) rows))) (filter P groups))
  = Zsum (map g (filter (fun a => P (group a)) rows)).
Proof.
  induction rows as [|a rows IH]; intros Hone.
  - cbn. apply Zsum_map_zero.
  - rewrite filter_cons.
    assert (Zsum (map (fun h => Zsum (map g (filter (R h) (a :: rows)))) (filter P groups))
            = Zsum (map (fun h => (if decide (R h a) then g a else 0)
                                  + Zsum (map g (filter (R h) rows))) (filter P groups))) as ->.
    { f_equal. apply map_ext. intros h. rewrite filter_cons.
      destruct (decide (R h a)); [reflexivity | lia]. }
    rewrite Zsum_map_add, IH by (intros b Hb; apply Hone; by right).
    rewrite (Zsum_map_indicator (fun h => R h a)), list_filter_filter.
    assert (filter (fun h => R h a /\ P h) groups = filter P (filter (fun h => R h a) groups)) as ->.
    { rewrite list_filter_filter. apply list_filter_iff. tauto. }
    rewrite (Hone a) by left. rewrite filter_cons, filter_nil.
    destruct (decide (P (group a))); cbn [length map];
      [change (Zsum (g a :: ?l)) with (g a + Zsum l)|]; lia.
Qed.

(** *** The grid *)

Lemma in_bin_spec (w start t : Z) : in_bin w start t = true <-> start <= t < start + w.
Proof. unfold in_bin. rewrite andb_true_iff, Z.leb_le, Z.ltb_lt. tauto. Qed.

Lemma in_bin_on_grid (w origin k t : Z) :
  0 < w -> in_bin w (origin + k * w) t = true <-> k = (t - origin) `div` w.
Proof.
  intros Hw. rewrite in_bin_spec. split.
  - intros [Hl Hu]. apply (Z.div_unique_pos (t - origin) w k (t - origin - k * w)); lia.
  - intros ->. pose proof (Z.mul_div_le (t - origin) w Hw).
    pose proof (Z.mul_succ_div_gt (t - origin) w Hw). lia.
Qed.

Lemma foldr_min_max_bounds (l : list Z) (a t : Z) :
  t ∈ l -> foldr Z.min a l <= t <= foldr Z.max a l.
Proof.
  induction l as [|b l IH]; intros Hin.
  - by apply elem_of_nil in Hin.
  - cbn. apply elem_of_cons in Hin as [->|Hin]; [lia|].
    specialize (IH Hin). lia.
Qed.

(** The grid of a non-empty series, and the bounds of its steps. *)
Definition grid_first (times : list Z) : Z := foldr Z.min (default 0 (head times)) times.
Definition grid_last (times : list Z) : Z := foldr Z.max (default 0 (head times)) times.
Definition grid_origin (times : list Z) : Z := bin_origin (grid_first times).

Lemma bin_starts_grid (w : Z) (times : list Z) :
  times ≠ [] ->
  bin_starts w times
  = map (fun k => grid_origin times + k * w)
      (seqZ ((grid_first times - grid_origin times) `div` w)
         ((grid_last times - grid_origin times) `div` w
          - (grid_first times - grid_origin times) `div` w + 1)).
Proof. by destruct times. Qed.

Lemma bin_starts_on_grid (w : Z) (times : list Z) (start : Z) :
  start ∈ bin_starts w times -> exists k, start = grid_origin times + k * w.
Proof.
  destruct times as [|t0 rest]; [by intros ?%elem_of_nil|].
  rewrite bin_starts_grid by done.
  intros (k & -> & _)%list_elem_of_fmap. by exists k.
Qed.

(** Every timestamp of the series falls in exactly one bin of its grid. *)
Lemma bin_of_timestamp (w : Z) (times : list Z) (t : Z) :
  0 < w -> t ∈ times ->
  filter (fun start => in_bin w start t = true) (bin_starts w times)
  = [grid_origin times + (t - grid_origin times) `div` w * w].
Proof.
  intros Hw Hin.
  assert (times ≠ []) as Hne by (intros ->; by apply elem_of_nil in Hin).
  rewrite bin_starts_grid by done.
  rewrite (filter_fmap_comm (fun k => grid_origin times + k * w)).
  rewrite (list_filter_iff _ (fun k => k = (t - grid_origin times) `div` w))
    by (intros k; by apply in_bin_on_grid).
  rewrite filter_eq_singleton; [done | apply NoDup_seqZ |].
  apply elem_of_seqZ.
  pose proof (foldr_min_max_bounds times (default 0 (head times)) t Hin) as [Hlo Hhi].
  fold (grid_first times) in Hlo. fold (grid_last times) in Hhi.
  pose proof (Z.div_le_mono (grid_first times - grid_origin times) (t - grid_origin times) w Hw).
  pose proof (Z.div_le_mono (t - grid_origin times) (grid_last times - grid_origin times) w Hw).
  lia.
Qed.

(** An hour bin lies in a day of the same grid exactly when its
    timestamps do. *)
Lemma hour_bin_within_day (origin j t : Z) :
  in_day (origin + j * day_ns) (origin + (t - origin) `div` hour_ns * hour_ns) = true
  <-> in_day (origin + j * day_ns) t = true.
Proof.
  unfold in_day. rewrite !in_bin_spec. unfold day_ns, hour_ns.
  pose proof (Z.mul_div_le (t - origin) 3600000000000 eq_refl).
  pose proof (Z.mul_succ_div_gt (t - origin) 3600000000000 eq_refl).
  lia.
Qed.

(** *** Tables *)

Definition start_and_steps (b : Bucket) : Z * Z := (b_start b, Steps b).

(** Steps of the samples that fall in the bin of width [w] at [start]. *)
Definition steps_in_bin (w start : Z) (table : list Sample) : Z :=
  Zsum (dropna (map s_steps (filter (fun r => in_bin w start (s_time r) = true) table))).

Lemma agg_steps (w : Z) (table : list Sample) :
  map start_and_steps (agg w table)
  = map (fun start => (start, steps_in_bin w start table)) (bin_starts w (map s_time table)).
Proof. unfold agg, resample. rewrite !map_map. reflexivity. Qed.

Lemma as_samples_times (table : list Bucket) :
  map s_time (as_samples table) = map b_start table.
Proof. unfold as_samples. rewrite map_map. reflexivity. Qed.

Lemma as_samples_steps (P : Z -> Prop) `{!forall t, Decision (P t)} (table : list Bucket) :
  dropna (map s_steps (filter (fun r => P (s_time r)) (as_samples table)))
  = map Steps (filter (fun b => P (b_start b)) table).
Proof.
  unfold as_samples, dropna. induction table as [|b table IH]; [done|].
  cbn [map]. rewrite !filter_cons. cbn [s_time].
  destruct (decide (P (b_start b))); [|done]. cbn. f_equal. exact IH.
Qed.

Lemma rollup_steps (w : Z) (table : list Bucket) :
  map start_and_steps (agg w (as_samples table))
  = map (fun start =>
           (start, Zsum (map Steps (filter (fun b => in_bin w start (b_start b) = true) table))))
        (bin_starts w (map b_start table)).
Proof.
  rewrite agg_steps, as_samples_times. apply map_ext. intros start.
  unfold steps_in_bin. f_equal. f_equal.
  exact (as_samples_steps (fun t => in_bin w start t = true) table).
Qed.

Lemma steps_within_day_pairs (d : Z) (table : list Bucket) :
  steps_within_day d table
  = Zsum (map snd (filter (fun p => in_day d p.1 = true) (map start_and_steps table))).
Proof.
  unfold steps_within_day.
  rewrite (filter_fmap_comm start_and_steps (fun p => in_day d p.1 = true)), map_map.
  reflexivity.
Qed.

Lemma fillna0_start_and_steps (table : list Bucket) :
  map start_and_steps (map fillna0 table) = map start_and_steps table.
Proof. rewrite map_map. reflexivity. Qed.

Lemma elem_of_start_and_steps (b : Bucket) (table : list Bucket) :
  b ∈ table -> start_and_steps b ∈ map start_and_steps table.
Proof. intros Hb. apply list_elem_of_fmap. by exists b. Qed.

(** A row of the minute table holds the sum of the steps of its samples. *)
Lemma minute_total (samples : list Sample) (m : Bucket) :
  m ∈ minutely samples -> Steps m = steps_in_bin minute_ns (b_start m) samples.
Proof.
  intros Hm%elem_of_start_and_steps. unfold minutely in Hm.
  rewrite fillna0_start_and_steps, agg_steps in Hm.
  apply list_elem_of_fmap in Hm as (start & [= Hs Ht] & _). by rewrite Ht, Hs.
Qed.

(** A row of the day table holds the sum of the minute rows of its day. *)
Lemma day_total (minutely_data : list Bucket) (d : Bucket) :
  d ∈ daily minutely_data ->
  Steps d = steps_within_day (b_start d) minutely_data /\
  b_start d ∈ bin_starts day_ns (map b_start minutely_data).
Proof.
  intros Hd%elem_of_start_and_steps. unfold daily in Hd. rewrite rollup_steps in Hd.
  apply list_elem_of_fmap in Hd as (start & [= Hs Ht] & Hin).
  rewrite Ht, Hs. split; [reflexivity | exact Hin].
Qed.

(** The hour rows of a day of the grid add up to its minute rows. *)
Lemma hours_total (minutely_data : list Bucket) (d : Z) :
  d ∈ bin_starts day_ns (map b_start minutely_data) ->
  steps_within_day d (hourly minutely_data) = steps_within_day d minutely_data.
Proof.
  intros Hd. set (times := map b_start minutely_data) in *.
  destruct (bin_starts_on_grid day_ns times d Hd) as [j ->].
  rewrite steps_within_day_pairs. unfold hourly. rewrite rollup_steps. fold times.
  rewrite (filter_fmap_comm _ (fun p => in_day (grid_origin times + j * day_ns) p.1 = true)).
  rewrite map_map. cbn [fst snd].
  rewrite (Zsum_by_group (fun h b => in_bin hour_ns h (b_start b) = true)
             (fun h => in_day (grid_origin times + j * day_ns) h = true)
             (fun b => grid_origin times
                       + (b_start b - grid_origin times) `div` hour_ns * hour_ns)).
  - unfold steps_within_day. f_equal. f_equal.
    apply filter_ext_elem. intros b _. apply hour_bin_within_day.
  - intros b Hb. apply (bin_of_timestamp hour_ns times (b_start b)); [done|].
    apply list_elem_of_fmap. by exists b.
Qed.

(** C8. In the roll-up, the step total of every row of the day table is
    the sum of the step totals of the hour rows of that day, which is the
    sum of the step totals of the minute rows of that day; the hour and
    day tables are built from the filled minute table alone, and a row of
    the minute table holds the sum of the steps of its samples (0 when it
    has none). *)
Theorem C8_day_total_is_sum_of_hours_and_minutes (samples : list Sample) (d : Bucket) :
  d ∈ daily (minutely samples) ->
  Steps d = steps_within_day (b_start d) (hourly (minutely samples)) /\
  steps_within_day (b_start d) (hourly (minutely samples))
    = steps_within_day (b_start d) (minutely samples) /\
  (forall m, m ∈ minutely samples -> Steps m = steps_in_bin minute_ns (b_start m) samples).
Proof.
  intros Hd. destruct (day_total _ _ Hd) as [Hday Hgrid].
  pose proof (hours_total _ _ Hgrid) as Hhours.
  split; [congruence|]. split; [exact Hhours|].
  intros m. apply minute_total.
Qed.

(** Steps at 00:00 and 00:30 of one day and at 01:00 of the next, nothing
    in between: two day rows, 26 hour rows, 1501 minute rows. *)
Definition two_days : list Sample :=
  [ {| s_time := 0; s_steps := Some 1; s_enmo := Some 0%Q |};
    {| s_time := 30 * minute_ns; s_steps := Some 2; s_enmo := Some 0%Q |};
    {| s_time := 25 * hour_ns; s_steps := Some 4; s_enmo := None |} ].

Example two_days_tables :
  map start_and_steps (daily (minutely two_days)) = [(0, 3); (day_ns, 4)] /\
  length (hourly (minutely two_days)) = 26%nat /\
  length (minutely two_days) = 1501%nat.
Proof. vm_compute. done. Qed.

Lemma C8_two_days_witness :
  let d := {| b_start := 0; Steps := 3; ENMO := Some 0%Q |} in
  d ∈ daily (minutely two_days) /\
  3 = steps_within_day 0 (hourly (minutely two_days)) /\
  steps_within_day 0 (hourly (minutely two_days)) = steps_within_day 0 (minutely two_days).
Proof.
  intros d.
  assert (d ∈ daily (minutely two_days)) as Hd.
  { apply list_elem_of_lookup. exists 0%nat. vm_compute. reflexivity. }
  split; [exact Hd|].
  destruct (C8_day_total_is_sum_of_hours_and_minutes two_days d Hd) as (H1 & H2 & _).
  split; [exact H1 | exact H2].
Defined.

(** ** The whole function on files *)

Definition infer_freq_one_second (idx : list Z) : result freq_value :=
  Ok (FreqTimedelta (Some 1000000000)).

Definition no_datetime_elem (c : cell) : option Z := None.

Definition no_datetime_scalar (s : string) : result boundary := Ok NaT.

Definition run_csv (infer_freq : list Z -> result freq_value)
  : DataFrame -> ProcessingRequest -> result (outcome Z unit) :=
  process_csv_data infer_freq regrid_xyz Z count_wear drop_ten mark_not_worn
    unit no_classifier no_steps unit no_summaries enmo_at_rest id
    decimal_literal float_placeholder no_datetime_elem no_datetime_scalar.

Definition request_mapping (mapping : string) : ProcessingRequest := {|
  model_type := "rf";
  sample_rate := None;
  txyz := mapping;
  min_wear_per_day := 1260;
  min_wear_per_hour := 50;
  min_wear_per_minute := 1 # 2;
  min_walk_per_day := 5;
  bouts_min_walk := 4 # 5;
  bouts_max_idle := 3;
  exclude_wear_below := None;
  exclude_first_last := None;
  start_time := None;
  end_time := None;
  pytorch_device := "cpu"
|}.

(** The file with [abc] in row 3 stops at the type check, before any
    timestamp is read. *)
Example file_with_abc_is_refused :
  run_csv infer_freq_none csv_row3_abc default_request
  = Raise (PyExn ValueError
      ("Data type validation failed:" +:+ nl +:+
       "Column 'x' has non-numeric values at rows [3]: ['abc']" +:+ nl +:+
       "Please ensure all accelerometer columns contain only numbers.")).
Proof. vm_compute. reflexivity. Qed.

(** With the mapping [a,a,b,c] the schema stage lets the file through, and
    the missing time column only shows when timestamps are read. *)
Example repeated_name_fails_later :
  map_schema "a,a,b,c" frame_abc
    = Ok [("x", [CNum 1]); ("y", [CNum 2]); ("z", [CNum 3])] /\
  run_csv infer_freq_none frame_abc (request_mapping "a,a,b,c")
    = Raise (PyExn ValueError
        "Unable to parse time column. Please ensure your time column contains valid timestamps (e.g., '2023-01-01 10:00:00.000'). Error: 'time'").
Proof. split; vm_compute; reflexivity. Qed.

Example missing_column_message :
  map_schema "t,x,y,w" frame_abc
  = Raise (PyExn KeyError "Missing columns: t, x, y, w. Available columns: a, b, c").
Proof. vm_compute. reflexivity. Qed.

Example three_names_refused :
  map_schema "t,x,y" frame_abc
  = Raise (PyExn ValueError "txyz must contain exactly 4 column names: time,x,y,z").
Proof. vm_compute. reflexivity. Qed.

(** One minute at 1 Hz, at rest, primary inference giving one second: the
    run completes at 1 Hz with no step at any resolution. *)
Example one_minute_at_rest :
  exists results,
    process_frame infer_freq_one_second regrid_xyz Z count_wear drop_ten mark_not_worn
      unit no_classifier no_steps unit no_summaries enmo_at_rest id
      default_request (recording 0 1000000000 60)
    = Ok (Completed Z unit results) /\
    res_sample_rate Z unit results = Fin 1 /\
    map start_and_steps (res_minutely Z unit results) = [(0, 0)] /\
    map start_and_steps (res_hourly Z unit results) = [(0, 0)] /\
    map start_and_steps (res_daily Z unit results) = [(0, 0)].
Proof. eexists. split; [vm_compute; reflexivity|]. vm_compute. done. Qed.

(** * Further properties of the pipeline *)

(** ** Type check and missing values: the accepting side *)

Lemma filter_setitem_eq (col : string) (s : list cell) (df : DataFrame) :
  filter (fun c => c.1 = col) (setitem col s df)
  = map (fun _ => (col, s)) (filter (fun c => c.1 = col) df).
Proof.
  unfold setitem. induction df as [|[n v] df IH]; [done|].
  cbn [map]. rewrite !filter_cons, IH. cbn.
  destruct (decide (n = col)) as [->|Hn]; cbn.
  - rewrite decide_True by done. done.
  - rewrite decide_False by done. done.
Qed.

Lemma getitem_setitem_eq (col : string) (s s' : list cell) (df : DataFrame) :
  getitem col df = Series s -> getitem col (setitem col s' df) = Series s'.
Proof.
  unfold getitem. rewrite filter_setitem_eq.
  destruct (filter (fun c => c.1 = col) df) as [|c [|c' l]]; done.
Qed.

Lemma setitem_columns (col : string) (s : list cell) (df : DataFrame) :
  columns (setitem col s df) = columns df.
Proof.
  unfold columns, setitem. induction df as [|[n v] df IH]; [done|].
  cbn. rewrite IH. by destruct (decide (n = col)) as [->|].
Qed.

Section Acceptance.

Variable to_numeric_str : string -> option Q.
Variable float_str : Q -> string.

Local Abbreviation coerce := (to_numeric_coerce to_numeric_str).

(** The frame after the turn of the loop for [col]. *)
Definition coerced_frame (col : string) (s : list cell) (df : DataFrame) : DataFrame :=
  if is_numeric_dtype s then df else setitem col (map coerce s) df.

Lemma coerce_numeric_id (s : list cell) : is_numeric_dtype s = true -> map coerce s = s.
Proof.
  unfold is_numeric_dtype. induction s as [|c s IH]; [done|]. cbn.
  intros [Hc Hs]%andb_true_iff. rewrite IH by done. by destruct c.
Qed.

Lemma coerced_is_numeric (s : list cell) : is_numeric_dtype (map coerce s) = true.
Proof.
  unfold is_numeric_dtype. induction s as [|c s IH]; [done|]. cbn. rewrite IH.
  destruct c as [q|v|]; cbn; [done | | done]. by destruct (to_numeric_str v).
Qed.

Lemma validate_column_frame (col : string) (df : DataFrame) (issues : list string)
  (s : list cell) :
  getitem col df = Series s ->
  validate_column to_numeric_str float_str col (df, issues)
  = Ok (coerced_frame col s df,
        (issues ++ column_issues to_numeric_str float_str col s)%list).
Proof.
  intros Hs. unfold validate_column, column_issues, coerced_frame. rewrite Hs.
  destruct (is_numeric_dtype s); [by rewrite app_nil_r|].
  destruct (existsb id (failed_mask (map coerce s) s)); [done | by rewrite app_nil_r].
Qed.

Lemma getitem_coerced_frame (col : string) (s : list cell) (df : DataFrame) :
  getitem col df = Series s -> getitem col (coerced_frame col s df) = Series (map coerce s).
Proof.
  intros Hs. unfold coerced_frame. destruct (is_numeric_dtype s) eqn:E.
  - by rewrite coerce_numeric_id.
  - by apply (getitem_setitem_eq col s).
Qed.

Lemma getitem_coerced_frame_ne (col col' : string) (s : list cell) (df : DataFrame) :
  col' ≠ col -> getitem col' (coerced_frame col s df) = getitem col' df.
Proof.
  intros Hne. unfold coerced_frame. destruct (is_numeric_dtype s); [done|].
  by apply getitem_setitem_ne.
Qed.

Lemma coerced_frame_columns (col : string) (s : list cell) (df : DataFrame) :
  columns (coerced_frame col s df) = columns df.
Proof. unfold coerced_frame. destruct (is_numeric_dtype s); [done | apply setitem_columns]. Qed.

Lemma column_issues_none (col : string) (s : list cell) :
  (forall i v, ¬ non_numeric_at to_numeric_str s i v) ->
  column_issues to_numeric_str float_str col s = [].
Proof.
  intros Hno. unfold column_issues. destruct (is_numeric_dtype s); [done|].
  destruct (existsb id (failed_mask (map coerce s) s)) eqn:E; [|done].
  apply existsb_id_lookup in E as [i Hi].
  apply failed_mask_lookup in Hi as [v Hv]. by destruct (Hno i v).
Qed.

Lemma column_issues_nil_inv (col : string) (s : list cell) :
  column_issues to_numeric_str float_str col s = [] ->
  forall i v, ¬ non_numeric_at to_numeric_str s i v.
Proof.
  intros Hnil i v Hbad.
  rewrite (column_issues_reported to_numeric_str float_str col s) in Hnil; [done|].
  by exists i, v.
Qed.

(** The frame that the type check hands on. *)
Definition validated_frame (sx sy sz : list cell) (df : DataFrame) : DataFrame :=
  coerced_frame "z" sz (coerced_frame "y" sy (coerced_frame "x" sx df)).

Lemma validate_types_on_series (df : DataFrame) (sx sy sz : list cell) :
  getitem "x" df = Series sx -> getitem "y" df = Series sy -> getitem "z" df = Series sz ->
  validate_types to_numeric_str float_str df
  = match xyz_issues to_numeric_str float_str sx sy sz with
    | [] => Ok (validated_frame sx sy sz df)
    | issues => Raise (PyExn ValueError (type_error_message issues))
    end.
Proof.
  intros Hx Hy Hz. unfold validate_types.
  rewrite (validate_column_frame "x" df [] sx Hx), bind_Ok, app_nil_l.
  assert (getitem "y" (coerced_frame "x" sx df) = Series sy) as Hy1
    by (by rewrite getitem_coerced_frame_ne).
  rewrite (validate_column_frame "y" _ _ sy Hy1), bind_Ok.
  assert (getitem "z" (coerced_frame "y" sy (coerced_frame "x" sx df)) = Series sz) as Hz2
    by (by rewrite !getitem_coerced_frame_ne).
  rewrite (validate_column_frame "z" _ _ sz Hz2), bind_Ok. cbn [fst snd].
  rewrite <- app_assoc. fold (xyz_issues to_numeric_str float_str sx sy sz).
  by destruct (xyz_issues to_numeric_str float_str sx sy sz).
Qed.

Lemma validated_frame_series (df : DataFrame) (sx sy sz : list cell) :
  getitem "x" df = Series sx -> getitem "y" df = Series sy -> getitem "z" df = Series sz ->
  getitem "x" (validated_frame sx sy sz df) = Series (map coerce sx) /\
  getitem "y" (validated_frame sx sy sz df) = Series (map coerce sy) /\
  getitem "z" (validated_frame sx sy sz df) = Series (map coerce sz) /\
  columns (validated_frame sx sy sz df) = columns df /\
  (forall col, col ∉ ["x"; "y"; "z"] ->
     getitem col (validated_frame sx sy sz df) = getitem col df).
Proof.
  intros Hx Hy Hz. unfold validated_frame. split; [|split; [|split; [|split]]].
  - rewrite !getitem_coerced_frame_ne by done. by apply getitem_coerced_frame.
  - rewrite getitem_coerced_frame_ne by done. apply getitem_coerced_frame.
    by rewrite getitem_coerced_frame_ne.
  - apply getitem_coerced_frame. by rewrite !getitem_coerced_frame_ne.
  - by rewrite !coerced_frame_columns.
  - intros col Hcol. rewrite !elem_of_cons, elem_of_nil in Hcol.
    rewrite !getitem_coerced_frame_ne; [done | | |]; intros ->; tauto.
Qed.

(** X1. When x, y and z are single columns without a non-numeric value,
    the type check accepts the frame and hands on a frame with the same
    labels, in which x, y and z hold the converted values (numeric
    strings as numbers) and are of numeric dtype, and in which every other
    column is untouched. *)
Theorem X1_type_check_accepts_and_converts (df : DataFrame) (sx sy sz : list cell) :
  getitem "x" df = Series sx -> getitem "y" df = Series sy -> getitem "z" df = Series sz ->
  (forall s, s ∈ [sx; sy; sz] -> forall i v, ¬ non_numeric_at to_numeric_str s i v) ->
  exists df',
    validate_types to_numeric_str float_str df = Ok df' /\
    getitem "x" df' = Series (map coerce sx) /\
    getitem "y" df' = Series (map coerce sy) /\
    getitem "z" df' = Series (map coerce sz) /\
    columns df' = columns df /\
    (forall col, col ∉ ["x"; "y"; "z"] -> getitem col df' = getitem col df) /\
    (forall s, s ∈ [sx; sy; sz] -> is_numeric_dtype (map coerce s) = true).
Proof.
  intros Hx Hy Hz Hno. exists (validated_frame sx sy sz df).
  rewrite (validate_types_on_series df sx sy sz Hx Hy Hz).
  assert (xyz_issues to_numeric_str float_str sx sy sz = []) as ->.
  { unfold xyz_issues. rewrite !column_issues_none; [done | | |];
      apply Hno; rewrite !elem_of_cons; tauto. }
  destruct (validated_frame_series df sx sy sz Hx Hy Hz) as (H1 & H2 & H3 & H4 & H5).
  repeat split; try done. intros s _. apply coerced_is_numeric.
Qed.

End Acceptance.

(** ** Missing values *)

Definition has_null (s : list cell) : Prop := exists i : nat, s !! i = Some CNull.

Definition null_rows (s : list cell) : list Z :=
  user_friendly (take 5 (mask_index (map isnull s))).

Definition missing_issues_of (col : string) (s : list cell) : list string :=
  if existsb id (map isnull s) then [missing_issue col (null_rows s)] else [].

Definition xyz_missing_issues (sx sy sz : list cell) : list string :=
  (missing_issues_of "x" sx ++ missing_issues_of "y" sy ++ missing_issues_of "z" sz)%list.

Lemma isnull_mask_lookup (s : list cell) (i : nat) :
  map isnull s !! i = Some true <-> s !! i = Some CNull.
Proof.
  rewrite list_lookup_fmap. destruct (s !! i) as [[q|v|]|]; cbn; split; congruence.
Qed.

Lemma any_null_spec (s : list cell) : existsb id (map isnull s) = true <-> has_null s.
Proof.
  rewrite existsb_id_lookup. unfold has_null.
  split; intros [i Hi]; exists i; by apply isnull_mask_lookup.
Qed.

Lemma missing_issues_none (col : string) (s : list cell) :
  missing_issues_of col s = [] <-> ¬ has_null s.
Proof.
  unfold missing_issues_of. rewrite <- any_null_spec.
  destruct (existsb id (map isnull s)); split; try done.
Qed.

Lemma check_missing_column_series (col : string) (df : DataFrame) (issues : list string)
  (s : list cell) :
  getitem col df = Series s ->
  check_missing_column col df issues = Ok (issues ++ missing_issues_of col s)%list.
Proof.
  intros Hs. unfold check_missing_column, missing_issues_of, null_rows. rewrite Hs.
  destruct (existsb id (map isnull s)); [done | by rewrite app_nil_r].
Qed.

Lemma check_missing_on_series (df : DataFrame) (sx sy sz : list cell) :
  getitem "x" df = Series sx -> getitem "y" df = Series sy -> getitem "z" df = Series sz ->
  check_missing df
  = match xyz_missing_issues sx sy sz with
    | [] => Ok df
    | issues => Raise (PyExn ValueError (missing_error_message issues))
    end.
Proof.
  intros Hx Hy Hz. unfold check_missing.
  rewrite (check_missing_column_series "x" df [] sx Hx), bind_Ok, app_nil_l.
  rewrite (check_missing_column_series "y" df _ sy Hy), bind_Ok.
  rewrite (check_missing_column_series "z" df _ sz Hz), bind_Ok.
  rewrite <- app_assoc. fold (xyz_missing_issues sx sy sz).
  by destruct (xyz_missing_issues sx sy sz).
Qed.

Lemma xyz_missing_issues_nil (sx sy sz : list cell) :
  xyz_missing_issues sx sy sz = [] <-> forall s, s ∈ [sx; sy; sz] -> ¬ has_null s.
Proof.
  unfold xyz_missing_issues.
  rewrite !app_nil, !missing_issues_none. split.
  - intros (Hx & Hy & Hz) s Hs. rewrite !elem_of_cons, elem_of_nil in Hs.
    destruct Hs as [->|[->|[->|[]]]]; done.
  - intros H. repeat split; apply H; rewrite !elem_of_cons; tauto.
Qed.

Lemma null_rows_sound (s : list cell) (r : Z) :
  r ∈ null_rows s -> exists i : nat, r = Z.of_nat i + 1 /\ s !! i = Some CNull.
Proof.
  unfold null_rows, user_friendly. intros (i & -> & Hi)%list_elem_of_fmap.
  exists i. split; [done|].
  apply elem_of_take in Hi as (k & Hk%list_elem_of_lookup_2 & _).
  by apply isnull_mask_lookup, mask_index_spec.
Qed.

Lemma null_rows_early (s : list cell) (i : nat) :
  (i < 5)%nat -> s !! i = Some CNull -> Z.of_nat i + 1 ∈ null_rows s.
Proof.
  intros Hi Hs. unfold null_rows, user_friendly. apply list_elem_of_fmap.
  exists i. split; [done|]. apply mask_index_early; [done|]. by apply isnull_mask_lookup.
Qed.

Lemma null_rows_nonempty (s : list cell) : null_rows s ≠ [] <-> has_null s.
Proof.
  rewrite <- any_null_spec, existsb_id_lookup. unfold null_rows, user_friendly. split.
  - destruct (mask_index (map isnull s)) as [|i rest] eqn:E; [done|]. intros _.
    exists i. apply mask_index_spec. rewrite E. left.
  - intros [i Hi%mask_index_spec].
    destruct (mask_index (map isnull s)) as [|i0 rest]; [by apply elem_of_nil in Hi|done].
Qed.

(** The line of a column, written out. *)
Lemma missing_issues_line (col : string) (s : list cell) :
  missing_issues_of col s
  = match null_rows s with
    | [] => []
    | _ :: _ =>
        ["Column '" +:+ col +:+ "' has missing values at rows: " +:+
         repr_list str_int (null_rows s)]
    end.
Proof.
  unfold missing_issues_of.
  destruct (existsb id (map isnull s)) eqn:E.
  - apply any_null_spec, null_rows_nonempty in E.
    destruct (null_rows s); [done | reflexivity].
  - destruct (null_rows s) eqn:En; [done|].
    assert (null_rows s ≠ []) as Hne by (by rewrite En).
    apply null_rows_nonempty, any_null_spec in Hne. congruence.
Qed.

(** X2. On a frame whose x, y and z are single columns, the check for
    missing values hands the frame on unchanged exactly when none of the
    three has a missing value; otherwise it raises one [ValueError] whose
    message has, between its first and its last line, one line for each
    of x, y and z with a missing value, in that order. Such a line names
    the column and gives at most five row numbers, each the 1-based
    number of a missing value, and always the missing values found in the
    first five rows. *)
Theorem X2_missing_values_reported (df : DataFrame) (sx sy sz : list cell) :
  getitem "x" df = Series sx -> getitem "y" df = Series sy -> getitem "z" df = Series sz ->
  (check_missing df = Ok df <-> forall s, s ∈ [sx; sy; sz] -> ¬ has_null s) /\
  ((exists s, s ∈ [sx; sy; sz] /\ has_null s) ->
   check_missing df
   = Raise (PyExn ValueError
       ("Missing data found:" +:+ nl +:+
        join nl
          (flat_map
             (fun cs : string * list cell =>
                match null_rows cs.2 with
                | [] => []
                | _ :: _ =>
                    ["Column '" +:+ cs.1 +:+ "' has missing values at rows: " +:+
                     repr_list str_int (null_rows cs.2)]
                end)
             [("x", sx); ("y", sy); ("z", sz)]) +:+
        nl +:+ "Please ensure all x, y, z values are present."))) /\
  (forall s, (null_rows s ≠ [] <-> has_null s) /\
     (length (null_rows s) <= 5)%nat /\
     (forall r, r ∈ null_rows s -> exists i : nat, r = Z.of_nat i + 1 /\ s !! i = Some CNull) /\
     (forall i : nat, (i < 5)%nat -> s !! i = Some CNull -> Z.of_nat i + 1 ∈ null_rows s)).
Proof.
  intros Hx Hy Hz. rewrite (check_missing_on_series df sx sy sz Hx Hy Hz).
  split; [|split].
  - rewrite <- xyz_missing_issues_nil.
    destruct (xyz_missing_issues sx sy sz); split; done.
  - intros (s & Hs & Hnull).
    destruct (xyz_missing_issues sx sy sz) as [|line rest] eqn:E.
    { pose proof (proj1 (xyz_missing_issues_nil sx sy sz) E) as E'. by destruct (E' s Hs). }
    rewrite <- E. unfold missing_error_message, xyz_missing_issues.
    rewrite !missing_issues_line. cbn [flat_map fst snd]. by rewrite app_nil_r.
  - intros s. split; [|split; [|split]].
    + apply null_rows_nonempty.
    + unfold null_rows, user_friendly. rewrite length_map, length_take. lia.
    + apply null_rows_sound.
    + apply null_rows_early.
Qed.

Definition csv_missing_y : DataFrame :=
  [("time", [CStr "10:00:00"; CStr "10:00:01"; CStr "10:00:02"]);
   ("x", [CNum 0; CNum 0; CNum 0]);
   ("y", [CNum 0; CNull; CNull]);
   ("z", [CNum 1; CNum 1; CNum 1])].

Example missing_y_message :
  check_missing csv_missing_y
  = Raise (PyExn ValueError
      ("Missing data found:" +:+ nl +:+
       "Column 'y' has missing values at rows: [2, 3]" +:+ nl +:+
       "Please ensure all x, y, z values are present.")).
Proof. vm_compute. reflexivity. Qed.

Lemma X2_missing_y_witness :
  check_missing csv_missing_y
    = Raise (PyExn ValueError
        ("Missing data found:" +:+ nl +:+
         "Column 'y' has missing values at rows: [2, 3]" +:+ nl +:+
         "Please ensure all x, y, z values are present.")) /\
  2 ∈ null_rows (series_of "y" csv_missing_y).
Proof.
  destruct (X2_missing_values_reported csv_missing_y (series_of "x" csv_missing_y)
              (series_of "y" csv_missing_y) (series_of "z" csv_missing_y)
              eq_refl eq_refl eq_refl) as (_ & Hraise & Hrows).
  split.
  - rewrite Hraise; [vm_compute; reflexivity|].
    exists (series_of "y" csv_missing_y). split; [right; left | by exists 1%nat].
  - destruct (Hrows (series_of "y" csv_missing_y)) as (_ & _ & _ & Hearly).
    apply (Hearly 1%nat); [lia | reflexivity].
Defined.

Lemma X1_numeric_strings_witness :
  exists df',
    validate_types decimal_literal float_placeholder
      [("time", [CStr "10:00:00"]); ("x", [CStr "0.5"]); ("y", [CNum 0]); ("z", [CNull])]
      = Ok df' /\
    getitem "x" df' = Series [CNum (1 # 2)] /\
    getitem "time" df' = Series [CStr "10:00:00"].
Proof.
  destruct (X1_type_check_accepts_and_converts decimal_literal float_placeholder
              [("time", [CStr "10:00:00"]); ("x", [CStr "0.5"]); ("y", [CNum 0]); ("z", [CNull])]
              [CStr "0.5"] [CNum 0] [CNull] eq_refl eq_refl eq_refl)
    as (df' & Hok & Hx & _ & _ & _ & Hother & _).
  - intros s Hs i v [Hcell Hnum]. rewrite !elem_of_cons, elem_of_nil in Hs.
    destruct Hs as [->|[->|[->|[]]]]; destruct i as [|i]; cbn in Hcell; try discriminate.
    injection Hcell as <-. discriminate Hnum.
  - exists df'. split; [exact Hok|]. split; [exact Hx|].
    rewrite Hother; [reflexivity|]. rewrite !elem_of_cons, elem_of_nil.
    intros [H|[H|[H|[]]]]; discriminate H.
Defined.

(** ** The time column *)

Lemma existsb_id_false (mask : list bool) :
  existsb id mask = false <-> forall i, mask !! i ≠ Some true.
Proof.
  split.
  - intros Hf i Hi. assert (existsb id mask = true) as Ht; [|congruence].
    apply existsb_id_lookup. by exists i.
  - intros Hno. destruct (existsb id mask) eqn:E; [|done].
    apply existsb_id_lookup in E as [i Hi]. by destruct (Hno i).
Qed.

Lemma omap_id_Some {A} (l : list A) : omap id (map Some l) = l.
Proof. induction l as [|a l IH]; [done|]. cbn. by rewrite IH. Qed.

Lemma all_Some_omap {A} (l : list (option A)) :
  (forall i, l !! i ≠ Some None) -> map Some (omap id l) = l.
Proof.
  induction l as [|[a|] l IH]; intros Hall; [done | |].
  - cbn. f_equal. apply IH. intros i. exact (Hall (S i)).
  - by destruct (Hall 0%nat).
Qed.

Section TimeColumn.

Variable float_str : Q -> string.
Variable to_datetime_elem : cell -> option Z.

Local Abbreviation parse := (to_datetime_coerce to_datetime_elem).

(** Row [i] (from 0) holds a value that is no timestamp. *)
Definition unparsed_at (s : list cell) (i : nat) : Prop :=
  exists c, s !! i = Some c /\ c ≠ CNull /\ to_datetime_elem c = None.

Definition unparsed_mask (s : list cell) : list bool :=
  zip_with (fun t o => bool_decide (t = None) && notna o) (map parse s) s.

Definition unparsed_rows (s : list cell) : list Z :=
  user_friendly (take 5 (mask_index (unparsed_mask s))).

Definition unparsed_values (s : list cell) : list string :=
  map (value_at float_str s) (take 5 (mask_index (unparsed_mask s))).

Lemma unparsed_mask_lookup (s : list cell) (i : nat) :
  unparsed_mask s !! i = Some true <-> unparsed_at s i.
Proof.
  unfold unparsed_mask, unparsed_at. rewrite lookup_zip_with, list_lookup_fmap.
  destruct (s !! i) as [c|] eqn:E; cbn.
  - destruct c as [q|v|]; cbn.
    + destruct (to_datetime_elem (CNum q)) eqn:Et; cbn.
      * split; [discriminate | intros (c & [= <-] & _ & Hn); congruence].
      * split; [intros _; by exists (CNum q) | done].
    + destruct (to_datetime_elem (CStr v)) eqn:Et; cbn.
      * split; [discriminate | intros (c & [= <-] & _ & Hn); congruence].
      * split; [intros _; by exists (CStr v) | done].
    + split; [discriminate | intros (c & [= <-] & Hne & _); done].
  - split; [discriminate | intros (c & [=] & _)].
Qed.

Lemma null_time_mask (s : list cell) :
  (forall i, ¬ unparsed_at s i) ->
  map (fun t => bool_decide (t = None)) (map parse s) = map isnull s.
Proof.
  intros Hno. rewrite map_map. apply list_eq. intros i.
  rewrite !list_lookup_fmap. destruct (s !! i) as [c|] eqn:E; [|done]. cbn. f_equal.
  destruct c as [q|v|]; cbn; [| |done].
  - destruct (to_datetime_elem (CNum q)) eqn:Et; [done|].
    destruct (Hno i). by exists (CNum q).
  - destruct (to_datetime_elem (CStr v)) eqn:Et; [done|].
    destruct (Hno i). by exists (CStr v).
Qed.

Lemma parse_time_on_series (df : DataFrame) (s : list cell) :
  getitem "time" df = Series s ->
  parse_time float_str to_datetime_elem df
  = if existsb id (unparsed_mask s)
    then Raise (PyExn ValueError (time_parse_message (unparsed_rows s) (unparsed_values s)))
    else if existsb id (map (fun t => bool_decide (t = None)) (map parse s))
    then Raise (PyExn ValueError (time_missing_message
           (user_friendly (take 5 (mask_index
              (map (fun t => bool_decide (t = None)) (map parse s)))))))
    else Ok (omap id (map parse s)).
Proof. intros Hs. unfold parse_time. by rewrite Hs. Qed.

Lemma unparsed_listed_sound (s : list cell) (k : nat) (r : Z) (v : string) :
  unparsed_rows s !! k = Some r -> unparsed_values s !! k = Some v ->
  exists (i : nat) (c : cell),
    r = Z.of_nat i + 1 /\ s !! i = Some c /\ unparsed_at s i /\ v = str_cell float_str c.
Proof.
  unfold unparsed_rows, unparsed_values, user_friendly. rewrite !list_lookup_fmap.
  destruct (take 5 (mask_index (unparsed_mask s)) !! k) as [i|] eqn:Ek; [|done].
  cbn. intros [= <-] [= <-].
  assert (unparsed_at s i) as Hbad.
  { apply unparsed_mask_lookup, mask_index_spec.
    apply list_elem_of_lookup_2 in Ek.
    by apply elem_of_take in Ek as (? & ?%list_elem_of_lookup_2 & ?). }
  destruct Hbad as (c & Hc & Hrest). exists i, c. split; [done|]. split; [done|].
  split; [by exists c|]. unfold value_at. by rewrite Hc.
Qed.

(** X3. On a frame with a single time column: the timestamps are returned
    exactly when every cell is read as a timestamp, and they are the
    readings, row by row; a present value that cannot be read makes the
    stage raise the [ValueError] that lists the first five such rows, by
    their 1-based numbers, with their values, also when other cells are
    missing; with no such value but a missing cell, it raises the one that
    lists the missing rows. *)
Theorem X3_time_column_parsed_or_reported (df : DataFrame) (s : list cell) :
  getitem "time" df = Series s ->
  (forall times, parse_time float_str to_datetime_elem df = Ok times
                 <-> map parse s = map Some times) /\
  ((exists i, unparsed_at s i) ->
   parse_time float_str to_datetime_elem df
     = Raise (PyExn ValueError
         ("Unable to parse time column. Invalid timestamps found at rows " +:+
          repr_list str_int (unparsed_rows s) +:+ ": " +:+
          repr_list repr_str (unparsed_values s) +:+ nl +:+
          "Please ensure your time column contains valid timestamps (e.g., '2023-01-01 10:00:00.000').")) /\
   (length (unparsed_rows s) <= 5)%nat /\
   length (unparsed_values s) = length (unparsed_rows s) /\
   (forall (k : nat) r v,
      unparsed_rows s !! k = Some r -> unparsed_values s !! k = Some v ->
      exists (i : nat) (c : cell),
        r = Z.of_nat i + 1 /\ s !! i = Some c /\ unparsed_at s i /\
        v = str_cell float_str c) /\
   forall i : nat, (i < 5)%nat -> unparsed_at s i -> Z.of_nat i + 1 ∈ unparsed_rows s) /\
  ((forall i, ¬ unparsed_at s i) -> has_null s ->
   parse_time float_str to_datetime_elem df
     = Raise (PyExn ValueError
         ("Time column contains missing values at rows: " +:+
          repr_list str_int (null_rows s) +:+
          ". Please ensure all timestamps are present."))).
Proof.
  intros Hs. rewrite (parse_time_on_series df s Hs). split; [|split].
  - intros times. split.
    + destruct (existsb id (unparsed_mask s)); [done|].
      destruct (existsb id _) eqn:En; [done|]. intros [= <-].
      symmetry. apply all_Some_omap. intros i Hi.
      apply (proj1 (existsb_id_false _) En i).
      rewrite list_lookup_fmap, Hi. reflexivity.
    + intros Hall.
      assert (existsb id (unparsed_mask s) = false) as ->.
      { apply existsb_id_false. intros i. unfold unparsed_mask.
        rewrite Hall, lookup_zip_with, list_lookup_fmap.
        destruct (times !! i); cbn; [|done]. by destruct (s !! i). }
      assert (existsb id (map (fun t => bool_decide (t = None)) (map parse s)) = false) as ->.
      { apply existsb_id_false. intros i. rewrite Hall, !list_lookup_fmap.
        by destruct (times !! i). }
      by rewrite Hall, omap_id_Some.
  - intros [i Hi].
    assert (existsb id (unparsed_mask s) = true) as ->.
    { apply existsb_id_lookup. exists i. by apply unparsed_mask_lookup. }
    split; [reflexivity|]. split; [|split; [|split]].
    + unfold unparsed_rows, user_friendly. rewrite length_map, length_take. lia.
    + unfold unparsed_rows, unparsed_values, user_friendly. by rewrite !length_map.
    + apply unparsed_listed_sound.
    + intros j Hj Hbad. unfold unparsed_rows, user_friendly. apply list_elem_of_fmap.
      exists j. split; [done|]. apply mask_index_early; [done|].
      by apply unparsed_mask_lookup.
  - intros Hno Hnull.
    assert (existsb id (unparsed_mask s) = false) as ->.
    { apply existsb_id_false. intros i Hi. apply unparsed_mask_lookup in Hi. by destruct (Hno i). }
    rewrite (null_time_mask s Hno).
    rewrite (proj2 (any_null_spec s) Hnull). reflexivity.
Qed.

End TimeColumn.

(** Timestamps written as a whole number of seconds; it stands for
    [pd.to_datetime] where the model is run on a file. *)
Definition seconds_elem (c : cell) : option Z :=
  match c with
  | CStr s => match decimal_literal s with
              | Some q => if (Qden q =? 1)%positive then Some (Qnum q * 1000000000) else None
              | None => None
              end
  | _ => None
  end.

Definition csv_bad_time : DataFrame :=
  [("time", [CStr "0"; CStr "soon"; CNull; CStr "3"]);
   ("x", [CNum 0; CNum 0; CNum 0; CNum 0]);
   ("y", [CNum 0; CNum 0; CNum 0; CNum 0]);
   ("z", [CNum 1; CNum 1; CNum 1; CNum 1])].

Example bad_time_message :
  parse_time float_placeholder seconds_elem csv_bad_time
  = Raise (PyExn ValueError
      ("Unable to parse time column. Invalid timestamps found at rows [2]: ['soon']" +:+ nl +:+
       "Please ensure your time column contains valid timestamps (e.g., '2023-01-01 10:00:00.000').")).
Proof. vm_compute. reflexivity. Qed.

Lemma X3_bad_time_witness :
  parse_time float_placeholder seconds_elem csv_bad_time
    = Raise (PyExn ValueError
        ("Unable to parse time column. Invalid timestamps found at rows [2]: ['soon']" +:+ nl +:+
         "Please ensure your time column contains valid timestamps (e.g., '2023-01-01 10:00:00.000').")) /\
  2 ∈ unparsed_rows seconds_elem (series_of "time" csv_bad_time).
Proof.
  assert (unparsed_at seconds_elem (series_of "time" csv_bad_time) 1) as Hbad.
  { exists (CStr "soon"). split; [reflexivity|]. split; [discriminate | reflexivity]. }
  destruct (X3_time_column_parsed_or_reported float_placeholder seconds_elem csv_bad_time
              (series_of "time" csv_bad_time) eq_refl) as (_ & Hraise & _).
  destruct (Hraise (ex_intro _ 1%nat Hbad)) as (H1 & _ & _ & _ & H3).
  split; [rewrite H1; vm_compute; reflexivity|]. apply (H3 1%nat); [lia | exact Hbad].
Defined.

(** ** Time filtering *)

(** An optional text option that the pipeline ignores: absent, empty,
    blank, or the placeholder [string] in any case. *)
Definition ignored (o : option string) : Prop :=
  o = None \/ exists s, o = Some s /\ (s = EmptyString \/ strip s = EmptyString
                                        \/ lower s = "string").

Lemma truthy_false (s : string) : truthy s = false <-> s = EmptyString.
Proof. destruct s; split; done. Qed.

Lemma option_given_false (o : option string) : option_given o = false <-> ignored o.
Proof.
  unfold option_given, ignored. destruct o as [s|].
  - rewrite !andb_false_iff, !truthy_false, negb_false_iff, String.eqb_eq. split.
    + intros H. right. exists s. split; [done | tauto].
    + intros [H|(s' & [= <-] & H)]; [done | tauto].
  - split; [by left | done].
Qed.

Section TimeFilter.

Variable to_datetime_scalar : string -> result boundary.

(** X5. Time filtering keeps, in their order, exactly the rows between the
    two boundaries, both ends included, when both are given and read as
    timestamps that compare with the index; it returns the frame as it is
    when both options are absent, empty, blank or the placeholder
    [string]; a start boundary that cannot be read, or that does not
    compare with the index, raises the [ValueError] that quotes it and the
    text of the exception, whatever the end boundary is; and a start
    boundary read as NaT leaves no row. *)
Theorem X5_time_filter_closed_interval (request : ProcessingRequest) (csv_data : Frame) :
  (forall s e first last,
     start_time request = Some s -> option_given (Some s) = true ->
     end_time request = Some e -> option_given (Some e) = true ->
     to_datetime_scalar s = Ok (Stamp first) -> to_datetime_scalar e = Ok (Stamp last) ->
     filter_time to_datetime_scalar request csv_data
     = Ok (filter (fun r => first <= time r <= last) csv_data)) /\
  (ignored (start_time request) -> ignored (end_time request) ->
   filter_time to_datetime_scalar request csv_data = Ok csv_data) /\
  (forall s err,
     start_time request = Some s -> option_given (Some s) = true ->
     to_datetime_scalar s = Raise err \/ to_datetime_scalar s = Ok (Incomparable err) ->
     filter_time to_datetime_scalar request csv_data
     = Raise (PyExn ValueError
         ("Invalid start_time format: '" +:+ s +:+
          "'. Please use a valid datetime format (e.g., '2023-01-01 10:00:00'). Error: " +:+
          str_exn err))) /\
  (forall s,
     start_time request = Some s -> option_given (Some s) = true ->
     to_datetime_scalar s = Ok NaT -> ignored (end_time request) ->
     filter_time to_datetime_scalar request csv_data = Ok []).
Proof.
  split; [|split; [|split]].
  - intros s e first last Hs Hgs He Hge Hps Hpe. unfold filter_time.
    rewrite Hs, He, Hgs, Hge. change (default EmptyString (Some s)) with s.
    change (default EmptyString (Some e)) with e. rewrite Hps, Hpe.
    repeat (rewrite bind_Ok || unfold try_except at 1 || unfold keep_from at 1
            || unfold keep_until at 1).
    f_equal. rewrite list_filter_filter. apply list_filter_iff. intros r. lia.
  - intros Hs%option_given_false He%option_given_false. unfold filter_time.
    by rewrite Hs, He.
  - intros s err Hs Hgs Hps. unfold filter_time. rewrite Hs, Hgs.
    change (default EmptyString (Some s)) with s.
    by destruct Hps as [-> | ->].
  - intros s Hs Hgs Hps He%option_given_false. unfold filter_time. rewrite Hs, Hgs, He.
    change (default EmptyString (Some s)) with s. by rewrite Hps.
Qed.

(** Whatever the boundaries, time filtering only removes rows. *)
Lemma filter_time_sublist (request : ProcessingRequest) (csv_data kept : Frame) :
  filter_time to_datetime_scalar request csv_data = Ok kept -> kept `sublist_of` csv_data.
Proof.
  unfold filter_time.
  assert (forall (b : boundary) l l', keep_from b l = Ok l' -> l' `sublist_of` l) as Hfrom.
  { intros [|v|e] l l'; cbn; [intros [= <-]; apply sublist_nil_l
                              | intros [= <-]; apply sublist_filter | done]. }
  assert (forall (b : boundary) l l', keep_until b l = Ok l' -> l' `sublist_of` l) as Huntil.
  { intros [|v|e] l l'; cbn; [intros [= <-]; apply sublist_nil_l
                              | intros [= <-]; apply sublist_filter | done]. }
  assert (forall (keep : boundary -> Frame -> result Frame) literal which l l',
            (forall b l l', keep b l = Ok l' -> l' `sublist_of` l) ->
            try_except (dt ← to_datetime_scalar literal; keep dt l)
              (fun e => Raise (PyExn ValueError (boundary_message which literal e))) = Ok l' ->
            l' `sublist_of` l) as Hstage.
  { intros keep literal which l l' Hkeep.
    destruct (to_datetime_scalar literal) as [b|e]; cbn; [|done].
    destruct (keep b l) as [kept'|e] eqn:E; cbn; [|done].
    intros [= <-]. by eapply Hkeep. }
  destruct (option_given (start_time request)).
  - destruct (try_except _ _) as [first|e] eqn:E1; [|done]. rewrite bind_Ok.
    apply Hstage in E1; [|done].
    destruct (option_given (end_time request)).
    + intros E2. apply Hstage in E2; [|done]. by etrans.
    + by intros [= <-].
  - rewrite bind_Ok. destruct (option_given (end_time request)).
    + intros E2. by apply Hstage in E2.
    + by intros [= <-].
Qed.

End TimeFilter.

Definition read_seconds (s : string) : result boundary :=
  match seconds_elem (CStr s) with
  | Some t => Ok (Stamp t)
  | None => Raise (PyExn ValueError ("Unknown datetime string format, unable to parse: " +:+ s))
  end.

Definition request_between (start finish : option string) : ProcessingRequest := {|
  model_type := "rf";
  sample_rate := None;
  txyz := "time,x,y,z";
  min_wear_per_day := 1260;
  min_wear_per_hour := 50;
  min_wear_per_minute := 1 # 2;
  min_walk_per_day := 5;
  bouts_min_walk := 4 # 5;
  bouts_max_idle := 3;
  exclude_wear_below := None;
  exclude_first_last := None;
  start_time := start;
  end_time := finish;
  pytorch_device := "cpu"
|}.

(** A reader for boundaries written with a UTC offset, against an index
    without. *)
Definition read_with_offset (s : string) : result boundary :=
  Ok (Incomparable
        (PyExn TypeError "Invalid comparison between dtype=datetime64[ns] and Timestamp")).

Lemma X5_two_to_four_seconds_witness :
  filter_time read_seconds (request_between (Some "2") (Some "4"))
    (recording 0 1000000000 6)
    = Ok [at_rest 2000000000; at_rest 3000000000; at_rest 4000000000] /\
  filter_time read_seconds (request_between (Some "String") (Some "  "))
    (recording 0 1000000000 6) = Ok (recording 0 1000000000 6) /\
  filter_time read_seconds (request_between (Some "soon") (Some "4"))
    (recording 0 1000000000 6)
    = Raise (PyExn ValueError
        "Invalid start_time format: 'soon'. Please use a valid datetime format (e.g., '2023-01-01 10:00:00'). Error: Unknown datetime string format, unable to parse: soon") /\
  filter_time read_with_offset (request_between (Some "1970-01-01 00:00:02+00:00") None)
    (recording 0 1000000000 6)
    = Raise (PyExn ValueError
        "Invalid start_time format: '1970-01-01 00:00:02+00:00'. Please use a valid datetime format (e.g., '2023-01-01 10:00:00'). Error: Invalid comparison between dtype=datetime64[ns] and Timestamp").
Proof.
  destruct (X5_time_filter_closed_interval read_seconds
              (request_between (Some "2") (Some "4")) (recording 0 1000000000 6))
    as (H1 & _ & _).
  destruct (X5_time_filter_closed_interval read_seconds
              (request_between (Some "String") (Some "  ")) (recording 0 1000000000 6))
    as (_ & H2 & _).
  destruct (X5_time_filter_closed_interval read_seconds
              (request_between (Some "soon") (Some "4")) (recording 0 1000000000 6))
    as (_ & _ & H3 & _).
  destruct (X5_time_filter_closed_interval read_with_offset
              (request_between (Some "1970-01-01 00:00:02+00:00") None)
              (recording 0 1000000000 6))
    as (_ & _ & H4 & _).
  split; [|split; [|split]].
  - rewrite (H1 "2" "4" 2000000000 4000000000 eq_refl eq_refl eq_refl eq_refl eq_refl eq_refl).
    reflexivity.
  - apply H2; right; eexists; (split; [reflexivity|]); [right; right | right; left]; reflexivity.
  - rewrite (H3 "soon" _ eq_refl eq_refl (or_introl eq_refl)). reflexivity.
  - rewrite (H4 "1970-01-01 00:00:02+00:00" _ eq_refl eq_refl (or_intror eq_refl)).
    reflexivity.
Defined.

(** ** What ingestion guarantees *)

Section IngestInvariant.

Variable to_numeric_str : string -> option Q.
Variable float_str : Q -> string.
Variable to_datetime_elem : cell -> option Z.
Variable to_datetime_scalar : string -> result boundary.

Local Abbreviation coerce := (to_numeric_coerce to_numeric_str).
Local Abbreviation check_types := (validate_types to_numeric_str float_str).
Local Abbreviation check_column := (validate_column to_numeric_str float_str).

Lemma validate_column_issues_grow (col : string) (df df' : DataFrame)
  (issues issues' : list string) :
  check_column col (df, issues) = Ok (df', issues') -> issues ≠ [] -> issues' ≠ [].
Proof.
  unfold validate_column. destruct (getitem col df) as [|s|]; [done | |].
  - destruct (is_numeric_dtype s); [by intros [= <- <-]|].
    destruct (existsb id _); intros [= <- <-]; [|done].
    intros _ Happ. by apply app_nil in Happ as [_ ?].
  - intros [= <- <-] _ Happ. by apply app_nil in Happ as [_ ?].
Qed.

Lemma validate_column_Ok_inv (col : string) (df df' : DataFrame) (issues : list string) :
  check_column col (df, issues) = Ok (df', []) ->
  exists s, getitem col df = Series s /\ df' = coerced_frame to_numeric_str col s df
            /\ issues = [] /\ column_issues to_numeric_str float_str col s = [].
Proof.
  destruct (getitem col df) as [|s|] eqn:Hs.
  - unfold validate_column. by rewrite Hs.
  - rewrite (validate_column_frame to_numeric_str float_str col df issues s Hs).
    intros [= <- Happ]. apply app_nil in Happ as [-> Hc]. by exists s.
  - unfold validate_column. rewrite Hs. intros [= _ Happ].
    by apply app_nil in Happ as [_ ?].
Qed.

Lemma validate_types_Ok_inv (df df' : DataFrame) :
  check_types df = Ok df' ->
  exists sx sy sz,
    getitem "x" df = Series sx /\ getitem "y" df = Series sy /\ getitem "z" df = Series sz /\
    df' = validated_frame to_numeric_str sx sy sz df /\
    xyz_issues to_numeric_str float_str sx sy sz = [].
Proof.
  unfold validate_types.
  destruct (check_column "x" (df, [])) as [[d1 i1]|e] eqn:E1; [|done]. rewrite bind_Ok.
  destruct (check_column "y" (d1, i1)) as [[d2 i2]|e] eqn:E2; [|done]. rewrite bind_Ok.
  destruct (check_column "z" (d2, i2)) as [[d3 i3]|e] eqn:E3; [|done]. rewrite bind_Ok.
  cbn [fst snd]. destruct i3 as [|i i3]; [|done]. intros [= <-].
  destruct (validate_column_Ok_inv _ _ _ _ E3) as (sz & Hz & -> & -> & Hiz).
  destruct (validate_column_Ok_inv _ _ _ _ E2) as (sy & Hy & -> & -> & Hiy).
  destruct (validate_column_Ok_inv _ _ _ _ E1) as (sx & Hx & -> & _ & Hix).
  rewrite !getitem_coerced_frame_ne in Hz by done.
  rewrite getitem_coerced_frame_ne in Hy by done.
  exists sx, sy, sz. repeat split; try done.
  unfold xyz_issues. by rewrite Hix, Hiy, Hiz.
Qed.

(** Every cell of the column is a number. *)
Definition all_numbers (s : list cell) : Prop :=
  forall c, c ∈ s -> exists q, c = CNum q.

Lemma coerced_without_null_all_numbers (s : list cell) :
  ¬ has_null (map coerce s) -> all_numbers (map coerce s).
Proof.
  intros Hnull c Hc. apply list_elem_of_lookup in Hc as [i Hi].
  pose proof (coerced_is_numeric to_numeric_str s) as Hnum.
  unfold is_numeric_dtype in Hnum. rewrite forallb_forall in Hnum.
  assert (In c (map coerce s)) as Hin by (apply list_elem_of_In, list_elem_of_lookup; eauto).
  specialize (Hnum c Hin). destruct c as [q|v|]; [by exists q | done |].
  destruct Hnull. by exists i.
Qed.

Lemma set_index_rows (times : list Z) (df : DataFrame) (r : Row) :
  r ∈ set_index times df ->
  exists cx cy cz,
    cx ∈ series_of "x" df /\ cy ∈ series_of "y" df /\ cz ∈ series_of "z" df /\
    x r = cell_value cx /\ y r = cell_value cy /\ z r = cell_value cz.
Proof.
  unfold set_index. intros [i Hi]%list_elem_of_lookup.
  rewrite lookup_zip_with in Hi.
  destruct (times !! i) as [t|]; [|done]. cbn in Hi.
  destruct (zip (zip (series_of "x" df) (series_of "y" df)) (series_of "z" df) !! i)
    as [[[cx cy] cz]|] eqn:Ez; [|done].
  cbn in Hi. injection Hi as <-.
  apply lookup_zip_with_Some in Ez as (p & cz' & Heq & Hp & Hcz).
  injection Heq as Hp' Hz'. subst p cz'.
  apply lookup_zip_with_Some in Hp as (cx' & cy' & Heq & Hcx & Hcy).
  injection Heq as Hx' Hy'. subst cx' cy'.
  exists cx, cy, cz. repeat split; try done; by eapply list_elem_of_lookup_2.
Qed.

(** X4. A frame that ingestion lets through has a value for x, y and z in
    every row: the schema mapping, the type check, the check for missing
    values, the reading of the timestamps and the time filtering, taken
    together, hand on no row with a missing accelerometer value. *)
Theorem X4_ingested_frame_has_no_missing_value
  (request : ProcessingRequest) (csv_data : DataFrame) (frame : Frame) :
  ingest to_numeric_str float_str to_datetime_elem to_datetime_scalar request csv_data
    = Ok frame ->
  (forall r, r ∈ frame -> is_Some (x r) /\ is_Some (y r) /\ is_Some (z r)) /\
  (frame ≠ [] -> all_rows_have_null frame = false).
Proof.
  intros Hingest.
  assert (forall r, r ∈ frame -> is_Some (x r) /\ is_Some (y r) /\ is_Some (z r)) as Hrows.
  { revert Hingest. unfold ingest.
    destruct (map_schema (txyz request) csv_data) as [d1|e]; [|done]. rewrite bind_Ok.
    destruct (check_types d1) as [d2|e] eqn:E2; [|done]. rewrite bind_Ok.
    destruct (check_missing d2) as [d3|e] eqn:E3; [|done]. rewrite bind_Ok.
    destruct (parse_time float_str to_datetime_elem d3) as [times|e]; [|done].
    rewrite bind_Ok. intros Hfilter r Hr.
    destruct (validate_types_Ok_inv _ _ E2) as (sx & sy & sz & Hx & Hy & Hz & -> & _).
    destruct (validated_frame_series to_numeric_str d1 sx sy sz Hx Hy Hz)
      as (Hx' & Hy' & Hz' & _).
    rewrite (check_missing_on_series _ _ _ _ Hx' Hy' Hz') in E3.
    destruct (xyz_missing_issues _ _ _) eqn:Em; [|done]. injection E3 as <-.
    pose proof (proj1 (xyz_missing_issues_nil _ _ _) Em) as Hnull.
    apply filter_time_sublist in Hfilter.
    assert (r ∈ set_index times (validated_frame to_numeric_str sx sy sz d1)) as Hin
      by (by eapply elem_of_sublist).
    apply set_index_rows in Hin as (cx & cy & cz & Hcx & Hcy & Hcz & -> & -> & ->).
    unfold series_of in Hcx, Hcy, Hcz. rewrite Hx' in Hcx. rewrite Hy' in Hcy.
    rewrite Hz' in Hcz.
    assert (forall s c, s ∈ [map coerce sx; map coerce sy; map coerce sz] ->
                        c ∈ s -> is_Some (cell_value c)) as Hsome.
    { intros s c Hs Hc. rewrite !elem_of_cons, elem_of_nil in Hs.
      assert (¬ has_null s) as Hn by (apply Hnull; rewrite !elem_of_cons; tauto).
      destruct Hs as [->|[->|[->|[]]]];
        destruct (coerced_without_null_all_numbers _ Hn c Hc) as [q ->]; by eexists. }
    repeat split; eapply Hsome; try eassumption; rewrite !elem_of_cons; tauto. }
  split; [exact Hrows|].
  intros Hne. destruct frame as [|r frame]; [done|].
  destruct (Hrows r) as ([vx Hvx] & [vy Hvy] & [vz Hvz]); [left|].
  unfold all_rows_have_null. cbn [forallb]. rewrite Hvx, Hvy, Hvz. reflexivity.
Qed.

End IngestInvariant.

Definition csv_three_rows : DataFrame :=
  [("t", [CStr "0"; CStr "1"; CStr "2"]);
   ("ax", [CStr "0.5"; CNum 0; CNum 0]);
   ("ay", [CNum 0; CNum 0; CNum 0]);
   ("az", [CNum 1; CNum 1; CNum 1]);
   ("note", [CStr "a"; CNull; CStr "c"])].

Example three_rows_ingested :
  ingest decimal_literal float_placeholder seconds_elem read_seconds
    (request_mapping "t,ax,ay,az") csv_three_rows
  = Ok [ {| time := 0; x := Some (1 # 2)%Q; y := Some 0%Q; z := Some 1%Q |};
         at_rest 1000000000; at_rest 2000000000 ].
Proof. vm_compute. reflexivity. Qed.

Lemma X4_three_rows_witness :
  ingest decimal_literal float_placeholder seconds_elem read_seconds
    (request_mapping "t,ax,ay,az") csv_three_rows
  = Ok [ {| time := 0; x := Some (1 # 2)%Q; y := Some 0%Q; z := Some 1%Q |};
         at_rest 1000000000; at_rest 2000000000 ] /\
  all_rows_have_null
    [ {| time := 0; x := Some (1 # 2)%Q; y := Some 0%Q; z := Some 1%Q |};
      at_rest 1000000000; at_rest 2000000000 ] = false.
Proof.
  assert (ingest decimal_literal float_placeholder seconds_elem read_seconds
            (request_mapping "t,ax,ay,az") csv_three_rows
          = Ok [ {| time := 0; x := Some (1 # 2)%Q; y := Some 0%Q; z := Some 1%Q |};
                 at_rest 1000000000; at_rest 2000000000 ]) as Hok
    by (vm_compute; reflexivity).
  split; [exact Hok|].
  apply (proj2 (X4_ingested_frame_has_no_missing_value decimal_literal float_placeholder
                  seconds_elem read_seconds (request_mapping "t,ax,ay,az") csv_three_rows
                  _ Hok)).
  discriminate.
Defined.

(** ** Sample rate: the other paths *)

Lemma reasonable_finite (q : Q) : unreasonable (Fin q) = false -> (1 <= q <= 1000)%Q.
Proof.
  unfold unreasonable, fgt, flt, of_int. rewrite orb_false_iff, !negb_false_iff.
  rewrite !Qle_bool_iff. done.
Qed.

Lemma reasonable_not_infinite (negative : bool) : unreasonable (Inf negative) = true.
Proof. by destruct negative. Qed.

Lemma reasonable_nan : unreasonable NaN = false.
Proof. reflexivity. Qed.

Section OtherRates.

Variable infer_freq : list Z -> result freq_value.

(** X7. With no rate supplied, a value that the [try] block accepts is the
    estimate, whatever the timestamps are (the deltas are not looked at),
    and it is never infinite; when it is finite it lies within 1 and
    1000 Hz. In particular a spacing of [ns] nanoseconds is read as its
    whole microseconds [u = ns div 1000], gives [10^6 / u] Hz, and is
    accepted only with [u] between 1000 and 10^6, that is for [ns] from
    1 ms to 1 s and 999 ns. *)
Theorem X7_primary_estimate_within_band
  (request : ProcessingRequest) (csv_data : Frame) (f : pyfloat) :
  rate_not_provided request = true ->
  infer_primary infer_freq (index csv_data) = Ok f ->
  calculate_sample_rate infer_freq request csv_data = Ok f /\
  (forall negative, f ≠ Inf negative) /\
  (forall q, f = Fin q -> (1 <= q <= 1000)%Q) /\
  (forall ns, infer_freq (index csv_data) = Ok (FreqTimedelta (Some ns)) ->
     exists q, f = Fin q /\ (q == 1000000 # Z.to_pos (ns `div` 1000))%Q /\
       1000 <= ns `div` 1000 <= 1000000 /\ 1000000 <= ns <= 1000000999).
Proof.
  intros Hnone Hprim.
  assert (unreasonable f = false) as Hband.
  { revert Hprim. unfold infer_primary.
    destruct (infer_freq (index csv_data)) as [v|e]; [|done]. rewrite bind_Ok.
    destruct (match v with
              | FreqNone => _ | FreqTimedelta td => _ | FreqNumber g => _ | FreqOther e => _
              end) as [g|e]; [|done].
    rewrite bind_Ok. destruct (unreasonable g) eqn:E; [done|]. by intros [= <-]. }
  split; [|split; [|split]].
  - unfold calculate_sample_rate. by rewrite Hnone, Hprim.
  - intros negative ->. by rewrite reasonable_not_infinite in Hband.
  - intros q ->. by apply reasonable_finite.
  - intros ns Hns. revert Hprim. unfold infer_primary. rewrite Hns, bind_Ok.
    unfold inv, total_seconds.
    assert (ns `div` 1000 * 1000 <= ns < ns `div` 1000 * 1000 + 1000) as Hdiv
      by (pose proof (Z.div_mod ns 1000); pose proof (Z.mod_pos_bound ns 1000); lia).
    revert Hdiv. generalize (ns `div` 1000). intros u Hdiv.
    destruct (Qeq_bool (Qred (u # 1000000)) 0) eqn:Ez; [done|]. rewrite bind_Ok.
    clear Hband.
    destruct (unreasonable (Fin (Qred (/ Qred (u # 1000000))))) eqn:E; [done|].
    intros [= Hf]. subst f.
    apply reasonable_finite in E. rewrite !Qred_correct in E.
    assert (0 < u) as Hpos.
    { destruct (Z_lt_le_dec 0 u) as [|Hle]; [done|]. exfalso.
      destruct E as [E _]. apply Qeq_bool_neq in Ez. rewrite Qred_correct in Ez.
      destruct u as [|p|p]; [by apply Ez | lia |].
      unfold Qle, Qinv in E. cbn in E. lia. }
    assert (1000 <= u <= 1000000) as Hu.
    { destruct u as [|p|p]; try lia. destruct E as [E1 E2].
      unfold Qle, Qinv in E1, E2. cbn in E1, E2. lia. }
    eexists. split; [reflexivity|]. split; [|split; [exact Hu | lia]].
    rewrite !Qred_correct. destruct u as [|p|p]; try lia. reflexivity.
Qed.

(** X8. A NaT or NaN from primary inference is accepted: both comparisons
    of the band check are false on NaN, so the estimate is NaN and no
    fallback runs. *)
Theorem X8_nan_passes_the_band_check (request : ProcessingRequest) (csv_data : Frame) :
  rate_not_provided request = true ->
  infer_freq (index csv_data) = Ok (FreqTimedelta None) \/
  infer_freq (index csv_data) = Ok (FreqNumber NaN) ->
  calculate_sample_rate infer_freq request csv_data = Ok NaN.
Proof.
  intros Hnone Hnat. unfold calculate_sample_rate, infer_primary. rewrite Hnone.
  by destruct Hnat as [-> | ->].
Qed.

(** X9. When the median-based estimate is out of band, the estimate from
    the mean of the deltas is the final rate as it comes: no band check
    follows it. *)
Theorem X9_mean_estimate_is_not_validated
  (request : ProcessingRequest) (csv_data : Frame) (f g : pyfloat) (mean_diff : Z) :
  rate_not_provided request = true ->
  primary_unusable infer_freq (index csv_data) ->
  median_rate csv_data = Some f ->
  unreasonable f = true ->
  mean (dropna (diff (index csv_data))) = Some mean_diff ->
  inv (total_seconds (Some mean_diff)) = Ok g ->
  calculate_sample_rate infer_freq request csv_data = Ok g.
Proof.
  intros Hnone Hfail Hmed Hband Hmean Hinv.
  rewrite (calculate_sample_rate_fallback infer_freq) by done.
  unfold median_rate in Hmed. unfold infer_fallback.
  destruct (median (dropna (diff (index csv_data)))) as [md|] eqn:Em; [|discriminate Hmed].
  cbn [mbind option_bind] in Hmed.
  pose proof (median_Some_nonempty _ _ Em) as Hne.
  pose proof (dropna_diff_length (index csv_data)) as Hlen.
  unfold index in Hlen at 2. rewrite length_map in Hlen.
  destruct (dropna (diff (index csv_data))) as [|d ds] eqn:Ed; [done|].
  cbn [length] in Hlen.
  assert ((1 <? length csv_data)%nat = true) as -> by (apply Nat.ltb_lt; lia).
  cbn [length Nat.ltb Nat.leb].
  destruct (inv (total_seconds (Some md))) as [f'|e]; [|done].
  injection Hmed as ->. rewrite bind_Ok, Hband, Hmean. exact Hinv.
Qed.

(** X10. When the median of the deltas is zero (repeated timestamps), the
    conversion to Hz divides by zero inside the handler and the
    [ZeroDivisionError] leaves the pipeline. *)
Theorem X10_zero_median_raises (request : ProcessingRequest) (csv_data : Frame) :
  rate_not_provided request = true ->
  primary_unusable infer_freq (index csv_data) ->
  median (dropna (diff (index csv_data))) = Some 0 ->
  calculate_sample_rate infer_freq request csv_data
  = Raise (PyExn ZeroDivisionError "float division by zero").
Proof.
  intros Hnone Hfail Em.
  rewrite (calculate_sample_rate_fallback infer_freq) by done.
  unfold infer_fallback.
  pose proof (median_Some_nonempty _ _ Em) as Hne.
  pose proof (dropna_diff_length (index csv_data)) as Hlen.
  unfold index in Hlen at 2. rewrite length_map in Hlen.
  rewrite Em.
  destruct (dropna (diff (index csv_data))) as [|d ds] eqn:Ed; [done|].
  cbn [length] in Hlen.
  assert ((1 <? length csv_data)%nat = true) as -> by (apply Nat.ltb_lt; lia).
  reflexivity.
Qed.

End OtherRates.

Definition infer_freq_20ms (idx : list Z) : result freq_value :=
  Ok (FreqTimedelta (Some 20000000)).

Definition infer_freq_nat (idx : list Z) : result freq_value := Ok (FreqTimedelta None).

(** One second and 500 ns: read as one second. *)
Definition infer_freq_1s_500ns (idx : list Z) : result freq_value :=
  Ok (FreqTimedelta (Some 1000000500)).

Lemma X7_twenty_ms_witness :
  calculate_sample_rate infer_freq_20ms default_request (recording 0 0 3) = Ok (Fin 50) /\
  calculate_sample_rate infer_freq_1s_500ns default_request (recording 0 0 3) = Ok (Fin 1) /\
  exists q, Fin 1 = Fin q /\ (q == 1000000 # Z.to_pos (1000000500 `div` 1000))%Q /\
    1000 <= 1000000500 `div` 1000 <= 1000000 /\ 1000000 <= 1000000500 <= 1000000999.
Proof.
  split; [|split].
  - exact (proj1 (X7_primary_estimate_within_band infer_freq_20ms default_request
                    (recording 0 0 3) (Fin 50) eq_refl eq_refl)).
  - exact (proj1 (X7_primary_estimate_within_band infer_freq_1s_500ns default_request
                    (recording 0 0 3) (Fin 1) eq_refl eq_refl)).
  - exact (proj2 (proj2 (proj2 (X7_primary_estimate_within_band infer_freq_1s_500ns
                                  default_request (recording 0 0 3) (Fin 1) eq_refl eq_refl)))
             1000000500 eq_refl).
Defined.

Lemma X8_nat_witness :
  calculate_sample_rate infer_freq_nat default_request (recording 0 20000000 1) = Ok NaN.
Proof.
  apply (X8_nan_passes_the_band_check infer_freq_nat default_request
           (recording 0 20000000 1) eq_refl).
  left. reflexivity.
Defined.

(** One sample every two seconds: 0.5 Hz from the median, then 0.5 Hz from
    the mean, which is the estimate although it is below 1 Hz. *)
Lemma X9_half_hertz_witness :
  calculate_sample_rate infer_freq_raises default_request (recording 0 2000000000 4)
    = Ok (Fin (1 # 2)) /\
  unreasonable (Fin (1 # 2)) = true.
Proof.
  split; [|reflexivity].
  apply (X9_mean_estimate_is_not_validated infer_freq_raises default_request
           (recording 0 2000000000 4) (Fin (1 # 2)) (Fin (1 # 2)) 2000000000);
    [reflexivity | exact I | reflexivity | reflexivity | reflexivity | reflexivity].
Defined.

Lemma X10_repeated_timestamps_witness :
  calculate_sample_rate infer_freq_raises default_request (recording 5 0 3)
  = Raise (PyExn ZeroDivisionError "float division by zero").
Proof.
  apply (X10_zero_median_raises infer_freq_raises default_request (recording 5 0 3));
    [reflexivity | exact I | reflexivity].
Defined.

(** ** Resampling: the other paths *)

Lemma fneq_false_feq (a b : pyfloat) : fneq a b = false -> feq a b.
Proof.
  destruct a as [p| |n1], b as [q| |n2]; cbn; try done.
  - rewrite negb_false_iff. apply Qeq_bool_eq.
  - rewrite negb_false_iff. apply Bool.eqb_prop.
Qed.

Section OtherResampling.

Variable regrid : Z -> Frame -> result Frame.

Lemma resample_under_ssl_rate (request : ProcessingRequest) (csv_data resampled : Frame)
  (rate effective : pyfloat) :
  model_type request = "ssl" ->
  resample_if_needed regrid request csv_data rate = Ok (resampled, effective) ->
  feq effective (of_int 30).
Proof.
  intros Hmodel. destruct (fneq rate (of_int 30)) eqn:Hrate.
  - rewrite (resample_triggered _ _ _ _ Hmodel Hrate).
    destruct (length csv_data <? 10)%nat; [done|].
    destruct (regrid 33000000 csv_data); [|done]. intros [= _ <-]. reflexivity.
  - unfold resample_if_needed, resample_hz. rewrite Hmodel.
    change ("ssl" =? "ssl")%string with true. cbv iota.
    rewrite Hrate, andb_false_r. intros [= _ <-]. by apply fneq_false_feq.
Qed.

(** X11. Resampling leaves the frame and the rate as they are for every
    model variant other than ssl, and for ssl when the rate equals 30
    (also as the float 30.0); when it is triggered on 10 samples or more
    and the regridding raises, the stage raises a [ValueError] that wraps
    the text of that exception; and whenever the stage returns under ssl,
    the effective rate equals 30. *)
Theorem X11_resampling_skipped_or_wrapped
  (request : ProcessingRequest) (csv_data : Frame) (rate : pyfloat) :
  (model_type request ≠ "ssl" \/ fneq rate (of_int 30) = false ->
   resample_if_needed regrid request csv_data rate = Ok (csv_data, rate)) /\
  (forall e, model_type request = "ssl" -> fneq rate (of_int 30) = true ->
     (10 <= length csv_data)%nat -> regrid 33000000 csv_data = Raise e ->
     resample_if_needed regrid request csv_data rate
     = Raise (PyExn ValueError (failed_resample_message 30 e))) /\
  (forall resampled effective, model_type request = "ssl" ->
     resample_if_needed regrid request csv_data rate = Ok (resampled, effective) ->
     feq effective (of_int 30)).
Proof.
  split; [|split].
  - intros [Hmodel|Hrate]; unfold resample_if_needed, resample_hz.
    + apply String.eqb_neq in Hmodel. by rewrite Hmodel.
    + destruct (model_type request =? "ssl")%string; [|done].
      by rewrite Hrate, andb_false_r.
  - intros e Hmodel Hrate Hlen Hgrid. rewrite (resample_triggered _ _ _ _ Hmodel Hrate).
    assert ((length csv_data <? 10)%nat = false) as -> by (apply Nat.ltb_ge; lia).
    by rewrite Hgrid.
  - intros resampled effective Hmodel. by apply resample_under_ssl_rate.
Qed.

End OtherResampling.

Lemma X11_regrid_failure_witness :
  resample_if_needed regrid_fails default_request (recording 0 20000000 3) (of_int 50)
    = Ok (recording 0 20000000 3, of_int 50) /\
  resample_if_needed regrid_fails (with_model "ssl" default_request)
    (recording 0 20000000 3) (Fin (60 # 2)) = Ok (recording 0 20000000 3, Fin (60 # 2)) /\
  resample_if_needed regrid_fails (with_model "ssl" default_request)
    (recording 0 20000000 12) (of_int 50)
    = Raise (PyExn ValueError
        "Failed to resample data to 30Hz: agg function failed [how->mean,dtype->object]. The data may have irregular timestamps or insufficient points.").
Proof.
  split; [|split].
  - apply (proj1 (X11_resampling_skipped_or_wrapped regrid_fails default_request
                    (recording 0 20000000 3) (of_int 50))).
    left. discriminate.
  - apply (proj1 (X11_resampling_skipped_or_wrapped regrid_fails
                    (with_model "ssl" default_request)
                    (recording 0 20000000 3) (Fin (60 # 2)))).
    right. reflexivity.
  - apply (proj1 (proj2 (X11_resampling_skipped_or_wrapped regrid_fails
                    (with_model "ssl" default_request)
                    (recording 0 20000000 12) (of_int 50)))
             (PyExn TypeError "agg function failed [how->mean,dtype->object]"));
      [reflexivity | reflexivity | cbn; lia | reflexivity].
Defined.

(** ** What each outcome of the pipeline tells *)

Section Outcomes.

Variable infer_freq : list Z -> result freq_value.
Variable regrid : Z -> Frame -> result Frame.
Variable WearValue : Type.
Variable calculate_wear_stats : Frame -> result (gmap string WearValue).
Variable drop_first_last_days : Frame -> string -> result Frame.
Variable flag_wear_below_days : Frame -> string -> result Frame.
Variable Classifier : Type.
Variable get_model : string -> string -> pyfloat -> result Classifier.
Variable predict_from_frame : Classifier -> pyfloat -> Frame -> result (gmap Z (option Z)).
Variable Summaries : Type.
Variable summarize : ProcessingRequest -> Classifier -> Frame -> gmap Z (option Z)
                     -> result Summaries.
Variable enmo : Row -> option Q.
Variable to_native : WearValue -> WearValue.

Local Abbreviation guards :=
  (wear_and_guards WearValue calculate_wear_stats drop_first_last_days flag_wear_below_days
     Summaries).
Local Abbreviation exclusions :=
  (apply_exclusions drop_first_last_days flag_wear_below_days).
Local Abbreviation process :=
  (process_frame infer_freq regrid WearValue calculate_wear_stats drop_first_last_days
     flag_wear_below_days Classifier get_model predict_from_frame Summaries summarize
     enmo to_native).
Local Abbreviation model_stage :=
  (run_model WearValue Classifier get_model predict_from_frame Summaries summarize
     enmo to_native).

(** The stages up to the exclusion went through with these values. *)
Record reached_the_check (request : ProcessingRequest) (csv_data resampled excluded : Frame)
  (effective : pyfloat) (wear_stats : gmap string WearValue) : Prop := {
  reached_rate : exists rate,
    calculate_sample_rate infer_freq request csv_data = Ok rate /\
    resample_if_needed regrid request csv_data rate = Ok (resampled, effective);
  reached_guard : rf_guard_passes request resampled;
  reached_exclusion : exclusions request resampled = Ok excluded;
  reached_stats : exists before after,
    calculate_wear_stats resampled = Ok before /\
    calculate_wear_stats excluded = Ok after /\ wear_stats = after ∪ before
}.

Lemma run_model_Ok_inv (request : ProcessingRequest) (csv_data : Frame)
  (rate : pyfloat) (wear_stats : gmap string WearValue) (o : outcome WearValue Summaries) :
  model_stage request csv_data rate wear_stats = Ok o ->
  exists results Y, o = Completed WearValue Summaries results /\
    res_wear_stats WearValue Summaries results = to_native <$> wear_stats /\
    res_sample_rate WearValue Summaries results = rate /\
    res_minutely WearValue Summaries results = minutely (with_steps enmo Y csv_data) /\
    res_hourly WearValue Summaries results
      = hourly (res_minutely WearValue Summaries results) /\
    res_daily WearValue Summaries results
      = daily (res_minutely WearValue Summaries results) /\
    duration_hours (length csv_data) rate
      = Ok (res_data_duration_hours WearValue Summaries results).
Proof.
  unfold run_model.
  destruct (get_model _ _ _) as [model|e]; cbn [try_except]; [|done]. rewrite bind_Ok.
  destruct (predict_from_frame model rate csv_data) as [Y|e]; cbn [try_except]; [|done].
  rewrite bind_Ok.
  destruct (summarize request model csv_data Y) as [summaries|e]; [|done]. rewrite bind_Ok.
  destruct (duration_hours (length csv_data) rate) as [hours|e]; [|done]. rewrite bind_Ok.
  intros [= <-]. eexists _, Y. repeat split.
Qed.

Lemma guards_inv (request : ProcessingRequest) (resampled : Frame)
  (checked : outcome WearValue Summaries + Frame * gmap string WearValue) :
  guards request resampled = Ok checked ->
  (model_type request = "rf" /\ (length resampled < 50)%nat /\
   checked = inl (InsufficientData WearValue Summaries
                    (insufficient_rf_message (length resampled)) (length resampled) 50)) \/
  (exists excluded before after,
     rf_guard_passes request resampled /\
     calculate_wear_stats resampled = Ok before /\
     exclusions request resampled = Ok excluded /\
     calculate_wear_stats excluded = Ok after /\
     ((excluded = [] \/ every_row_null excluded) /\
      checked = inl (NoValidData WearValue Summaries no_valid_data_message (after ∪ before))
      \/
      (excluded ≠ [] /\ ¬ every_row_null excluded) /\
      checked = inr (excluded, after ∪ before))).
Proof.
  unfold wear_and_guards.
  destruct (calculate_wear_stats resampled) as [before|e] eqn:Hb; [|done]. rewrite bind_Ok.
  destruct ((model_type request =? "rf")%string && (length resampled <? 50)%nat) eqn:Hg.
  - intros [= <-]. left. apply andb_true_iff in Hg as [Hrf Hlen].
    apply String.eqb_eq in Hrf. apply Nat.ltb_lt in Hlen. done.
  - destruct (exclusions request resampled) as [excluded|e] eqn:He; [|done].
    rewrite bind_Ok.
    destruct (calculate_wear_stats excluded) as [after|e] eqn:Ha; [|done]. rewrite bind_Ok.
    intros Hc. right. exists excluded, before, after.
    assert (rf_guard_passes request resampled) as Hpass.
    { intros Hrf. rewrite Hrf in Hg. change ("rf" =? "rf")%string with true in Hg.
      rewrite andb_true_l in Hg. apply Nat.ltb_ge in Hg. lia. }
    repeat split; try done.
    destruct ((length excluded =? 0)%nat || all_rows_have_null excluded) eqn:Hempty;
      injection Hc as <-.
    + left. split; [|done]. apply orb_true_iff in Hempty as [Hlen|Hnull].
      * left. apply Nat.eqb_eq in Hlen. by destruct excluded.
      * right. by apply all_rows_have_null_spec.
    + right. split; [|done]. apply orb_false_iff in Hempty as [Hlen Hnull]. split.
      * intros ->. done.
      * intros Hn%all_rows_have_null_spec. congruence.
Qed.

(** X12. The two early returns happen only in their own cases. An
    insufficient-data result means the rf variant and fewer than 50
    samples, and it reports that number of samples and 50. A no-valid-data
    result means that the stages up to the exclusion went through, that the
    frame the exclusion left is empty or has a missing value in every row,
    and it carries the merged statistics and the fixed message. *)
Theorem X12_early_returns_only_in_their_cases
  (request : ProcessingRequest) (csv_data : Frame) :
  (forall error n m,
     process request csv_data = Ok (InsufficientData WearValue Summaries error n m) ->
     model_type request = "rf" /\ n = length csv_data /\ (n < 50)%nat /\ m = 50%nat /\
     error = insufficient_rf_message n) /\
  (forall error wear_stats,
     process request csv_data = Ok (NoValidData WearValue Summaries error wear_stats) ->
     error = no_valid_data_message /\
     exists resampled excluded effective,
       reached_the_check request csv_data resampled excluded effective wear_stats /\
       (excluded = [] \/ every_row_null excluded)).
Proof.
  split.
  - intros error n m. unfold process_frame.
    destruct (calculate_sample_rate infer_freq request csv_data) as [rate|e]; [|done].
    rewrite bind_Ok.
    destruct (resample_if_needed regrid request csv_data rate) as [[resampled eff]|e] eqn:Hr;
      [|done].
    rewrite bind_Ok. cbn [fst snd].
    destruct (guards request resampled) as [checked|e] eqn:Hg; [|done]. rewrite bind_Ok.
    destruct (guards_inv _ _ _ Hg) as [(Hrf & Hlen & ->)|(ex & b & a & _ & _ & _ & _ & Hc)].
    + intros [= <- <- <-].
      assert (resampled = csv_data) as ->.
      { revert Hr. unfold resample_if_needed, resample_hz. rewrite Hrf.
        change ("rf" =? "ssl")%string with false. cbv iota. by intros [= <- _]. }
      done.
    + destruct Hc as [[_ ->]|[_ ->]]; [done|].
      intros H. apply run_model_Ok_inv in H as (results & Y & [=] & _).
  - intros error wear_stats. unfold process_frame.
    destruct (calculate_sample_rate infer_freq request csv_data) as [rate|e] eqn:Hrate;
      [|done].
    rewrite bind_Ok.
    destruct (resample_if_needed regrid request csv_data rate) as [[resampled eff]|e] eqn:Hr;
      [|done].
    rewrite bind_Ok. cbn [fst snd].
    destruct (guards request resampled) as [checked|e] eqn:Hg; [|done]. rewrite bind_Ok.
    destruct (guards_inv _ _ _ Hg)
      as [(Hrf & Hlen & ->)|(ex & b & a & Hpass & Hb & Hex & Ha & Hc)]; [done|].
    destruct Hc as [[Hempty ->]|[_ ->]].
    + intros [= <- <-]. split; [done|]. exists resampled, ex, eff. split; [|done].
      split; [by exists rate | done | done | by exists b, a].
    + intros H. apply run_model_Ok_inv in H as (results & Y & [=] & _).
Qed.

(** X13. Completed results mean that the stages up to the exclusion went
    through and left a frame that is not empty and has a row without
    missing value. The results then carry the merged statistics in native
    form, the effective rate (30 Hz under ssl), the duration computed from
    the number of rows and that rate, a minute table rolled up from the
    frame the exclusion left, and the hour and day tables derived from that
    minute table. *)
Theorem X13_completed_results (request : ProcessingRequest) (csv_data : Frame)
  (results : Results WearValue Summaries) :
  process request csv_data = Ok (Completed WearValue Summaries results) ->
  exists resampled excluded effective wear_stats Y,
    reached_the_check request csv_data resampled excluded effective wear_stats /\
    excluded ≠ [] /\ ¬ every_row_null excluded /\
    res_wear_stats WearValue Summaries results = to_native <$> wear_stats /\
    res_sample_rate WearValue Summaries results = effective /\
    (model_type request = "ssl" -> feq effective (of_int 30)) /\
    duration_hours (length excluded) effective
      = Ok (res_data_duration_hours WearValue Summaries results) /\
    res_minutely WearValue Summaries results = minutely (with_steps enmo Y excluded) /\
    res_hourly WearValue Summaries results
      = hourly (res_minutely WearValue Summaries results) /\
    res_daily WearValue Summaries results
      = daily (res_minutely WearValue Summaries results).
Proof.
  unfold process_frame.
  destruct (calculate_sample_rate infer_freq request csv_data) as [rate|e] eqn:Hrate;
    [|done].
  rewrite bind_Ok.
  destruct (resample_if_needed regrid request csv_data rate) as [[resampled eff]|e] eqn:Hr;
    [|done].
  rewrite bind_Ok. cbn [fst snd].
  destruct (guards request resampled) as [checked|e] eqn:Hg; [|done]. rewrite bind_Ok.
  destruct (guards_inv _ _ _ Hg)
    as [(Hrf & Hlen & ->)|(ex & b & a & Hpass & Hb & Hex & Ha & Hc)]; [done|].
  destruct Hc as [[_ ->]|[[Hne Hnn] ->]]; [done|].
  intros H. apply run_model_Ok_inv in H
    as (results' & Y & [= <-] & Hw & Hs & Hm & Hh & Hd & Hdur).
  exists resampled, ex, eff, (a ∪ b), Y.
  split; [split; [by exists rate | done | done | by exists b, a]|].
  repeat split; try done.
  intros Hssl. exact (resample_under_ssl_rate regrid request csv_data resampled rate eff Hssl Hr).
Qed.

End Outcomes.

Lemma X12_forty_nine_samples_witness :
  model_type (request_excluding "rf" (Some 50)) = "rf" /\
  49%nat = length (recording 0 20000000 49) /\ (49 < 50)%nat /\ 50%nat = 50%nat /\
  insufficient_rf_message 49 = insufficient_rf_message 49.
Proof.
  assert (run drop_ten mark_not_worn (request_excluding "rf" (Some 50))
            (recording 0 20000000 49)
          = Ok (InsufficientData Z unit (insufficient_rf_message 49) 49 50)) as Hrun
    by (vm_compute; reflexivity).
  exact (proj1 (X12_early_returns_only_in_their_cases infer_freq_none regrid_xyz Z count_wear
                  drop_ten mark_not_worn unit no_classifier no_steps unit no_summaries
                  enmo_at_rest id (request_excluding "rf" (Some 50))
                  (recording 0 20000000 49)) _ _ _ Hrun).
Defined.

Lemma X13_one_minute_witness :
  exists results,
    process_frame infer_freq_one_second regrid_xyz Z count_wear drop_ten mark_not_worn
      unit no_classifier no_steps unit no_summaries enmo_at_rest id
      default_request (recording 0 1000000000 60)
    = Ok (Completed Z unit results) /\
    res_hourly Z unit results = hourly (res_minutely Z unit results) /\
    res_daily Z unit results = daily (res_minutely Z unit results).
Proof.
  destruct one_minute_at_rest as (results & Hrun & _).
  exists results. split; [exact Hrun|].
  destruct (X13_completed_results infer_freq_one_second regrid_xyz Z count_wear drop_ten
              mark_not_worn unit no_classifier no_steps unit no_summaries enmo_at_rest id
              default_request (recording 0 1000000000 60) results Hrun)
    as (resampled & excluded & effective & wear_stats & Y & _ & _ & _ & _ & _ & _ & _ & _
        & Hh & Hd).
  split; [exact Hh | exact Hd].
Defined.

(** ** The roll-up: totals and grid *)

Lemma filter_all {A} (l : list A) : filter (fun _ => True) l = l.
Proof. induction l as [|a l IH]; [done|]. rewrite filter_cons_True by done. by rewrite IH. Qed.

Lemma Zsum_dropna {A} (f : A -> option Z) (l : list A) :
  Zsum (dropna (map f l)) = Zsum (map (fun a => default 0 (f a)) l).
Proof.
  unfold Zsum, dropna. induction l as [|a l IH]; [done|]. cbn.
  destruct (f a); cbn; rewrite IH; lia.
Qed.

Lemma map_Steps_agg (w : Z) (table : list Sample) :
  map Steps (agg w table)
  = map (fun start => steps_in_bin w start table) (bin_starts w (map s_time table)).
Proof.
  change (map Steps (agg w table)) with (map (fun b => (start_and_steps b).2) (agg w table)).
  rewrite <- (map_map start_and_steps snd), agg_steps, map_map. reflexivity.
Qed.

(** A roll-up counts every step once. *)
Lemma agg_total (w : Z) (table : list Sample) :
  0 < w -> Zsum (map Steps (agg w table)) = Zsum (dropna (map s_steps table)).
Proof.
  intros Hw. rewrite map_Steps_agg, Zsum_dropna.
  assert (Zsum (map (fun h => Zsum (map (fun r => default 0 (s_steps r))
                                     (filter (fun r => in_bin w h (s_time r) = true) table)))
                  (filter (fun _ => True) (bin_starts w (map s_time table))))
          = Zsum (map (fun r => default 0 (s_steps r)) (filter (fun _ => True) table)))
    as Hgroup.
  { apply (@Zsum_by_group Sample (fun h r => in_bin w h (s_time r) = true)
             (fun h r => decide (in_bin w h (s_time r) = true))
             (fun _ => True) (fun _ => True_dec)
             (fun r => grid_origin (map s_time table)
                       + (s_time r - grid_origin (map s_time table)) `div` w * w)).
    intros r Hr. apply bin_of_timestamp; [done|]. apply list_elem_of_fmap. by exists r. }
  rewrite !filter_all in Hgroup. rewrite <- Hgroup.
  f_equal. apply map_ext. intros start. unfold steps_in_bin. apply Zsum_dropna.
Qed.

Lemma minutely_Steps (samples : list Sample) :
  map Steps (minutely samples) = map Steps (agg minute_ns samples).
Proof. unfold minutely. rewrite map_map. reflexivity. Qed.

Lemma as_samples_total (table : list Bucket) :
  Zsum (dropna (map s_steps (as_samples table))) = Zsum (map Steps table).
Proof.
  unfold as_samples, dropna. induction table as [|b table IH]; [done|]. cbn.
  unfold Zsum in *. cbn. by rewrite IH.
Qed.

(** X14. The roll-up loses and invents no step: the step totals of the
    minute table, of the hour table and of the day table are all the sum
    of the steps of the samples (NaN counting for nothing). *)
Theorem X14_roll_up_preserves_total_steps (samples : list Sample) :
  Zsum (map Steps (minutely samples)) = Zsum (dropna (map s_steps samples)) /\
  Zsum (map Steps (hourly (minutely samples))) = Zsum (dropna (map s_steps samples)) /\
  Zsum (map Steps (daily (minutely samples))) = Zsum (dropna (map s_steps samples)).
Proof.
  assert (Zsum (map Steps (minutely samples)) = Zsum (dropna (map s_steps samples))) as Hm.
  { rewrite minutely_Steps. by apply agg_total. }
  split; [exact Hm|]. unfold hourly, daily.
  rewrite !agg_total, as_samples_total by done. done.
Qed.

(** *** The grid of a roll-up *)




Lemma minutely_starts (samples : list Sample) :
  map b_start (minutely samples) = bin_starts minute_ns (map s_time samples).
Proof.
  unfold minutely, agg, resample. rewrite !map_map. cbn. by rewrite map_id.
Qed.


(** *** Motion magnitude in the tables *)

Lemma mean_q_Some (values : list (option Q)) (v : Q) :
  Some v ∈ values -> is_Some (mean_q values).
Proof.
  intros Hin. unfold mean_q.
  assert (v ∈ dropna values) as Hv.
  { unfold dropna. apply list_elem_of_omap. by exists (Some v). }
  destruct (dropna values); [by apply elem_of_nil in Hv | by eexists].
Qed.

Lemma elem_of_agg (w : Z) (table : list Sample) (b : Bucket) :
  b ∈ agg w table ->
  exists start, start ∈ bin_starts w (map s_time table) /\
    b = {| b_start := start;
           Steps := Zsum (dropna (map s_steps
                      (filter (fun r => in_bin w start (s_time r) = true) table)));
           ENMO := mean_q (map s_enmo
                      (filter (fun r => in_bin w start (s_time r) = true) table)) |}.
Proof.
  unfold agg, resample. rewrite map_map.
  intros (start & -> & Hin)%list_elem_of_fmap. by exists start.
Qed.

Lemma foldr_min_elem (l : list Z) (a : Z) : foldr Z.min a l = a \/ foldr Z.min a l ∈ l.
Proof.
  induction l as [|b l IH]; [by left|]. cbn.
  destruct (Z.min_spec b (foldr Z.min a l)) as [[_ ->]|[_ ->]].
  - right. left.
  - destruct IH as [->|IH]; [by left | right; by right].
Qed.

Lemma foldr_max_elem (l : list Z) (a : Z) : foldr Z.max a l = a \/ foldr Z.max a l ∈ l.
Proof.
  induction l as [|b l IH]; [by left|]. cbn.
  destruct (Z.max_spec b (foldr Z.max a l)) as [[_ ->]|[_ ->]].
  - destruct IH as [->|IH]; [by left | right; by right].
  - right. left.
Qed.

Lemma grid_bounds_elem (times : list Z) :
  times ≠ [] -> grid_first times ∈ times /\ grid_last times ∈ times.
Proof.
  destruct times as [|t0 rest]; [done|]. intros _. unfold grid_first, grid_last.
  change (default 0 (head (t0 :: rest))) with t0. split.
  - destruct (foldr_min_elem (t0 :: rest) t0) as [E|H]; [rewrite E; left | done].
  - destruct (foldr_max_elem (t0 :: rest) t0) as [E|H]; [rewrite E; left | done].
Qed.

Lemma elem_of_bin_starts (w : Z) (times : list Z) (s : Z) :
  0 < w -> times ≠ [] ->
  s ∈ bin_starts w times <->
  exists k, s = grid_origin times + k * w /\
    (grid_first times - grid_origin times) `div` w <= k
    <= (grid_last times - grid_origin times) `div` w.
Proof.
  intros Hw Hne. rewrite bin_starts_grid by done. rewrite list_elem_of_fmap.
  split; intros (k & -> & Hk); exists k; (split; [done|]).
  - apply elem_of_seqZ in Hk. lia.
  - apply elem_of_seqZ. lia.
Qed.

(** Every hour bin and every day bin over a gap-free minute grid holds a
    minute of that grid. *)
Lemma coarse_bin_holds_a_minute (w : Z) (times : list Z) (start : Z) :
  w = hour_ns \/ w = day_ns ->
  times ≠ [] ->
  start ∈ bin_starts w (bin_starts minute_ns times) ->
  exists t, t ∈ bin_starts minute_ns times /\ in_bin w start t = true.
Proof.
  intros Hw Hne Hstart.
  set (T := bin_starts minute_ns times) in *.
  assert (T ≠ []) as HT by (intros E; rewrite E in Hstart; by apply elem_of_nil in Hstart).
  assert (0 < w) as Hwpos by (destruct Hw as [-> | ->]; done).
  destruct (grid_bounds_elem T HT) as [HF HL].
  apply (elem_of_bin_starts w T start Hwpos HT) in Hstart as (k & -> & Hk).
  pose proof (proj1 (elem_of_bin_starts minute_ns times (grid_first T) eq_refl Hne) HF)
    as (jF & HjF & HjFr).
  pose proof (proj1 (elem_of_bin_starts minute_ns times (grid_last T) eq_refl Hne) HL)
    as (jL & HjL & HjLr).
  pose proof (foldr_min_max_bounds T (default 0 (head T)) (grid_last T) HL) as [HFL _].
  fold (grid_first T) in HFL.
  unfold grid_origin, bin_origin in *.
  set (dF := grid_first T `div` day_ns) in *.
  set (dO := grid_first times `div` day_ns) in *.
  pose proof (Z.mul_div_le (grid_first T - dF * day_ns) w Hwpos) as Hlo.
  pose proof (Z.mul_succ_div_gt (grid_first T - dF * day_ns) w Hwpos) as Hhi.
  pose proof (Z.mul_div_le (grid_last T - dF * day_ns) w Hwpos) as Hlo'.
  set (kf := (grid_first T - dF * day_ns) `div` w) in *.
  set (kl := (grid_last T - dF * day_ns) `div` w) in *.
  set (a := (grid_first times - dO * day_ns) `div` minute_ns) in *.
  set (b := (grid_last times - dO * day_ns) `div` minute_ns) in *.
  destruct (Z_le_gt_dec (dF * day_ns + k * w) (grid_first T)) as [Hle|Hgt].
  - exists (grid_first T). split; [done|]. apply in_bin_spec.
    destruct Hw as [-> | ->]; unfold hour_ns, day_ns in *; lia.
  - exists (dF * day_ns + k * w). split; [|apply in_bin_spec; lia].
    apply (elem_of_bin_starts minute_ns times _ eq_refl Hne).
    fold dO a b. unfold grid_origin, bin_origin. fold dO.
    destruct Hw as [-> | ->].
    + exists ((dF - dO) * 1440 + k * 60). unfold hour_ns, day_ns, minute_ns in *. lia.
    + exists ((dF - dO) * 1440 + k * 1440). unfold hour_ns, day_ns, minute_ns in *. lia.
Qed.

Lemma minutely_ENMO (samples : list Sample) (b : Bucket) :
  b ∈ minutely samples -> is_Some (ENMO b).
Proof. unfold minutely. intros (b' & -> & _)%list_elem_of_fmap. by eexists. Qed.

Lemma coarse_ENMO (w : Z) (samples : list Sample) (b : Bucket) :
  w = hour_ns \/ w = day_ns ->
  b ∈ agg w (as_samples (minutely samples)) -> is_Some (ENMO b).
Proof.
  intros Hw (start & Hstart & ->)%elem_of_agg. cbn [ENMO].
  rewrite as_samples_times, minutely_starts in Hstart.
  assert (map s_time samples ≠ []) as Hne.
  { intros E. rewrite E in Hstart. by apply elem_of_nil in Hstart. }
  destruct (coarse_bin_holds_a_minute w _ start Hw Hne Hstart) as (t & Ht & Hbin).
  rewrite <- minutely_starts in Ht. apply list_elem_of_fmap in Ht as (m & -> & Hm).
  destruct (minutely_ENMO samples m Hm) as [v Hv].
  apply (mean_q_Some _ v). apply list_elem_of_fmap.
  exists {| s_time := b_start m; s_steps := Some (Steps m); s_enmo := ENMO m |}.
  split; [by rewrite Hv|]. apply list_elem_of_filter. split; [exact Hbin|].
  unfold as_samples. apply list_elem_of_fmap. by exists m.
Qed.

Lemma filter_none {A} (P : A -> Prop) `{!forall a, Decision (P a)} (l : list A) :
  (forall a, a ∈ l -> ~ P a) -> filter P l = [].
Proof.
  induction l as [|a l IH]; intros Hall; [done|].
  rewrite filter_cons. destruct (decide (P a)) as [Hp|_].
  - destruct (Hall a); [left | done].
  - apply IH. intros b Hb. apply Hall. by right.
Qed.

(** X16. No table of the roll-up holds a NaN motion magnitude: the minute
    table is filled with 0, and every hour and every day of the hour and
    day tables holds at least one minute row. A minute without any sample
    reads 0 steps and 0 motion. *)
Theorem X16_no_missing_motion_in_tables (samples : list Sample) :
  (forall b, b ∈ minutely samples \/ b ∈ hourly (minutely samples)
             \/ b ∈ daily (minutely samples) -> is_Some (ENMO b)) /\
  (forall b, b ∈ minutely samples ->
     (forall r, r ∈ samples -> in_bin minute_ns (b_start b) (s_time r) = false) ->
     Steps b = 0 /\ ENMO b = Some 0%Q).
Proof.
  split.
  - intros b [Hb|[Hb|Hb]].
    + by apply (minutely_ENMO samples).
    + apply (coarse_ENMO hour_ns samples); [by left | done].
    + apply (coarse_ENMO day_ns samples); [by right | done].
  - intros b Hb Hempty. unfold minutely in Hb.
    apply list_elem_of_fmap in Hb as (b' & -> & Hb').
    apply elem_of_agg in Hb' as (start & _ & ->). cbn [fillna0 b_start Steps ENMO] in *.
    assert (filter (fun r => in_bin minute_ns start (s_time r) = true) samples = []) as ->.
    { apply filter_none. intros r Hr. rewrite (Hempty r Hr). discriminate. }
    done.
Qed.

(** * The endpoints

    [upload_csv] and [process_data] run [process_csv_data] inside a [try]
    and turn whatever happens into a [ProcessingResponse]. *)

(** ** String tests *)

(** [sub in s] *)
Fixpoint contains (sub s : string) : bool :=
  String.prefix sub s ||
  match s with
  | EmptyString => false
  | String _ s' => contains sub s'
  end.

(** [s.endswith(suffix)] *)
Definition endswith (s suffix : string) : bool :=
  let n := String.length s in
  let m := String.length suffix in
  (m <=? n)%nat && String.eqb (substring (n - m) m s) suffix.

Lemma prefix_app (a b s : string) :
  String.prefix (a +:+ b) s = true -> exists t, s = a +:+ t /\ String.prefix b t = true.
Proof.
  revert s. induction a as [|c a IH]; intros s.
  - intros H. by exists s.
  - change (String c a +:+ b) with (String c (a +:+ b)).
    destruct s as [|c' s]; cbn; [done|]. destruct (Ascii.ascii_dec c c') as [<-|]; [|done].
    intros (t & -> & Ht)%IH. by exists t.
Qed.

Lemma contains_prefix (sub s : string) : String.prefix sub s = true -> contains sub s = true.
Proof. intros H. destruct s; cbn [contains]; by rewrite H. Qed.

Lemma contains_app_l (sub a t : string) :
  contains sub t = true -> contains sub (a +:+ t) = true.
Proof.
  intros H. induction a as [|c a IH]; [done|].
  change (String c a +:+ t) with (String c (a +:+ t)).
  cbn [contains]. rewrite IH. apply orb_true_r.
Qed.

Lemma contains_of_prefix_app (a b s : string) :
  String.prefix (a +:+ b) s = true -> contains b s = true.
Proof.
  intros (t & -> & Hp)%prefix_app. apply contains_app_l. by apply contains_prefix.
Qed.

(** A text that holds [a] followed by [b] holds [b]. *)
Lemma contains_app_r (a b s : string) :
  contains (a +:+ b) s = true -> contains b s = true.
Proof.
  induction s as [|c s IH]; cbn [contains]; intros [Hp|Hc]%orb_true_iff.
  - by apply (contains_of_prefix_app a b EmptyString).
  - done.
  - by apply (contains_of_prefix_app a b (String c s)).
  - rewrite (IH Hc). apply orb_true_r.
Qed.

(** ** Exceptions inside an endpoint *)

(** What the [try] block of an endpoint can see raised: a built-in
    exception, as [process_csv_data] raises them; [pd.errors.ParserError]
    from [pd.read_csv], which pandas declares as a subclass of
    [ValueError]; FastAPI's [HTTPException]; and an exception of another
    class, neither a [ValueError] nor a [KeyError], with its class name and
    its text. *)
Inductive raised :=
| Builtin (e : exn)
| ParserError (msg : string)
| HTTPException (status_code : Z) (detail : string)
| OtherException (type_name msg : string).

Inductive attempt (A : Type) : Type :=
| Done (a : A)
| Raised (e : raised).
Arguments Done {A} a.
Arguments Raised {A} e.

(** [isinstance(e, ValueError)], [isinstance(e, pd.errors.ParserError)],
    [isinstance(e, KeyError)]: what the [except] clauses test, in turn. *)
Definition is_ValueError (e : raised) : bool :=
  match e with
  | Builtin e => match exn_type e with ValueError => true | _ => false end
  | ParserError _ => true
  | _ => false
  end.

Definition is_ParserError (e : raised) : bool :=
  match e with ParserError _ => true | _ => false end.

Definition is_KeyError (e : raised) : bool :=
  match e with
  | Builtin e => match exn_type e with KeyError => true | _ => false end
  | _ => false
  end.

(** [type(e).__name__] *)
Definition type_name_of (e : raised) : string :=
  match e with
  | Builtin e =>
      match exn_type e with
      | ValueError => "ValueError"
      | KeyError => "KeyError"
      | TypeError => "TypeError"
      | ZeroDivisionError => "ZeroDivisionError"
      end
  | ParserError _ => "ParserError"
  | HTTPException _ _ => "HTTPException"
  | OtherException type_name _ => type_name
  end.

(** The form of [upload_csv]: the uploaded file and the fields, each
    optional but the model type. [calibration_stdtol_min] and
    [start_first_complete_minute] go into the request and are read nowhere. *)
Record UploadForm := {
  file_filename : option string;
  file_content : list Byte.byte;
  form_model_type : string;
  form_sample_rate : option Z;
  form_txyz : option string;
  form_min_wear_per_day : option Q;
  form_min_wear_per_hour : option Q;
  form_min_wear_per_minute : option Q;
  form_min_walk_per_day : option Q;
  form_bouts_min_walk : option Q;
  form_bouts_max_idle : option Z;
  form_exclude_wear_below : option string;
  form_exclude_first_last : option string;
  form_start_time : option string;
  form_end_time : option string;
  form_pytorch_device : option string
}.

(** [value or default], for a text, a float and an integer. *)
Definition or_str (value : option string) (default : string) : string :=
  match value with
  | Some s => if truthy s then s else default
  | None => default
  end.

Definition or_float (value : option Q) (default : Q) : Q :=
  match value with
  | Some q => if Qeq_bool q 0 then default else q
  | None => default
  end.

Definition or_int (value : option Z) (default : Z) : Z :=
  match value with
  | Some n => if n =? 0 then default else n
  | None => default
  end.

(** "Create request object with defaults for None values" *)
Definition build_request (form : UploadForm) : ProcessingRequest := {|
  model_type := form_model_type form;
  sample_rate := form_sample_rate form;
  txyz := or_str (form_txyz form) "time,x,y,z";
  min_wear_per_day := or_float (form_min_wear_per_day form) (inject_Z (21 * 60));
  min_wear_per_hour := or_float (form_min_wear_per_hour form) 50;
  min_wear_per_minute := or_float (form_min_wear_per_minute form) (1 # 2);
  min_walk_per_day := or_float (form_min_walk_per_day form) 5;
  bouts_min_walk := or_float (form_bouts_min_walk form) (4 # 5);
  bouts_max_idle := or_int (form_bouts_max_idle form) 3;
  exclude_wear_below := form_exclude_wear_below form;
  exclude_first_last := form_exclude_first_last form;
  start_time := form_start_time form;
  end_time := form_end_time form;
  pytorch_device := or_str (form_pytorch_device form) "cpu"
|}.

(** What [given or dflt] must evaluate to: the default for an absent
    value and for a value that counts as false, the value given
    otherwise. *)
Definition falls_back {A} (falsy : A -> Prop) (given : option A) (dflt used : A) : Prop :=
  match given with
  | None => used = dflt
  | Some a => (falsy a -> used = dflt) /\ (¬ falsy a -> used = a)
  end.

Section Endpoints.

Variable infer_freq : list Z -> result freq_value.
Variable regrid : Z -> Frame -> result Frame.
Variable WearValue : Type.
Variable calculate_wear_stats : Frame -> result (gmap string WearValue).
Variable drop_first_last_days : Frame -> string -> result Frame.
Variable flag_wear_below_days : Frame -> string -> result Frame.
Variable Classifier : Type.
Variable get_model : string -> string -> pyfloat -> result Classifier.
Variable predict_from_frame : Classifier -> pyfloat -> Frame -> result (gmap Z (option Z)).
Variable Summaries : Type.
Variable summarize : ProcessingRequest -> Classifier -> Frame -> gmap Z (option Z)
                     -> result Summaries.
Variable enmo : Row -> option Q.
Variable to_native : WearValue -> WearValue.
Variable to_numeric_str : string -> option Q.
Variable float_str : Q -> string.
Variable to_datetime_elem : cell -> option Z.
Variable to_datetime_scalar : string -> result boundary.
(** [await file.read()] and [pd.read_csv] on the bytes. *)
Variable read_csv : list Byte.byte -> attempt DataFrame.
(** The JSON body of [process_data] and [pd.DataFrame] on it. *)
Variable JsonData : Type.
Variable DataFrame_of : JsonData -> attempt DataFrame.
(** [str] of an [HTTPException], which depends on the version of Starlette. *)
Variable str_http : Z -> string -> string.
(** The directory that [tempfile.TemporaryDirectory()] makes for a call of
    [upload_csv]. *)
Variable temp_dir : string.

Local Abbreviation process :=
  (process_csv_data infer_freq regrid WearValue calculate_wear_stats drop_first_last_days
     flag_wear_below_days Classifier get_model predict_from_frame Summaries summarize
     enmo to_native to_numeric_str float_str to_datetime_elem to_datetime_scalar).

(** [str(e)] *)
Definition str_raised (e : raised) : string :=
  match e with
  | Builtin e => str_exn e
  | ParserError msg => msg
  | HTTPException status_code detail => str_http status_code detail
  | OtherException _ msg => msg
  end.

(** [ProcessingResponse]; [processing_time], read off the clock, is not
    tracked. [output_files] maps the name of a file to its path. *)
Record ProcessingResponse := {
  success : bool;
  message : string;
  results : option (Results WearValue Summaries);
  output_files : option (gmap string string)
}.

Definition failure (text : string) : ProcessingResponse :=
  {| success := false; message := text; results := None; output_files := None |}.

(** The files that [process_csv_data] has written to [output_dir] when it
    returns the compiled results; it writes none before an early return. *)
Definition written_names : list string :=
  ["Steps.csv.gz"; "StepTimes.csv.gz"; "Minutely.csv.gz"; "Hourly.csv.gz";
   "Daily.csv.gz"; "Steps.png"].

(** The dict built from [output_dir.glob("*")], with [output_dir] the
    directory [outputs] of [temp_dir]. *)
Definition listed_files : gmap string string :=
  list_to_map (map (fun name => (name, temp_dir +:+ "/outputs/" +:+ name)) written_names).

(** From [if "error" in results] to the last [return] of the [try]: the
    two dictionaries of the early returns have the key, the compiled
    results do not. [files] is what the endpoint passes as
    [output_files] with the compiled results. *)
Definition respond (files : option (gmap string string))
  (results : outcome WearValue Summaries) : ProcessingResponse :=
  match results with
  | InsufficientData _ _ error _ _ => failure error
  | NoValidData _ _ error _ => failure error
  | Completed _ _ results =>
      {| success := true;
         message := "Processing completed successfully";
         results := Some results;
         output_files := files |}
  end.

(** The [try] block of [upload_csv]. *)
Definition upload_try (form : UploadForm) : attempt ProcessingResponse :=
  match file_filename form with
  | None =>
      Raised (OtherException "AttributeError"
                "'NoneType' object has no attribute 'endswith'")
  | Some filename =>
      if negb (endswith filename ".csv")
      then Raised (HTTPException 400 "File must be a CSV file")
      else
        let request := build_request form in
        match read_csv (file_content form) with
        | Raised e => Raised e
        | Done csv_data =>
            match process csv_data request with
            | Raise e => Raised (Builtin e)
            | Ok results => Done (respond (Some listed_files) results)
            end
        end
  end.

(** The [except] clauses of [upload_csv], in their order. *)
Definition upload_except (e : raised) : ProcessingResponse :=
  if is_ValueError e then
    let error_msg := str_raised e in
    if contains "must be real number, not Timedelta" error_msg then
      failure ("Data processing error: " +:+ error_msg +:+
               ". This is likely due to sample rate inference issues with the time data.")
    else if contains "Timedelta" error_msg then
      failure ("Data processing error: " +:+ error_msg +:+
               ". This may be due to irregular timestamps or insufficient data.")
    else if contains "txyz must contain exactly 4 column names" error_msg then
      failure "Column configuration error: Please specify exactly 4 column names in the format 'time,x,y,z' (e.g., 'timestamp,accel_x,accel_y,accel_z')."
    else failure ("Data validation error: " +:+ error_msg)
  else if is_ParserError e then
    failure ("CSV parsing error: Unable to parse the CSV file. Please check that your file is properly formatted with comma-separated values. Error: " +:+ str_raised e)
  else if is_KeyError e then
    failure ("Column error: Required column not found in CSV. Please ensure your CSV contains the columns specified in 'txyz' parameter. Missing: " +:+ str_raised e)
  else
    failure ("Processing error (" +:+ type_name_of e +:+ "): " +:+ str_raised e +:+
             ". Please check your data format and try again.").

Definition upload_csv (form : UploadForm) : ProcessingResponse :=
  match upload_try form with
  | Done response => response
  | Raised e => upload_except e
  end.

(** [process_data]: the frame comes from the JSON body, the request as it
    was sent, and one [except] clause takes every exception. *)
Definition process_data (data : JsonData) (request : ProcessingRequest)
  : ProcessingResponse :=
  let attempted :=
    match DataFrame_of data with
    | Raised e => Raised e
    | Done csv_data =>
        match process csv_data request with
        | Raise e => Raised (Builtin e)
        | Ok results => Done (respond None results)
        end
    end in
  match attempted with
  | Done response => response
  | Raised e => failure ("Error processing data: " +:+ str_raised e)
  end.

(** ** What the endpoints answer *)

Lemma upload_except_fails (e : raised) :
  success (upload_except e) = false /\ results (upload_except e) = None /\
  output_files (upload_except e) = None.
Proof.
  unfold upload_except.
  repeat match goal with |- context [if ?b then _ else _] => destruct b end; done.
Qed.

Lemma upload_except_not_parsing (e : raised) :
  String.prefix "CSV parsing error" (message (upload_except e)) = false.
Proof.
  unfold upload_except. destruct (is_ValueError e) eqn:HV.
  - cbv zeta.
    repeat match goal with |- context [if ?b then _ else _] => destruct b end; reflexivity.
  - destruct (is_ParserError e) eqn:HP; [by destruct e|].
    destruct (is_KeyError e); reflexivity.
Qed.

(** The error text of an early return is one of the two that
    [process_csv_data] writes. *)
Lemma early_return_messages (csv_data : DataFrame) (request : ProcessingRequest)
  (out : outcome WearValue Summaries) :
  process csv_data request = Ok out ->
  match out with
  | InsufficientData _ _ error n _ => error = insufficient_rf_message n
  | NoValidData _ _ error _ => error = no_valid_data_message
  | Completed _ _ _ => True
  end.
Proof.
  unfold process_csv_data.
  destruct (ingest _ _ _ _ request csv_data) as [frame|e]; [|done]. rewrite bind_Ok.
  unfold process_frame.
  destruct (calculate_sample_rate infer_freq request frame) as [rate|e]; [|done].
  rewrite bind_Ok.
  destruct (resample_if_needed regrid request frame rate) as [[resampled eff]|e]; [|done].
  rewrite bind_Ok. cbn [fst snd].
  destruct (wear_and_guards _ _ _ _ _ request resampled) as [checked|e] eqn:Hg; [|done].
  rewrite bind_Ok.
  apply guards_inv in Hg
    as [(_ & _ & ->)|(ex & b & a & _ & _ & _ & _ & [[_ ->]|[_ ->]])].
  - by intros [= <-].
  - by intros [= <-].
  - intros H. by apply run_model_Ok_inv in H as (res & Y & -> & _).
Qed.

(** X17. [upload_csv] answers [success = True] exactly when the file name
    ends in [.csv], the file is read and [process_csv_data] returns the
    compiled results, which are then the results of the answer, next to
    the paths of the six files written. When
    [process_csv_data] returns early, the answer is a failure whose message
    is the error text of the early return and whose results are empty: the
    wear statistics and the counts of the early return are dropped. *)
Theorem X17_upload_succeeds_exactly_on_completed_results (form : UploadForm) :
  (success (upload_csv form) = true <->
   exists filename csv_data compiled,
     file_filename form = Some filename /\ endswith filename ".csv" = true /\
     read_csv (file_content form) = Done csv_data /\
     process csv_data (build_request form) = Ok (Completed WearValue Summaries compiled)) /\
  (forall filename csv_data out,
     file_filename form = Some filename -> endswith filename ".csv" = true ->
     read_csv (file_content form) = Done csv_data ->
     process csv_data (build_request form) = Ok out ->
     match out with
     | Completed _ _ compiled =>
         upload_csv form = {| success := true;
                              message := "Processing completed successfully";
                              results := Some compiled;
                              output_files := Some listed_files |}
     | InsufficientData _ _ error _ _ => upload_csv form = failure error
     | NoValidData _ _ error _ => upload_csv form = failure error
     end).
Proof.
  split.
  - unfold upload_csv, upload_try. split.
    + destruct (file_filename form) as [filename|];
        [|intros H; by rewrite (proj1 (upload_except_fails _)) in H].
      destruct (endswith filename ".csv") eqn:Hname; cbn [negb];
        [|intros H; by rewrite (proj1 (upload_except_fails _)) in H].
      destruct (read_csv (file_content form)) as [csv_data|e];
        [|intros H; by rewrite (proj1 (upload_except_fails _)) in H].
      destruct (process csv_data (build_request form)) as [out|e] eqn:Hout;
        [|intros H; by rewrite (proj1 (upload_except_fails _)) in H].
      destruct out as [error n m|error stats|compiled]; [done|done|].
      intros _. by exists filename, csv_data, compiled.
    + intros (filename & csv_data & compiled & -> & -> & -> & ->). done.
  - intros filename csv_data out Hname Hcsv Hread Hout.
    unfold upload_csv, upload_try. rewrite Hname, Hcsv, Hread, Hout. cbn [negb].
    by destruct out.
Qed.

(** X18. A file whose name does not end in [.csv] is not refused with
    status 400: the [HTTPException] is raised inside the [try], taken by
    the last [except] clause, and comes back as an ordinary answer with
    [success = False], whatever the file holds. *)
Theorem X18_wrong_file_name_answered_in_body (form : UploadForm) (filename : string) :
  file_filename form = Some filename -> endswith filename ".csv" = false ->
  upload_csv form
  = failure ("Processing error (HTTPException): " +:+
             str_http 400 "File must be a CSV file" +:+
             ". Please check your data format and try again.").
Proof.
  intros Hname Hcsv. unfold upload_csv, upload_try. rewrite Hname, Hcsv. reflexivity.
Qed.

(** X19. No answer of [upload_csv] carries the message of the
    [pd.errors.ParserError] clause: a [ParserError] is a [ValueError] and
    is taken by the clause before. A parsing failure of [pd.read_csv] whose
    text holds neither [Timedelta] nor the text about txyz is answered as
    a data validation error. *)
Theorem X19_parser_error_taken_as_value_error (form : UploadForm) :
  String.prefix "CSV parsing error" (message (upload_csv form)) = false /\
  (forall filename msg,
     file_filename form = Some filename -> endswith filename ".csv" = true ->
     read_csv (file_content form) = Raised (ParserError msg) ->
     contains "Timedelta" msg = false ->
     contains "txyz must contain exactly 4 column names" msg = false ->
     upload_csv form = failure ("Data validation error: " +:+ msg)).
Proof.
  split.
  - unfold upload_csv, upload_try.
    destruct (file_filename form) as [filename|]; [|apply upload_except_not_parsing].
    destruct (negb (endswith filename ".csv")); [apply upload_except_not_parsing|].
    destruct (read_csv (file_content form)) as [csv_data|e];
      [|apply upload_except_not_parsing].
    destruct (process csv_data (build_request form)) as [out|e] eqn:Hout;
      [|apply upload_except_not_parsing].
    apply early_return_messages in Hout.
    destruct out as [error n m|error stats|compiled]; [by subst error..|done].
  - intros filename msg Hname Hcsv Hread Htd Htxyz.
    unfold upload_csv, upload_try. rewrite Hname, Hcsv, Hread. cbn [negb].
    unfold upload_except. cbn [is_ValueError str_raised]. cbv zeta.
    destruct (contains "must be real number, not Timedelta" msg) eqn:Hreal.
    + apply (contains_app_r "must be real number, not " "Timedelta") in Hreal. congruence.
    + by rewrite Htd, Htxyz.
Qed.

(** X20. Through [upload_csv], a mapping that does not name four columns
    is answered with the fixed text about the column configuration, and a
    mapping of four names one of which is not a column of the file with the
    text about the missing column, which ends in the [repr] of the message
    of the [KeyError], quotes included. *)
Theorem X20_schema_errors_through_upload
  (form : UploadForm) (filename : string) (csv_data : DataFrame) :
  file_filename form = Some filename -> endswith filename ".csv" = true ->
  read_csv (file_content form) = Done csv_data ->
  (length (split "," (txyz (build_request form))) ≠ 4%nat ->
   upload_csv form
   = failure "Column configuration error: Please specify exactly 4 column names in the format 'time,x,y,z' (e.g., 'timestamp,accel_x,accel_y,accel_z').") /\
  (length (split "," (txyz (build_request form))) = 4%nat ->
   some_column_absent (split "," (txyz (build_request form))) csv_data ->
   upload_csv form
   = failure ("Column error: Required column not found in CSV. Please ensure your CSV contains the columns specified in 'txyz' parameter. Missing: " +:+
              repr_str (missing_message
                          (missing_columns (split "," (txyz (build_request form))) csv_data)
                          (columns csv_data)))).
Proof.
  intros Hname Hcsv Hread.
  unfold upload_csv, upload_try. rewrite Hname, Hcsv, Hread. cbn [negb].
  unfold process_csv_data, ingest, map_schema. cbv zeta. split.
  - intros Hlen. rewrite bool_decide_eq_true_2 by done. rewrite !bind_Raise.
    reflexivity.
  - intros Hlen Habs. rewrite bool_decide_eq_false_2 by (intros ?; done).
    destruct (missing_columns _ csv_data) as [|c l] eqn:E.
    + by apply missing_columns_nil in E.
    + rewrite !bind_Raise. reflexivity.
Qed.

(** X21. The request that [upload_csv] builds takes each of the seven
    thresholds and options written with [or], and the device, from the
    form when the value given is not 0 and not the empty text, and takes
    the default otherwise, for an absent value as for a 0 or an empty
    text; so none of them is ever 0 or empty. The sample rate, the model
    type and the four optional texts are passed unchanged, 0 and the empty
    text included. *)
Theorem X21_upload_overrides_and_defaults (form : UploadForm) :
  (falls_back (fun s => s = EmptyString) (form_txyz form) "time,x,y,z"
     (txyz (build_request form)) /\
   falls_back (fun q => (q == 0)%Q) (form_min_wear_per_day form) (inject_Z 1260)
     (min_wear_per_day (build_request form)) /\
   falls_back (fun q => (q == 0)%Q) (form_min_wear_per_hour form) 50%Q
     (min_wear_per_hour (build_request form)) /\
   falls_back (fun q => (q == 0)%Q) (form_min_wear_per_minute form) (1 # 2)%Q
     (min_wear_per_minute (build_request form)) /\
   falls_back (fun q => (q == 0)%Q) (form_min_walk_per_day form) 5%Q
     (min_walk_per_day (build_request form)) /\
   falls_back (fun q => (q == 0)%Q) (form_bouts_min_walk form) (4 # 5)%Q
     (bouts_min_walk (build_request form)) /\
   falls_back (fun n => n = 0) (form_bouts_max_idle form) 3
     (bouts_max_idle (build_request form)) /\
   falls_back (fun s => s = EmptyString) (form_pytorch_device form) "cpu"
     (pytorch_device (build_request form))) /\
  (txyz (build_request form) ≠ EmptyString /\
   pytorch_device (build_request form) ≠ EmptyString /\
   ¬ (min_wear_per_day (build_request form) == 0)%Q /\
   ¬ (min_wear_per_hour (build_request form) == 0)%Q /\
   ¬ (min_wear_per_minute (build_request form) == 0)%Q /\
   ¬ (min_walk_per_day (build_request form) == 0)%Q /\
   ¬ (bouts_min_walk (build_request form) == 0)%Q /\
   bouts_max_idle (build_request form) ≠ 0) /\
  (sample_rate (build_request form) = form_sample_rate form /\
   model_type (build_request form) = form_model_type form /\
   exclude_wear_below (build_request form) = form_exclude_wear_below form /\
   exclude_first_last (build_request form) = form_exclude_first_last form /\
   start_time (build_request form) = form_start_time form /\
   end_time (build_request form) = form_end_time form).
Proof.
  assert (forall o d, falls_back (fun s => s = EmptyString) o d (or_str o d)) as Fstr.
  { intros [s|] d; cbn; [|done]. destruct s; split; done. }
  assert (forall o d, falls_back (fun q => (q == 0)%Q) o d (or_float o d)) as Fq.
  { intros [q|] d; cbn; [|done]. destruct (Qeq_bool q 0) eqn:E.
    - apply Qeq_bool_iff in E. split; done.
    - apply Qeq_bool_neq in E. split; done. }
  assert (forall o d, falls_back (fun n => n = 0) o d (or_int o d)) as Fz.
  { intros [n|] d; cbn; [|done]. destruct (Z.eqb_spec n 0); split; done. }
  assert (forall o d, d ≠ EmptyString -> or_str o d ≠ EmptyString) as Hstr.
  { intros [s|] d Hd; cbn; [|done]. by destruct s. }
  assert (forall o d, ¬ (d == 0)%Q -> ¬ (or_float o d == 0)%Q) as Hq.
  { intros [q|] d Hd; cbn; [|done].
    destruct (Qeq_bool q 0) eqn:E; [done|]. by apply Qeq_bool_neq. }
  assert (forall o d, d ≠ 0 -> or_int o d ≠ 0) as Hz.
  { intros [n|] d Hd; cbn; [|done]. destruct (n =? 0) eqn:E; [done|]. by apply Z.eqb_neq. }
  cbn [build_request txyz pytorch_device min_wear_per_day min_wear_per_hour
         min_wear_per_minute min_walk_per_day bouts_min_walk bouts_max_idle
         sample_rate model_type exclude_wear_below exclude_first_last start_time end_time].
  split; [|split].
  - repeat split; (apply Fstr || apply Fq || apply Fz).
  - repeat split; (apply Hstr || apply Hq || apply Hz); done.
  - done.
Qed.

(** X22. [process_data] answers every exception with the one text
    [Error processing data:] followed by [str] of the exception, succeeds
    exactly when the frame is built and [process_csv_data] returns the
    compiled results, and never lists output files. On a frame that both
    endpoints obtain and with the request that [upload_csv] builds, the
    two endpoints agree on success and on the results and, whenever
    [process_csv_data] returns, on the message; they differ in the output
    files, which only [upload_csv] lists, and it does so exactly on
    success. *)
Theorem X22_process_data_one_handler (data : JsonData) (request : ProcessingRequest) :
  (forall e, DataFrame_of data = Raised e ->
     process_data data request = failure ("Error processing data: " +:+ str_raised e)) /\
  (forall csv_data e, DataFrame_of data = Done csv_data ->
     process csv_data request = Raise e ->
     process_data data request = failure ("Error processing data: " +:+ str_exn e)) /\
  (success (process_data data request) = true <->
   exists csv_data compiled,
     DataFrame_of data = Done csv_data /\
     process csv_data request = Ok (Completed WearValue Summaries compiled)) /\
  output_files (process_data data request) = None /\
  (forall form filename csv_data,
     file_filename form = Some filename -> endswith filename ".csv" = true ->
     read_csv (file_content form) = Done csv_data ->
     DataFrame_of data = Done csv_data ->
     request = build_request form ->
     success (upload_csv form) = success (process_data data request) /\
     results (upload_csv form) = results (process_data data request) /\
     output_files (upload_csv form)
       = (if success (upload_csv form) then Some listed_files else None) /\
     (forall out, process csv_data request = Ok out ->
        message (upload_csv form) = message (process_data data request))).
Proof.
  unfold process_data. cbv zeta. split; [|split; [|split; [|split]]].
  - by intros e ->.
  - by intros csv_data e -> ->.
  - split.
    + destruct (DataFrame_of data) as [csv_data|e]; [|done].
      destruct (process csv_data request) as [out|e] eqn:Hout; [|done].
      destruct out as [error n m|error stats|compiled]; [done|done|].
      intros _. by exists csv_data, compiled.
    + by intros (csv_data & compiled & -> & ->).
  - destruct (DataFrame_of data) as [csv_data|e]; [|done].
    destruct (process csv_data request) as [out|e]; [|done]. by destruct out.
  - intros form filename csv_data Hname Hcsv Hread Hdata ->.
    unfold upload_csv, upload_try. rewrite Hname, Hcsv, Hread, Hdata. cbn [negb].
    destruct (process csv_data (build_request form)) as [out|e].
    + by destruct out.
    + destruct (upload_except_fails (Builtin e)) as (-> & -> & ->).
      split; [done|]. split; [done|]. split; [done|]. intros out. discriminate.
Qed.

End Endpoints.

(** ** The endpoints on files *)

Definition read_frame (csv_data : DataFrame) (content : list Byte.byte) : attempt DataFrame :=
  Done csv_data.

Definition read_fails (e : raised) (content : list Byte.byte) : attempt DataFrame :=
  Raised e.

Definition str_http_status (status_code : Z) (detail : string) : string :=
  str_int status_code +:+ ": " +:+ detail.

Definition scratch_dir : string := "/tmp/tmpk3v9x2a1".

Definition upload (read_csv : list Byte.byte -> attempt DataFrame)
  : UploadForm -> ProcessingResponse Z unit :=
  upload_csv infer_freq_none regrid_xyz Z count_wear drop_ten mark_not_worn
    unit no_classifier no_steps unit no_summaries enmo_at_rest id
    decimal_literal float_placeholder seconds_elem read_seconds read_csv str_http_status
    scratch_dir.

Definition post_json (data : DataFrame) : ProcessingRequest -> ProcessingResponse Z unit :=
  process_data infer_freq_none regrid_xyz Z count_wear drop_ten mark_not_worn
    unit no_classifier no_steps unit no_summaries enmo_at_rest id
    decimal_literal float_placeholder seconds_elem read_seconds DataFrame
    (fun df => Done df) str_http_status data.

Definition form_of (filename : option string) (model : string) (rate : option Z)
  (mapping : option string) : UploadForm := {|
  file_filename := filename;
  file_content := [];
  form_model_type := model;
  form_sample_rate := rate;
  form_txyz := mapping;
  form_min_wear_per_day := None;
  form_min_wear_per_hour := None;
  form_min_wear_per_minute := Some 0%Q;
  form_min_walk_per_day := None;
  form_bouts_min_walk := None;
  form_bouts_max_idle := Some 0;
  form_exclude_wear_below := None;
  form_exclude_first_last := None;
  form_start_time := None;
  form_end_time := None;
  form_pytorch_device := None
|}.

Example upload_three_rows :
  success Z unit (upload (read_frame csv_three_rows)
                    (form_of (Some "walk.csv") "ssl" (Some 30) (Some "t,ax,ay,az"))) = true /\
  upload (read_frame csv_three_rows) (form_of (Some "walk.csv") "rf" None (Some "t,ax,ay,az"))
  = failure Z unit (insufficient_rf_message 3).
Proof. split; vm_compute; reflexivity. Qed.

Example upload_upper_case_name :
  message Z unit (upload (read_frame csv_three_rows)
                    (form_of (Some "WALK.CSV") "ssl" (Some 30) None))
  = "Processing error (HTTPException): 400: File must be a CSV file. Please check your data format and try again.".
Proof. vm_compute. reflexivity. Qed.

Lemma X17_three_rows_witness :
  upload (read_frame csv_three_rows) (form_of (Some "walk.csv") "rf" None (Some "t,ax,ay,az"))
  = failure Z unit (insufficient_rf_message 3) /\
  success Z unit (upload (read_frame csv_three_rows)
                    (form_of (Some "walk.csv") "ssl" (Some 30) (Some "t,ax,ay,az"))) = true.
Proof.
  split.
  - refine (proj2 (X17_upload_succeeds_exactly_on_completed_results
                     infer_freq_none regrid_xyz Z count_wear drop_ten mark_not_worn
                     unit no_classifier no_steps unit no_summaries enmo_at_rest id
                     decimal_literal float_placeholder seconds_elem read_seconds
                     (read_frame csv_three_rows) str_http_status scratch_dir
                     (form_of (Some "walk.csv") "rf" None (Some "t,ax,ay,az")))
              "walk.csv" csv_three_rows
              (InsufficientData Z unit (insufficient_rf_message 3) 3 50) _ _ _ _);
      vm_compute; reflexivity.
  - apply (proj1 (X17_upload_succeeds_exactly_on_completed_results
                    infer_freq_none regrid_xyz Z count_wear drop_ten mark_not_worn
                    unit no_classifier no_steps unit no_summaries enmo_at_rest id
                    decimal_literal float_placeholder seconds_elem read_seconds
                    (read_frame csv_three_rows) str_http_status scratch_dir
                    (form_of (Some "walk.csv") "ssl" (Some 30) (Some "t,ax,ay,az")))).
    exists "walk.csv", csv_three_rows. eexists.
    repeat split; vm_compute; reflexivity.
Defined.

Lemma X18_upper_case_name_witness :
  upload (read_frame csv_three_rows) (form_of (Some "WALK.CSV") "ssl" (Some 30) None)
  = failure Z unit
      "Processing error (HTTPException): 400: File must be a CSV file. Please check your data format and try again.".
Proof.
  exact (X18_wrong_file_name_answered_in_body
           infer_freq_none regrid_xyz Z count_wear drop_ten mark_not_worn
           unit no_classifier no_steps unit no_summaries enmo_at_rest id
           decimal_literal float_placeholder seconds_elem read_seconds
           (read_frame csv_three_rows) str_http_status scratch_dir
           (form_of (Some "WALK.CSV") "ssl" (Some 30) None) "WALK.CSV" eq_refl eq_refl).
Defined.

Definition tokenizing_error : string :=
  "Error tokenizing data. C error: Expected 4 fields in line 3, saw 5".

Lemma X19_tokenizing_error_witness :
  upload (read_fails (ParserError tokenizing_error)) (form_of (Some "walk.csv") "rf" None None)
  = failure Z unit ("Data validation error: " +:+ tokenizing_error).
Proof.
  refine (proj2 (X19_parser_error_taken_as_value_error
                   infer_freq_none regrid_xyz Z count_wear drop_ten mark_not_worn
                   unit no_classifier no_steps unit no_summaries enmo_at_rest id
                   decimal_literal float_placeholder seconds_elem read_seconds
                   (read_fails (ParserError tokenizing_error)) str_http_status scratch_dir
                   (form_of (Some "walk.csv") "rf" None None))
            "walk.csv" tokenizing_error _ _ _ _ _);
    vm_compute; reflexivity.
Defined.

Lemma X20_three_names_and_absent_column_witness :
  upload (read_frame csv_three_rows) (form_of (Some "walk.csv") "rf" None (Some "t,ax,ay"))
  = failure Z unit
      "Column configuration error: Please specify exactly 4 column names in the format 'time,x,y,z' (e.g., 'timestamp,accel_x,accel_y,accel_z')." /\
  upload (read_frame csv_three_rows) (form_of (Some "walk.csv") "rf" None (Some "t,ax,ay,w"))
  = failure Z unit
      "Column error: Required column not found in CSV. Please ensure your CSV contains the columns specified in 'txyz' parameter. Missing: 'Missing columns: w. Available columns: t, ax, ay, az, note'".
Proof.
  split.
  - refine (proj1 (X20_schema_errors_through_upload
                     infer_freq_none regrid_xyz Z count_wear drop_ten mark_not_worn
                     unit no_classifier no_steps unit no_summaries enmo_at_rest id
                     decimal_literal float_placeholder seconds_elem read_seconds
                     (read_frame csv_three_rows) str_http_status scratch_dir
                     (form_of (Some "walk.csv") "rf" None (Some "t,ax,ay"))
                     "walk.csv" csv_three_rows eq_refl eq_refl eq_refl) _).
    vm_compute. lia.
  - refine (proj2 (X20_schema_errors_through_upload
                     infer_freq_none regrid_xyz Z count_wear drop_ten mark_not_worn
                     unit no_classifier no_steps unit no_summaries enmo_at_rest id
                     decimal_literal float_placeholder seconds_elem read_seconds
                     (read_frame csv_three_rows) str_http_status scratch_dir
                     (form_of (Some "walk.csv") "rf" None (Some "t,ax,ay,w"))
                     "walk.csv" csv_three_rows eq_refl eq_refl eq_refl) _ _).
    + vm_compute. reflexivity.
    + exists "w". split; apply (bool_decide_unpack _); vm_compute; exact I.
Defined.

Lemma X21_zero_overrides_witness :
  min_wear_per_minute (build_request (form_of None "rf" (Some 0) (Some EmptyString)))
  = (1 # 2)%Q /\
  bouts_max_idle (build_request (form_of None "rf" (Some 0) (Some EmptyString))) = 3 /\
  txyz (build_request (form_of None "rf" (Some 0) (Some EmptyString))) = "time,x,y,z" /\
  min_wear_per_day (build_request (form_of None "rf" (Some 0) (Some EmptyString)))
  = inject_Z 1260 /\
  sample_rate (build_request (form_of None "rf" (Some 0) (Some EmptyString))) = Some 0.
Proof.
  destruct (X21_upload_overrides_and_defaults (form_of None "rf" (Some 0) (Some EmptyString)))
    as ((Htxyz & Hday & _ & Hminute & _ & _ & Hidle & _) & _ & Hrate & _).
  split; [|split; [|split; [|split]]].
  - exact (proj1 Hminute (Qeq_refl 0)).
  - exact (proj1 Hidle eq_refl).
  - exact (proj1 Htxyz eq_refl).
  - exact Hday.
  - exact Hrate.
Defined.

Lemma X22_same_frame_witness :
  success Z unit (upload (read_frame csv_three_rows)
                    (form_of (Some "walk.csv") "ssl" (Some 30) (Some "t,ax,ay,az")))
  = success Z unit (post_json csv_three_rows
                      (build_request
                         (form_of (Some "walk.csv") "ssl" (Some 30) (Some "t,ax,ay,az")))) /\
  message Z unit (upload (read_frame csv_three_rows)
                    (form_of (Some "walk.csv") "ssl" (Some 30) (Some "t,ax,ay,az")))
  = message Z unit (post_json csv_three_rows
                      (build_request
                         (form_of (Some "walk.csv") "ssl" (Some 30) (Some "t,ax,ay,az")))) /\
  output_files Z unit (post_json csv_three_rows
                         (build_request
                            (form_of (Some "walk.csv") "ssl" (Some 30) (Some "t,ax,ay,az"))))
  = None /\
  post_json csv_three_rows (request_mapping "t,ax,ay")
  = failure Z unit
      "Error processing data: txyz must contain exactly 4 column names: time,x,y,z".
Proof.
  pose proof (X22_process_data_one_handler
                infer_freq_none regrid_xyz Z count_wear drop_ten mark_not_worn
                unit no_classifier no_steps unit no_summaries enmo_at_rest id
                decimal_literal float_placeholder seconds_elem read_seconds
                (read_frame csv_three_rows) DataFrame (fun df => Done df) str_http_status
                scratch_dir csv_three_rows) as H.
  destruct (H (build_request (form_of (Some "walk.csv") "ssl" (Some 30) (Some "t,ax,ay,az"))))
    as (_ & _ & _ & Hfiles & Hagree).
  destruct (Hagree (form_of (Some "walk.csv") "ssl" (Some 30) (Some "t,ax,ay,az"))
              "walk.csv" csv_three_rows eq_refl eq_refl eq_refl eq_refl eq_refl)
    as (Hsuccess & _ & _ & Hmessage).
  split; [exact Hsuccess|]. split; [|split; [exact Hfiles|]].
  - eapply Hmessage. vm_compute. reflexivity.
  - destruct (H (request_mapping "t,ax,ay")) as (_ & Hraise & _).
    apply (Hraise csv_three_rows (PyExn ValueError
             "txyz must contain exactly 4 column names: time,x,y,z")); vm_compute; reflexivity.
Defined.

(** * The model cache

    [model_cache] is a module-level dict: it is threaded through
    [get_model] as state. A model object is only reached through the cache
    and through what [get_model] returns, so an entry stands for the
    object. *)

Section ModelCache.

Variable Model : Type.
(** [__model_version__] *)
Variable model_version : gmap string string.
(** [Path(__file__).parent / f"{version}.joblib.lzma"], as a string. *)
Variable model_path : string -> string.
(** [load_model(path, model_type, check_md5=True, force_download=False)] *)
Variable load_model : string -> string -> result Model.
(** [model.wd.device = pytorch_device] *)
Variable set_device : string -> Model -> Model.

(** [f"{model_type}_{pytorch_device}"] *)
Definition cache_key (model_type pytorch_device : string) : string :=
  model_type +:+ "_" +:+ pytorch_device.

Definition get_model (model_type pytorch_device : string) (model_cache : gmap string Model)
  : result Model * gmap string Model :=
  let cache_key := cache_key model_type pytorch_device in
  match model_cache !! cache_key with
  | Some model => (Ok model, model_cache)
  | None =>
      match model_version !! model_type with
      | None => (Raise (PyExn KeyError model_type), model_cache)
      | Some version =>
          match load_model (model_path version) model_type with
          | Raise e => (Raise e, model_cache)
          | Ok model =>
              let model := set_device pytorch_device model in
              (Ok model, <[cache_key := model]> model_cache)
          end
      end
  end.

(** X23. [get_model] never replaces or removes an entry of the cache: a
    call that raises (unknown model type, failed load) leaves the cache as
    it was, and a call that returns leaves every entry in place, adds at
    most the entry of its own key, and returns the model that the cache
    then holds under that key. *)
Theorem X23_model_cache_only_grows
  (model_type pytorch_device : string) (model_cache model_cache' : gmap string Model)
  (r : result Model) :
  get_model model_type pytorch_device model_cache = (r, model_cache') ->
  (forall e, r = Raise e -> model_cache' = model_cache) /\
  (forall key model, model_cache !! key = Some model -> model_cache' !! key = Some model) /\
  (forall key, key ≠ cache_key model_type pytorch_device ->
     model_cache' !! key = model_cache !! key) /\
  (forall model, r = Ok model ->
     model_cache' !! cache_key model_type pytorch_device = Some model).
Proof.
  unfold get_model. cbv zeta.
  destruct (model_cache !! cache_key model_type pytorch_device) as [cached|] eqn:Hc.
  { intros [= <- <-]. repeat split; try done. by intros model [= <-]. }
  destruct (model_version !! model_type) as [version|].
  2: { intros [= <- <-]. repeat split; done. }
  destruct (load_model (model_path version) model_type) as [loaded|e].
  2: { intros [= <- <-]. repeat split; done. }
  intros [= <- <-]. repeat split.
  - done.
  - intros key model Hkey. rewrite lookup_insert_ne; [done|]. intros <-. congruence.
  - intros key Hkey. by rewrite lookup_insert_ne.
  - intros model [= <-]. by rewrite lookup_insert_eq.
Qed.

Lemma get_model_cached
  (model_type pytorch_device : string) (model_cache model_cache' : gmap string Model)
  (model : Model) :
  get_model model_type pytorch_device model_cache = (Ok model, model_cache') ->
  model_cache' !! cache_key model_type pytorch_device = Some model.
Proof.
  unfold get_model. cbv zeta.
  destruct (model_cache !! cache_key model_type pytorch_device) as [cached|] eqn:Hc.
  { by intros [= <- <-]. }
  destruct (model_version !! model_type) as [version|]; [|done].
  destruct (load_model (model_path version) model_type) as [loaded|e]; [|done].
  intros [= <- <-]. by rewrite lookup_insert_eq.
Qed.

End ModelCache.

(** X24. Once a call has returned a model, every later call with the same
    key text returns that very model and leaves the cache as it is,
    whatever the versions, the loader and the device would give now: the
    same call again, but also a call with another model type and another
    device whose texts join to the same key, for which the model type is
    not looked up and the device is not set. *)
Theorem X24_cache_hit_by_key_text_only (Model : Type)
  (model_version model_version' : gmap string string)
  (model_path model_path' : string -> string)
  (load_model load_model' : string -> string -> result Model)
  (set_device set_device' : string -> Model -> Model)
  (model_type pytorch_device model_type' pytorch_device' : string)
  (model_cache model_cache' : gmap string Model) (model : Model) :
  get_model Model model_version model_path load_model set_device
    model_type pytorch_device model_cache = (Ok model, model_cache') ->
  cache_key model_type pytorch_device = cache_key model_type' pytorch_device' ->
  get_model Model model_version' model_path' load_model' set_device'
    model_type' pytorch_device' model_cache' = (Ok model, model_cache').
Proof.
  intros Hfirst%get_model_cached Hkey. unfold get_model. cbv zeta.
  by rewrite <- Hkey, Hfirst.
Qed.

(** A model stands for its type and the device it was set to. *)
Definition versions_rf_ssl : gmap string string :=
  {[ "rf" := "20230713"; "ssl" := "ssl-20230208" ]}.

Definition path_of (version : string) : string := version +:+ ".joblib.lzma".

Definition load_named (path model_type : string) : result (string * string) :=
  Ok (model_type, EmptyString).

Definition load_refused (path model_type : string) : result (string * string) :=
  Raise (PyExn ValueError "download refused").

Definition device_of (pytorch_device : string) (model : string * string) : string * string :=
  (model.1, pytorch_device).

Lemma X23_failed_load_witness :
  get_model (string * string) versions_rf_ssl path_of load_refused device_of "ssl" "cpu"
    {[ "rf_cpu" := ("rf", "cpu") ]}
  = (Raise (PyExn ValueError "download refused"), {[ "rf_cpu" := ("rf", "cpu") ]}) /\
  ({[ "rf_cpu" := ("rf", "cpu") ]} : gmap string (string * string))
  = {[ "rf_cpu" := ("rf", "cpu") ]}.
Proof.
  assert (get_model (string * string) versions_rf_ssl path_of load_refused device_of
            "ssl" "cpu" {[ "rf_cpu" := ("rf", "cpu") ]}
          = (Raise (PyExn ValueError "download refused"), {[ "rf_cpu" := ("rf", "cpu") ]}))
    as Hcall by (vm_compute; reflexivity).
  split; [exact Hcall|].
  exact (proj1 (X23_model_cache_only_grows (string * string) versions_rf_ssl path_of
                  load_refused device_of "ssl" "cpu" _ _ _ Hcall) _ eq_refl).
Defined.

Lemma X24_key_collision_witness :
  get_model (string * string) versions_rf_ssl path_of load_named device_of "rf" "cuda_0" ∅
  = (Ok ("rf", "cuda_0"), {[ "rf_cuda_0" := ("rf", "cuda_0") ]}) /\
  get_model (string * string) ∅ path_of load_refused device_of "rf_cuda" "0"
    {[ "rf_cuda_0" := ("rf", "cuda_0") ]}
  = (Ok ("rf", "cuda_0"), {[ "rf_cuda_0" := ("rf", "cuda_0") ]}).
Proof.
  assert (get_model (string * string) versions_rf_ssl path_of load_named device_of
            "rf" "cuda_0" ∅
          = (Ok ("rf", "cuda_0"), {[ "rf_cuda_0" := ("rf", "cuda_0") ]}))
    as Hfirst by (vm_compute; reflexivity).
  split; [exact Hfirst|].
  exact (X24_cache_hit_by_key_text_only (string * string) versions_rf_ssl ∅ path_of path_of
           load_named load_refused device_of device_of "rf" "cuda_0" "rf_cuda" "0"
           _ _ _ Hfirst eq_refl).
Defined.

(** * Conversion to native values *)

(** A comprehension over a list whose element expression can raise: left
    to right, the first exception ends it. *)
Definition traverse {A B} (f : A -> result B) : list A -> result (list B) :=
  fix each (l : list A) : result (list B) :=
    match l with
    | [] => Ok []
    | a :: rest => b ← f a; rest ← each rest; Ok (b :: rest)
    end.

Lemma traverse_Ok {A B} (f : A -> result B) (l : list A) (l' : list B) :
  traverse f l = Ok l' <-> Forall2 (fun a b => f a = Ok b) l l'.
Proof.
  revert l'. induction l as [|a l IH]; intros l'; cbn.
  - split; [intros [= <-]; constructor | by intros ->%Forall2_nil_inv_l].
  - destruct (f a) as [b|e] eqn:Ha.
    + rewrite bind_Ok. fold (traverse f l). destruct (traverse f l) as [rest|e] eqn:Hl.
      * rewrite bind_Ok. split.
        -- intros [= <-]. constructor; [done|]. by apply IH.
        -- intros (b' & rest' & Hb & Hrest & ->)%Forall2_cons_inv_l.
           apply IH in Hrest. congruence.
      * rewrite bind_Raise. split; [done|].
        intros (b' & rest' & _ & Hrest & _)%Forall2_cons_inv_l. by apply IH in Hrest.
    + rewrite bind_Raise. split; [done|].
      intros (b' & rest' & Hb & _)%Forall2_cons_inv_l. congruence.
Qed.

Section Native.

(** A [pd.Series], a [pd.DataFrame], an object with an attribute [item]
    (a numpy scalar or array) and an object without. *)
Variable PdSeries PdFrame Numpy Plain : Type.

(** What the function tells apart, in the order of its tests. *)
#[warnings="-register-all"] Inductive pyobj :=
| OSeries (s : PdSeries)
| OFrame (f : PdFrame)
| ODict (items : list (string * pyobj))
| OList (items : list pyobj)
| OItem (v : Numpy)
| OPlain (v : Plain).

(** [obj.to_dict()], [obj.to_dict('records')] and [obj.item()], which
    raises on an array of more than one element. *)
Variable to_dict : PdSeries -> pyobj.
Variable to_records : PdFrame -> pyobj.
Variable scalar_item : Numpy -> result Plain.

Fixpoint convert_pandas_to_native (obj : pyobj) : result pyobj :=
  match obj with
  | OSeries s => Ok (to_dict s)
  | OFrame f => Ok (to_records f)
  | ODict items =>
      items ← traverse (fun kv => v ← convert_pandas_to_native kv.2; Ok (kv.1, v)) items;
      Ok (ODict items)
  | OList items =>
      items ← traverse convert_pandas_to_native items;
      Ok (OList items)
  | OItem v => v ← scalar_item v; Ok (OPlain v)
  | OPlain _ => Ok obj
  end.

(** No pandas object within the dicts and lists of [obj]. *)
Fixpoint pandas_free (obj : pyobj) : bool :=
  match obj with
  | OSeries _ | OFrame _ => false
  | ODict items => forallb (fun kv => pandas_free kv.2) items
  | OList items => forallb pandas_free items
  | OItem _ | OPlain _ => true
  end.

(** Neither a pandas object nor an object with [item] within the dicts and
    lists of [obj]. *)
Fixpoint native (obj : pyobj) : bool :=
  match obj with
  | OSeries _ | OFrame _ | OItem _ => false
  | ODict items => forallb (fun kv => native kv.2) items
  | OList items => forallb native items
  | OPlain _ => true
  end.

Lemma pyobj_nested_ind (P : pyobj -> Prop) :
  (forall s, P (OSeries s)) -> (forall f, P (OFrame f)) ->
  (forall items, Forall (fun kv => P kv.2) items -> P (ODict items)) ->
  (forall items, Forall P items -> P (OList items)) ->
  (forall v, P (OItem v)) -> (forall v, P (OPlain v)) ->
  forall obj, P obj.
Proof.
  intros HS HF HD HL HI HP. fix IH 1. intros [s|f|items|items|v|v].
  - apply HS.
  - apply HF.
  - apply HD. induction items as [|kv rest IHrest]; constructor; [apply IH | exact IHrest].
  - apply HL. induction items as [|v rest IHrest]; constructor; [apply IH | exact IHrest].
  - apply HI.
  - apply HP.
Qed.

Lemma convert_dict_inv (items : list (string * pyobj)) (obj' : pyobj) :
  convert_pandas_to_native (ODict items) = Ok obj' ->
  exists items', obj' = ODict items' /\ items'.*1 = items.*1 /\
    Forall2 (fun kv kv' => convert_pandas_to_native kv.2 = Ok kv'.2) items items'.
Proof.
  cbn [convert_pandas_to_native].
  destruct (traverse _ items) as [items'|e] eqn:Ht; [|done]. rewrite bind_Ok.
  intros [= <-]. exists items'. split; [done|]. apply traverse_Ok in Ht.
  induction Ht as [|kv kv' rest rest' Hkv _ IH]; [by split; [|constructor]|].
  destruct IH as [Hkeys Hall].
  destruct (convert_pandas_to_native kv.2) as [v|e] eqn:Hv; [|done].
  rewrite bind_Ok in Hkv. injection Hkv as <-. split.
  - cbn. by rewrite Hkeys.
  - by constructor.
Qed.

Lemma convert_list_inv (items : list pyobj) (obj' : pyobj) :
  convert_pandas_to_native (OList items) = Ok obj' ->
  exists items', obj' = OList items' /\
    Forall2 (fun v v' => convert_pandas_to_native v = Ok v') items items'.
Proof.
  cbn [convert_pandas_to_native].
  destruct (traverse _ items) as [items'|e] eqn:Ht; [|done]. rewrite bind_Ok.
  intros [= <-]. exists items'. split; [done|]. by apply traverse_Ok.
Qed.

Lemma convert_gives_native (obj : pyobj) :
  forall obj', convert_pandas_to_native obj = Ok obj' ->
               pandas_free obj = true -> native obj' = true.
Proof.
  induction obj as [s|f|items IH|items IH|v|v] using pyobj_nested_ind; intros obj'.
  - done.
  - done.
  - intros (items' & -> & _ & Hall)%convert_dict_inv Hfree. cbn [pandas_free native] in *.
    induction Hall as [|kv kv' rest rest' Hkv _ IHall]; [done|]. cbn in *.
    apply andb_true_iff in Hfree as [Hkvf Hrestf].
    apply Forall_cons in IH as [IHkv IHrest].
    rewrite (IHkv _ Hkv Hkvf). by apply IHall.
  - intros (items' & -> & Hall)%convert_list_inv Hfree. cbn [pandas_free native] in *.
    induction Hall as [|v v' rest rest' Hv _ IHall]; [done|]. cbn in *.
    apply andb_true_iff in Hfree as [Hvf Hrestf].
    apply Forall_cons in IH as [IHv IHrest].
    rewrite (IHv _ Hv Hvf). by apply IHall.
  - cbn. destruct (scalar_item v); [|done]. rewrite bind_Ok. by intros [= <-].
  - cbn. by intros [= <-].
Qed.

Lemma convert_native_id (obj : pyobj) :
  native obj = true -> convert_pandas_to_native obj = Ok obj.
Proof.
  induction obj as [s|f|items IH|items IH|v|v] using pyobj_nested_ind; try done.
  - intros Hn. cbn [convert_pandas_to_native native] in *.
    assert (traverse (fun kv => v ← convert_pandas_to_native kv.2; Ok (kv.1, v)) items
            = Ok items) as ->; [|done].
    apply traverse_Ok. induction items as [|[k v] rest IHrest]; [constructor|].
    cbn in Hn. apply andb_true_iff in Hn as [Hv Hrest].
    apply Forall_cons in IH as [IHv IH]. constructor; [|by apply IHrest].
    cbn in *. by rewrite (IHv Hv).
  - intros Hn. cbn [convert_pandas_to_native native] in *.
    assert (traverse convert_pandas_to_native items = Ok items) as ->; [|done].
    apply traverse_Ok. induction items as [|v rest IHrest]; [constructor|].
    cbn in Hn. apply andb_true_iff in Hn as [Hv Hrest].
    apply Forall_cons in IH as [IHv IH]. constructor; [by apply IHv | by apply IHrest].
Qed.

(** X25. When [convert_pandas_to_native] returns: a dict comes back as a
    dict with the same keys in the same order, a list as a list of the same
    length, each value being the conversion of the value at its place; and
    if the object holds no pandas object within its dicts and lists, the
    result holds no object with [item] either, and converting it again
    gives it back unchanged. *)
Theorem X25_conversion_keeps_shape_and_reaches_native (obj obj' : pyobj) :
  convert_pandas_to_native obj = Ok obj' ->
  (forall items, obj = ODict items ->
     exists items', obj' = ODict items' /\ items'.*1 = items.*1 /\
       Forall2 (fun kv kv' => convert_pandas_to_native kv.2 = Ok kv'.2) items items') /\
  (forall items, obj = OList items ->
     exists items', obj' = OList items' /\ length items' = length items /\
       Forall2 (fun v v' => convert_pandas_to_native v = Ok v') items items') /\
  (pandas_free obj = true ->
     native obj' = true /\ convert_pandas_to_native obj' = Ok obj').
Proof.
  intros Hc. split; [|split].
  - intros items ->. by apply convert_dict_inv.
  - intros items ->. apply convert_list_inv in Hc as (items' & -> & Hall).
    exists items'. split; [done|]. split; [|done]. symmetry. by eapply Forall2_length.
  - intros Hfree. pose proof (convert_gives_native obj obj' Hc Hfree) as Hn.
    split; [done|]. by apply convert_native_id.
Qed.

End Native.

(** Numbers as plain values; an array stands as the list of its elements,
    and [item] raises unless there is exactly one. *)
Definition array_item (a : list Z) : result Z :=
  match a with
  | [n] => Ok n
  | _ => Raise (PyExn ValueError "can only convert an array of size 1 to a Python scalar")
  end.

Definition wear_dict : pyobj unit unit (list Z) Z :=
  ODict unit unit (list Z) Z
    [("steps", OItem unit unit (list Z) Z [7]);
     ("days", OList unit unit (list Z) Z
                [OItem unit unit (list Z) Z [1]; OPlain unit unit (list Z) Z 2])].

Definition wear_dict_native : pyobj unit unit (list Z) Z :=
  ODict unit unit (list Z) Z
    [("steps", OPlain unit unit (list Z) Z 7);
     ("days", OList unit unit (list Z) Z
                [OPlain unit unit (list Z) Z 1; OPlain unit unit (list Z) Z 2])].

Example array_in_a_list_raises :
  convert_pandas_to_native unit unit (list Z) Z (fun _ => wear_dict) (fun _ => wear_dict)
    array_item (OList unit unit (list Z) Z [OItem unit unit (list Z) Z [1; 2]])
  = Raise (PyExn ValueError "can only convert an array of size 1 to a Python scalar").
Proof. reflexivity. Qed.

Lemma X25_wear_dict_witness :
  convert_pandas_to_native unit unit (list Z) Z (fun _ => wear_dict) (fun _ => wear_dict)
    array_item wear_dict = Ok wear_dict_native /\
  native unit unit (list Z) Z wear_dict_native = true /\
  convert_pandas_to_native unit unit (list Z) Z (fun _ => wear_dict) (fun _ => wear_dict)
    array_item wear_dict_native = Ok wear_dict_native.
Proof.
  assert (convert_pandas_to_native unit unit (list Z) Z (fun _ => wear_dict)
            (fun _ => wear_dict) array_item wear_dict = Ok wear_dict_native) as Hc
    by reflexivity.
  split; [exact Hc|].
  exact (proj2 (proj2 (X25_conversion_keeps_shape_and_reaches_native unit unit (list Z) Z
                         (fun _ => wear_dict) (fun _ => wear_dict) array_item
                         wear_dict wear_dict_native Hc)) eq_refl).
Defined.

(** * Patients and accelerometers

    The endpoints take the JSON body as a dict. [patients_db] is fixed;
    [accelerometers_db] is a module-level dict, threaded through the
    endpoints as state. *)

#[warnings="-register-all"] Inductive json :=
| JNull
| JBool (b : bool)
| JNum (q : Q)
| JStr (s : string)
| JList (l : list json)
| JObject (items : list (string * json)).

(** [request.get(key)]: [None] without the key, and for a JSON null. *)
Definition dict_get (key : string) (request : gmap string json) : json :=
  default JNull (request !! key).

(** Truth value of what [request.get] gives. *)
Definition truthy_json (v : json) : bool :=
  match v with
  | JNull => false
  | JBool b => b
  | JNum q => negb (Qeq_bool q 0)
  | JStr s => truthy s
  | JList l => match l with [] => false | _ => true end
  | JObject items => match items with [] => false | _ => true end
  end.

(** [v in db] for a dict with text keys: a list and a dict cannot be
    hashed, a number and a boolean equal no text. *)
Definition contains_key {V} (v : json) (db : gmap string V) : result bool :=
  match v with
  | JStr s => Ok (bool_decide (is_Some (db !! s)))
  | JList _ => Raise (PyExn TypeError "unhashable type: 'list'")
  | JObject _ => Raise (PyExn TypeError "unhashable type: 'dict'")
  | _ => Ok false
  end.

(** What an endpoint comes to: a returned body, an [HTTPException] that
    FastAPI answers with its status, or another exception. *)
Inductive reply (A : Type) : Type :=
| Returned (body : A)
| HTTPError (status_code : Z) (detail : string)
| Unhandled (e : exn).
Arguments Returned {A} body.
Arguments HTTPError {A} status_code detail.
Arguments Unhandled {A} e.

Record Patient := {
  id : string;
  nom : string;
  prenom : string;
  date_naissance : string;
  age : Z;
  sexe : string;
  poids : Q;
  taille : Q
}.

Definition patients_db : gmap string Patient :=
  {[ "P001" := {| id := "P001"; nom := "Dupont"; prenom := "Jean";
                  date_naissance := "1985-03-15"; age := 39; sexe := "M";
                  poids := 151 # 2; taille := 175 |};
     "P002" := {| id := "P002"; nom := "Martin"; prenom := "Marie";
                  date_naissance := "1990-07-22"; age := 34; sexe := "F";
                  poids := 623 # 10; taille := 165 |};
     "P003" := {| id := "P003"; nom := "Bernard"; prenom := "Pierre";
                  date_naissance := "1978-11-08"; age := 46; sexe := "M";
                  poids := 821 # 10; taille := 180 |} ]}.

Definition get_patient (patient_id : string) : reply Patient :=
  match patients_db !! patient_id with
  | None => HTTPError 404 "Patient not found"
  | Some patient => Returned patient
  end.

(** An entry of [accelerometers_db]. *)
Record Accelerometer := {
  acc_id : string;
  acc_patient_id : json;
  acc_status : string;
  acc_created_at : string
}.

(** The body that [configure_accelerometer] returns. *)
Record Configured := {
  cfg_id : string;
  cfg_patient_id : json;
  cfg_status : string;
  cfg_message : string
}.

(** The body that [extract_accelerometer_data] returns. *)
Record Extraction := {
  fileSize : Z;
  lineCount : Z;
  data : string;
  ext_message : string
}.

Definition mock_extraction : Extraction := {|
  fileSize := 1024000;
  lineCount := 50000;
  data := "time,x,y,z" +:+ nl +:+ "2025-01-01 10:00:00,0.5,-0.8,0.1" +:+ nl +:+ "...";
  ext_message := "Data extracted successfully"
|}.

(** [processing_results] of [process_patient_data]. *)
Record MockResults := {
  total_steps : Z;
  data_duration_hours : Q;
  mock_sample_rate : Z;
  total_walking_minutes : Q;
  average_daily_steps : Z;
  processing_time : Q
}.

Definition processing_results : MockResults := {|
  total_steps := 8542;
  data_duration_hours := 17 # 2;
  mock_sample_rate := 104;
  total_walking_minutes := 241 # 2;
  average_daily_steps := 8542;
  processing_time := 23 # 10
|}.

Record Processed := {
  prc_patient_id : json;
  prc_results : MockResults;
  prc_message : string
}.

Section Patients.

(** [str] of a JSON value that is not a text, inside an f-string. *)
Variable str_other : json -> string.

Definition format_value (v : json) : string :=
  match v with
  | JStr s => s
  | _ => str_other v
  end.

(** [now] is [int(time.time())] and [created_at] the text of
    [time.strftime] at the call. *)
Definition configure_accelerometer (request : gmap string json) (now : Z)
  (created_at : string) (accelerometers_db : gmap string Accelerometer)
  : reply Configured * gmap string Accelerometer :=
  let patient_id := dict_get "patient_id" request in
  if negb (truthy_json patient_id)
  then (HTTPError 400 "Patient ID is required", accelerometers_db)
  else
    match contains_key patient_id patients_db with
    | Raise e => (Unhandled e, accelerometers_db)
    | Ok false => (HTTPError 404 "Patient not found", accelerometers_db)
    | Ok true =>
        let accelerometer_id :=
          "ACC_" +:+ format_value patient_id +:+ "_" +:+ str_int now in
        (Returned {| cfg_id := accelerometer_id;
                     cfg_patient_id := patient_id;
                     cfg_status := "configured";
                     cfg_message := "Accelerometer configured and initialized successfully" |},
         <[accelerometer_id := {| acc_id := accelerometer_id;
                                  acc_patient_id := patient_id;
                                  acc_status := "configured";
                                  acc_created_at := created_at |}]> accelerometers_db)
    end.

Definition extract_accelerometer_data (request : gmap string json)
  (accelerometers_db : gmap string Accelerometer) : reply Extraction :=
  let accelerometer_id := dict_get "accelerometer_id" request in
  if negb (truthy_json accelerometer_id)
  then HTTPError 400 "Accelerometer ID is required"
  else
    match contains_key accelerometer_id accelerometers_db with
    | Raise e => Unhandled e
    | Ok false => HTTPError 404 "Accelerometer not found"
    | Ok true => Returned mock_extraction
    end.

Definition process_patient_data (request : gmap string json) : reply Processed :=
  let patient_id := dict_get "patient_id" request in
  let extraction_data := dict_get "extraction_data" request in
  if negb (truthy_json patient_id)
  then HTTPError 400 "Patient ID is required"
  else if negb (truthy_json extraction_data)
  then HTTPError 400 "Extraction data is required"
  else
    match contains_key patient_id patients_db with
    | Raise e => Unhandled e
    | Ok false => HTTPError 404 "Patient not found"
    | Ok true =>
        Returned {| prc_patient_id := patient_id;
                    prc_results := processing_results;
                    prc_message := "Data processed and saved successfully" |}
    end.

(** A value that passes both tests on the patient is the text of a key of
    [patients_db]. *)
Lemma known_patient (v : json) :
  truthy_json v = true -> contains_key v patients_db = Ok true ->
  exists p patient, v = JStr p /\ get_patient p = Returned patient.
Proof.
  destruct v as [|b|q|s|l|items]; try done. cbn [contains_key].
  intros _ [= Hin%bool_decide_eq_true]. destruct Hin as [patient Hp].
  exists s, patient. unfold get_patient. by rewrite Hp.
Qed.

Lemma patient_accepted (p : string) (patient : Patient) :
  get_patient p = Returned patient ->
  truthy_json (JStr p) = true /\ contains_key (JStr p) patients_db = Ok true.
Proof.
  unfold get_patient. destruct (patients_db !! p) as [found|] eqn:Hp; [|done]. intros _.
  split.
  - destruct p; [|done]. by vm_compute in Hp.
  - cbn [contains_key]. by rewrite bool_decide_eq_true_2.
Qed.

(** X26. [configure_accelerometer] returns exactly for a patient id that is
    the text of a patient [get_patient] finds. It then stores one entry
    under the id [ACC_<patient>_<seconds>], leaves every other entry as it
    was, and [extract_accelerometer_data] on that id and the new state
    returns the data. In every other case the state is unchanged. *)
Theorem X26_configured_accelerometer_can_be_extracted
  (request : gmap string json) (now : Z) (created_at : string)
  (accelerometers_db : gmap string Accelerometer) :
  (forall configured db',
     configure_accelerometer request now created_at accelerometers_db
       = (Returned configured, db') ->
     exists p patient,
       dict_get "patient_id" request = JStr p /\ get_patient p = Returned patient /\
       cfg_id configured = "ACC_" +:+ p +:+ "_" +:+ str_int now /\
       db' !! cfg_id configured
         = Some {| acc_id := cfg_id configured; acc_patient_id := JStr p;
                   acc_status := "configured"; acc_created_at := created_at |} /\
       (forall key, key ≠ cfg_id configured -> db' !! key = accelerometers_db !! key) /\
       extract_accelerometer_data {[ "accelerometer_id" := JStr (cfg_id configured) ]} db'
         = Returned mock_extraction) /\
  (forall p patient,
     dict_get "patient_id" request = JStr p -> get_patient p = Returned patient ->
     exists configured db',
       configure_accelerometer request now created_at accelerometers_db
         = (Returned configured, db')) /\
  (forall answer db',
     configure_accelerometer request now created_at accelerometers_db = (answer, db') ->
     (forall configured, answer ≠ Returned configured) -> db' = accelerometers_db).
Proof.
  unfold configure_accelerometer. cbv zeta. split; [|split].
  - intros configured db'.
    destruct (truthy_json (dict_get "patient_id" request)) eqn:Ht; cbn [negb]; [|done].
    destruct (contains_key (dict_get "patient_id" request) patients_db) as [[|]|e] eqn:Hc;
      [|done|done].
    destruct (known_patient _ Ht Hc) as (p & patient & Hp & Hfound). rewrite Hp.
    cbn [format_value]. intros [= <- <-]. cbn [cfg_id].
    exists p, patient. split; [done|]. split; [done|]. split; [done|].
    split; [by rewrite lookup_insert_eq|]. split; [intros key Hkey; by rewrite lookup_insert_ne|].
    unfold extract_accelerometer_data, dict_get. cbv zeta. rewrite lookup_singleton_eq.
    unfold default, Datatypes.id. cbn [truthy_json contains_key].
    change (truthy ("ACC_" +:+ p +:+ "_" +:+ str_int now)) with true. cbn [negb].
    by rewrite lookup_insert_eq, bool_decide_eq_true_2.
  - intros p patient Hp Hfound. rewrite Hp.
    destruct (patient_accepted p patient Hfound) as [-> ->]. cbn [negb]. by eexists _, _.
  - intros answer db'.
    destruct (truthy_json (dict_get "patient_id" request)); cbn [negb];
      [|by intros [= <- <-]].
    destruct (contains_key (dict_get "patient_id" request) patients_db) as [[|]|e];
      [|by intros [= <- <-]..].
    intros [= <- <-] Hno. by edestruct Hno.
Qed.

(** X27. [process_patient_data] tests in a fixed order: a missing or empty
    patient id is reported first, whatever else the body holds; then
    missing or empty extraction data, also for an unknown patient; only
    then the patient is looked up. It returns exactly for a known patient
    with non-empty extraction data, and what it returns never depends on
    that data. *)
Theorem X27_patient_processing_order_of_checks (request : gmap string json) :
  (truthy_json (dict_get "patient_id" request) = false ->
   process_patient_data request = HTTPError 400 "Patient ID is required") /\
  (truthy_json (dict_get "patient_id" request) = true ->
   truthy_json (dict_get "extraction_data" request) = false ->
   process_patient_data request = HTTPError 400 "Extraction data is required") /\
  ((exists processed, process_patient_data request = Returned processed) <->
   truthy_json (dict_get "extraction_data" request) = true /\
   exists p patient,
     dict_get "patient_id" request = JStr p /\ get_patient p = Returned patient) /\
  (forall processed other processed',
     process_patient_data request = Returned processed ->
     process_patient_data other = Returned processed' ->
     prc_results processed' = prc_results processed /\
     prc_message processed' = prc_message processed).
Proof.
  split; [|split; [|split]].
  - intros Hp. unfold process_patient_data. cbv zeta. by rewrite Hp.
  - intros Hp Hd. unfold process_patient_data. cbv zeta. by rewrite Hp, Hd.
  - unfold process_patient_data. cbv zeta. split.
    + intros [processed Hr].
      destruct (truthy_json (dict_get "patient_id" request)) eqn:Ht; cbn [negb] in Hr; [|done].
      destruct (truthy_json (dict_get "extraction_data" request)); cbn [negb] in Hr; [|done].
      destruct (contains_key (dict_get "patient_id" request) patients_db) as [[|]|e] eqn:Hc;
        [|done|done].
      split; [done|]. by apply known_patient.
    + intros (-> & p & patient & -> & Hfound).
      destruct (patient_accepted p patient Hfound) as [-> ->]. cbn [negb]. by eexists.
  - intros processed other processed'. unfold process_patient_data. cbv zeta.
    repeat match goal with |- context [if ?b then _ else _] => destruct b end; try done.
    destruct (contains_key (dict_get "patient_id" request) patients_db) as [[|]|e];
      [|done|done].
    destruct (contains_key (dict_get "patient_id" other) patients_db) as [[|]|e];
      [|done|done].
    by intros [= <-] [= <-].
Qed.

End Patients.

Definition no_text (v : json) : string := EmptyString.

Lemma X26_patient_two_witness :
  exists configured db',
    configure_accelerometer no_text {[ "patient_id" := JStr "P002" ]} 1700000000
      "2025-01-01 10:00:00" ∅ = (Returned configured, db') /\
    cfg_id configured = "ACC_P002_1700000000" /\
    extract_accelerometer_data {[ "accelerometer_id" := JStr (cfg_id configured) ]} db'
      = Returned mock_extraction.
Proof.
  destruct (X26_configured_accelerometer_can_be_extracted no_text
              {[ "patient_id" := JStr "P002" ]} 1700000000 "2025-01-01 10:00:00" ∅)
    as (Hreturned & Hknown & _).
  assert (dict_get "patient_id" {[ "patient_id" := JStr "P002" ]} = JStr "P002") as Hid
    by (vm_compute; reflexivity).
  assert (exists patient, get_patient "P002" = Returned patient) as [patient Hpatient]
    by (eexists; vm_compute; reflexivity).
  destruct (Hknown "P002" patient Hid Hpatient) as (configured & db' & Hcall).
  exists configured, db'. split; [exact Hcall|].
  destruct (Hreturned configured db' Hcall) as (p & found & Hp & _ & Hcfg & _ & _ & Hextract).
  rewrite Hid in Hp. injection Hp as <-. split; [|exact Hextract].
  rewrite Hcfg. vm_compute. reflexivity.
Defined.

Lemma X27_unknown_patient_without_data_witness :
  process_patient_data {[ "patient_id" := JStr "P009" ]}
  = HTTPError 400 "Extraction data is required" /\
  process_patient_data {[ "extraction_data" := JStr "time,x,y,z" ]}
  = HTTPError 400 "Patient ID is required".
Proof.
  split.
  - apply (proj1 (proj2 (X27_patient_processing_order_of_checks
                           {[ "patient_id" := JStr "P009" ]}))); vm_compute; reflexivity.
  - apply (proj1 (X27_patient_processing_order_of_checks
                    {[ "extraction_data" := JStr "time,x,y,z" ]})). vm_compute. reflexivity.
Defined.
